(** * DPW roster scraper: the shift parser, the date planner and the retry loop

    A shallow embedding of [no-database-roster-scraper.py] and [config.py].

    Conventions of the embedding.
    - A Python [str] is a [string]; its characters are read as the code
      points U+0000..U+00FF, and the builtins below ([strip], [lower],
      [int], ...) follow CPython on that range.
    - A Python [int] is a [Z].
    - A call whose exception the script can see returns a [result]; a
      [ValueError] that is caught on the spot ([int], [strptime], tuple
      unpacking) is an [option].  [sys.exit] is kept apart from
      exceptions, because [SystemExit] is not an [Exception] and the
      script's [except Exception] clauses do not catch it.
    - What the script learns from the browser is read from an oracle, one
      answer per Selenium call site; what it does to the outside world
      (sessions, sleeps, text messages, log records) is a list of events.
      Progress prints are left out; the prints that tell why a run stops
      are kept.
    - The interpreter is CPython with its default cap of 4300 digits on
      conversions between [int] and decimal text.  The numbers the script
      formats itself (dates, the retry counters, the cell index) are taken
      to stay below the cap. *)

From Stdlib Require Import ZArith Lia Bool List String Ascii DecimalString.
From stdpp Require Import base option list gmap strings.
Import ListNotations.

Local Open Scope Z_scope.

(** ** Exceptions and results *)

(** The exception classes the script can meet, each with the message
    [str(e)] renders.  All of them derive from [Exception]. *)
Inductive exn : Type :=
| TimeoutException (msg : string)
| ValueError (msg : string)
| OverflowError (msg : string)
| OtherException (class msg : string).

Definition str_exn (e : exn) : string :=
  match e with
  | TimeoutException m | ValueError m | OverflowError m | OtherException _ m => m
  end.

Inductive result (A : Type) : Type :=
| Ok (a : A)
| Raise (e : exn).
Arguments Ok {A} a.
Arguments Raise {A} e.

#[global] Instance result_ret : MRet result := fun A a => Ok a.

#[global] Instance result_bind : MBind result := fun A B k m =>
  match m with
  | Ok a => k a
  | Raise e => Raise e
  end.

Definition is_timeout (e : exn) : bool :=
  match e with TimeoutException _ => true | _ => false end.

(** ** The Python builtins the script uses *)

Module Py.

Definition chr_code (c : ascii) : N := N_of_ascii c.

Definition in_range (lo hi : N) (c : ascii) : bool :=
  ((lo <=? chr_code c) && (chr_code c <=? hi))%N.

(** [str.isspace] on one character: TAB..CR, FS..US, SPACE, NEL, NBSP. *)
Definition isspace (c : ascii) : bool :=
  in_range 9 13 c || in_range 28 32 c
  || (chr_code c =? 133)%N || (chr_code c =? 160)%N.

(** The blanks [int] skips around a numeral: as [isspace] without
    FS..US. *)
Definition int_space (c : ascii) : bool :=
  in_range 9 13 c || (chr_code c =? 32)%N
  || (chr_code c =? 133)%N || (chr_code c =? 160)%N.

Definition isdigit (c : ascii) : bool := in_range 48 57 c.

Definition digit_value (c : ascii) : Z := Z.of_N (chr_code c) - 48.

Definition is_empty (s : string) : bool :=
  match s with EmptyString => true | String _ _ => false end.

Fixpoint lstrip_by (p : ascii -> bool) (s : string) : string :=
  match s with
  | EmptyString => EmptyString
  | String c s' => if p c then lstrip_by p s' else s
  end.

Fixpoint rstrip_by (p : ascii -> bool) (s : string) : string :=
  match s with
  | EmptyString => EmptyString
  | String c s' =>
      let r := rstrip_by p s' in
      if is_empty r && p c then EmptyString else String c r
  end.

(** [s.strip()] *)
Definition strip (s : string) : string := rstrip_by isspace (lstrip_by isspace s).

(** [s.lstrip(c)] for a one-character argument *)
Definition lstrip_char (c : ascii) (s : string) : string :=
  lstrip_by (Ascii.eqb c) s.

(** [s.lower()]: A..Z and the capital letters U+00C0..U+00DE (U+00D7, the
    multiplication sign, apart) move up by 32. *)
Definition lower_char (c : ascii) : ascii :=
  if in_range 65 90 c || (in_range 192 222 c && negb (chr_code c =? 215)%N)
  then ascii_of_N (chr_code c + 32)
  else c.

Fixpoint lower (s : string) : string :=
  match s with
  | EmptyString => EmptyString
  | String c s' => String (lower_char c) (lower s')
  end.

Fixpoint startswith (p s : string) : bool :=
  match p, s with
  | EmptyString, _ => true
  | String _ _, EmptyString => false
  | String a p', String b s' => Ascii.eqb a b && startswith p' s'
  end.

(** [needle in hay] *)
Fixpoint contains (needle hay : string) : bool :=
  startswith needle hay ||
  match hay with
  | EmptyString => false
  | String _ hay' => contains needle hay'
  end.

(** [s.replace(old, new)] for a non-empty [old]: occurrences are found
    from the left and do not overlap.  [skip] counts the characters of a
    found occurrence that are still to be passed over. *)
Fixpoint replace_from (old new : string) (skip : nat) (s : string) : string :=
  match s with
  | EmptyString => EmptyString
  | String c s' =>
      match skip with
      | S k => replace_from old new k s'
      | O =>
          if startswith old s
          then String.append new (replace_from old new (Nat.pred (String.length old)) s')
          else String c (replace_from old new 0 s')
      end
  end.

Definition replace (old new s : string) : string := replace_from old new 0 s.

(** [s.split(sep)] for a one-character separator: never an empty list. *)
Fixpoint split (sep : ascii) (s : string) : list string :=
  match s with
  | EmptyString => [EmptyString]
  | String c s' =>
      if Ascii.eqb c sep then EmptyString :: split sep s'
      else match split sep s' with
           | piece :: pieces => String c piece :: pieces
           | [] => [String c EmptyString]
           end
  end.

(** CPython's default cap on the digits of a decimal conversion
    ([sys.int_info.default_max_str_digits]). *)
Definition int_max_str_digits : nat := 4300.

(** The digits of a numeral: digits with single underscores between
    them.  Returns the value, the number of digits and what follows. *)
Fixpoint scan_digits (prev_underscore : bool) (acc : Z) (ndigits : nat) (s : string)
  : option (Z * nat * string) :=
  match s with
  | EmptyString => if prev_underscore then None else Some (acc, ndigits, s)
  | String c s' =>
      if isdigit c then scan_digits false (10 * acc + digit_value c) (S ndigits) s'
      else if Ascii.eqb c "_" then
             if prev_underscore then None else scan_digits true acc ndigits s'
      else if prev_underscore then None else Some (acc, ndigits, s)
  end.

(** [int(s)]: blanks, an optional sign, the digits, blanks.  Anything
    else is a [ValueError] ([None]), and so is a numeral above the digit
    cap. *)
Definition int (s : string) : option Z :=
  let body := lstrip_by int_space s in
  let '(sign, numeral) :=
    match body with
    | String "+" r => (1, r)
    | String "-" r => (-1, r)
    | _ => (1, body)
    end in
  if startswith "_" numeral then None
  else match scan_digits false 0 0 numeral with
       | None => None
       | Some (v, n, rest) =>
           if (n =? 0)%nat then None
           else if negb (is_empty (lstrip_by int_space rest)) then None
           else if (int_max_str_digits <? n)%nat then None
           else Some (sign * v)
       end.

(** [str(n)] for an [int], as an f-string renders it. *)
Definition str (n : Z) : string := NilZero.string_of_int (Z.to_int n).

(** [n] has more decimal digits than the cap allows: then [str(n)], and
    with it [json.dumps], raises [ValueError]. *)
Definition over_digit_cap (n : Z) : bool :=
  10 ^ Z.of_nat int_max_str_digits <=? Z.abs n.

(** *** [datetime.date] *)

Record date : Type := Date { year : Z; month : Z; day : Z }.

Definition is_leap (y : Z) : bool :=
  (y mod 4 =? 0) && (negb (y mod 100 =? 0) || (y mod 400 =? 0)).

Definition days_before_year (y : Z) : Z :=
  let p := y - 1 in p * 365 + p / 4 - p / 100 + p / 400.

Definition DAYS_IN_MONTH : list Z :=
  [-1; 31; 28; 31; 30; 31; 30; 31; 31; 30; 31; 30; 31].

Definition DAYS_BEFORE_MONTH : list Z :=
  [-1; 0; 31; 59; 90; 120; 151; 181; 212; 243; 273; 304; 334].

Definition table (t : list Z) (i : Z) : Z := nth (Z.to_nat i) t (-1).

Definition days_in_month (y m : Z) : Z :=
  if (m =? 2) && is_leap y then 29 else table DAYS_IN_MONTH m.

Definition days_before_month (y m : Z) : Z :=
  table DAYS_BEFORE_MONTH m + (if (2 <? m) && is_leap y then 1 else 0).

(** [d.toordinal()]: 1 for 0001-01-01. *)
Definition toordinal (d : date) : Z :=
  days_before_year (year d) + days_before_month (year d) (month d) + day d.

Definition DI400Y : Z := 146097.
Definition DI100Y : Z := 36524.
Definition DI4Y : Z := 1461.
Definition MAXORDINAL : Z := 3652059.

(** [date.fromordinal(n)] *)
Definition fromordinal (n : Z) : date :=
  let n := n - 1 in
  let n400 := n / DI400Y in
  let n := n mod DI400Y in
  let n100 := n / DI100Y in
  let n := n mod DI100Y in
  let n4 := n / DI4Y in
  let n := n mod DI4Y in
  let n1 := n / 365 in
  let n := n mod 365 in
  let y := n400 * 400 + 1 + n100 * 100 + n4 * 4 + n1 in
  if (n1 =? 4) || (n100 =? 4) then Date (y - 1) 12 31
  else
    let leapyear := (n1 =? 3) && (negb (n4 =? 24) || (n100 =? 3)) in
    let m := Z.shiftr (n + 50) 5 in
    let preceding := table DAYS_BEFORE_MONTH m + (if (2 <? m) && leapyear then 1 else 0) in
    if n <? preceding then
      let m' := m - 1 in
      let preceding' :=
        preceding - (table DAYS_IN_MONTH m' + (if (m' =? 2) && leapyear then 1 else 0)) in
      Date y m' (n - preceding' + 1)
    else Date y m (n - preceding + 1).

(** [d.weekday()]: Monday is 0 and Sunday is 6. *)
Definition weekday (d : date) : Z := (toordinal d + 6) mod 7.

(** [d + timedelta(days=k)]: [OverflowError] outside 0001-01-01 ..
    9999-12-31. *)
Definition add_days (d : date) (k : Z) : result date :=
  let o := toordinal d + k in
  if (0 <? o) && (o <=? MAXORDINAL) then Ok (fromordinal o)
  else Raise (OverflowError "date value out of range").

(** The [date(y, m, d)] constructor: [ValueError] ([None]) unless the
    fields name a day of the calendar. *)
Definition make_date (y m d : Z) : option date :=
  if (1 <=? y) && (y <=? 9999) && (1 <=? m) && (m <=? 12)
     && (1 <=? d) && (d <=? days_in_month y m)
  then Some (Date y m d)
  else None.

Definition day_names : list string :=
  ["Monday"; "Tuesday"; "Wednesday"; "Thursday"; "Friday"; "Saturday"; "Sunday"]%string.

Definition month_names : list string :=
  [""; "January"; "February"; "March"; "April"; "May"; "June"; "July";
   "August"; "September"; "October"; "November"; "December"]%string.

(** [d.strftime('%A')], in the C locale *)
Definition strftime_A (d : date) : string :=
  nth (Z.to_nat (weekday d)) day_names ""%string.

(** [d.strftime('%a').lower()], in the C locale *)
Definition strftime_a_lower (d : date) : string :=
  lower (String.substring 0 3 (strftime_A d)).

Definition two_digits (n : Z) : string :=
  if n <? 10 then String.append "0" (str n) else str n.

(** [d.strftime('%B %Y')].  The year is rendered without padding, as the
    C library does; this only shows before the year 1000. *)
Definition strftime_B_Y (d : date) : string :=
  String.append (nth (Z.to_nat (month d)) month_names ""%string)
    (String.append " " (str (year d))).

(** [str(d)]: the year takes four digits. *)
Definition isoformat (d : date) : string :=
  let y := year d in
  let pad := if y <? 10 then "000" else if y <? 100 then "00" else if y <? 1000 then "0" else "" in
  String.append pad
    (String.append (str y)
       (String.append "-" (String.append (two_digits (month d))
          (String.append "-" (two_digits (day d)))))).

(** [d.strftime('%Y-%m-%d')] *)
Definition strftime_Y_m_d (d : date) : string :=
  String.append (str (year d))
    (String.append "-" (String.append (two_digits (month d))
       (String.append "-" (two_digits (day d))))).

(** *** [datetime.strptime(s, '%Y-%m-%d')]

    The format compiles to the regular expression
    [(\d\d\d\d)-(1[0-2]|0[1-9]|[1-9])-(3[0-1]|[1-2]\d|0[1-9]|[1-9]| [1-9])],
    matched at the start of the text; text left over after the match is
    an error, and so is a day the month does not have. *)

Definition take_digit (s : string) : option (Z * string) :=
  match s with
  | String c r => if isdigit c then Some (digit_value c, r) else None
  | EmptyString => None
  end.

Definition take_char (c : ascii) (s : string) : option string :=
  match s with
  | String c' r => if Ascii.eqb c c' then Some r else None
  | EmptyString => None
  end.

Definition match_Y (s : string) : option (Z * string) :=
  '(a, s) ← take_digit s; '(b, s) ← take_digit s;
  '(c, s) ← take_digit s; '(d, s) ← take_digit s;
  Some (1000 * a + 100 * b + 10 * c + d, s).

(** The alternatives of [%m] that match at the head of [s], in the order
    the matcher tries them. *)
Definition match_m (s : string) : list (Z * string) :=
  match take_digit s with
  | None => []
  | Some (a, r) =>
      let two :=
        match take_digit r with
        | Some (b, r') =>
            if ((a =? 1) && (b <=? 2)) || ((a =? 0) && (1 <=? b))
            then [(10 * a + b, r')] else []
        | None => []
        end in
      two ++ (if 1 <=? a then [(a, r)] else [])
  end.

(** The first alternative of [%d] that matches at the head of [s]. *)
Definition match_d (s : string) : option (Z * string) :=
  match take_digit s with
  | Some (a, r) =>
      match take_digit r with
      | Some (b, r') =>
          if ((a =? 3) && (b <=? 1)) || ((1 <=? a) && (a <=? 2)) || ((a =? 0) && (1 <=? b))
          then Some (10 * a + b, r')
          else if 1 <=? a then Some (a, r) else None
      | None => if 1 <=? a then Some (a, r) else None
      end
  | None =>
      r ← take_char " " s;
      '(b, r') ← take_digit r;
      if 1 <=? b then Some (b, r') else None
  end.

(** The rest of the pattern after the month, tried on each alternative
    of the month in turn. *)
Fixpoint match_after_m (y : Z) (alts : list (Z * string)) : option (Z * Z * Z * string) :=
  match alts with
  | [] => None
  | (m, s) :: alts' =>
      match (s ← take_char "-" s; match_d s) with
      | Some (d, rest) => Some (y, m, d, rest)
      | None => match_after_m y alts'
      end
  end.

Definition strptime_Y_m_d (s : string) : option date :=
  '(y, s) ← match_Y s;
  s ← take_char "-" s;
  '(y, m, d, rest) ← match_after_m y (match_m s);
  if is_empty rest then make_date y m d else None.

End Py.

(** ** Effects of the script *)

(** One line of the structured log: the dictionary handed to
    [log_message], without its time stamp. *)
Module Log.

Inductive level : Type := INFO | WARNING | ERROR.

Inductive kind : Type :=
| SMS_SENT
| SHIFT_NOT_FINALISED
| SHIFT_PROCESSING_ERROR
| RETRY_LIMIT_REACHED
| UNEXPECTED_ERROR.

Record entry : Type := Entry {
  level_of : level;
  event_of : kind;
  sms_content : string;
  day : string;
  date : string;
  shift_start : Z;
  shift_end : Z;
  hours : Z;
  retry_attempts : Z
}.

End Log.

(** What the script does to the world around it. *)
Inductive event : Type :=
| Print (text : string)
| LogLine (data : Log.entry)
| OpenSession
| QuitSession
| Sleep (seconds : nat)
| Sms (message : string) (recipients : list string).

(** How a piece of the script ends: it falls through with a value, an
    exception leaves it, or [sys.exit] was called. *)
Inductive outcome (A : Type) : Type :=
| Done (a : A)
| Raised (e : exn)
| Exited (code : Z).
Arguments Done {A} a.
Arguments Raised {A} e.
Arguments Exited {A} code.

(** A piece of the script: the events it caused, then how it ended. *)
Definition io (A : Type) : Type := list event * outcome A.

#[global] Instance io_ret : MRet io := fun A a => ([], Done a).

#[global] Instance io_bind : MBind io := fun A B k m =>
  match m with
  | (tr, Done a) => let '(tr', o) := k a in (tr ++ tr', o)
  | (tr, Raised e) => (tr, Raised e)
  | (tr, Exited c) => (tr, Exited c)
  end.

Definition emit (ev : event) : io unit := ([ev], Done tt).

Definition raise {A : Type} (e : exn) : io A := ([], Raised e).

Definition sys_exit {A : Type} (code : Z) : io A := ([], Exited code).

Definition lift {A : Type} (r : result A) : io A :=
  match r with
  | Ok a => ([], Done a)
  | Raise e => ([], Raised e)
  end.

(** [try: body  except ...: handler].  The handler answers [None] for an
    exception its [except] clause does not name, which then travels on. *)
Definition try_except {A : Type} (body : io A) (handler : exn -> option (io A)) : io A :=
  match body with
  | (tr, Raised e) =>
      match handler e with
      | Some h => let '(tr', o) := h in (tr ++ tr', o)
      | None => (tr, Raised e)
      end
  | _ => body
  end.

(** A loop body either goes on to the next round or leaves the loop. *)
Inductive flow (A : Type) : Type :=
| Next (a : A)
| Break (a : A).
Arguments Next {A} a.
Arguments Break {A} a.

(** The status the operating system sees. *)
Definition exit_status {A : Type} (o : outcome A) : Z :=
  match o with
  | Done _ => 0
  | Raised _ => 1
  | Exited c => c
  end.

(** [log_message(data)]: [json.dumps] renders the numbers in decimal and
    raises when one of them is above the digit cap. *)
Definition digit_cap_message : string :=
  "Exceeds the limit (4300 digits) for integer string conversion; use sys.set_int_max_str_digits() to increase the limit".

Definition json_dumps_ok (data : Log.entry) : bool :=
  negb (Py.over_digit_cap (Log.shift_start data) || Py.over_digit_cap (Log.shift_end data)
        || Py.over_digit_cap (Log.hours data) || Py.over_digit_cap (Log.retry_attempts data)).

Definition log_message (data : Log.entry) : io unit :=
  if json_dumps_ok data then emit (LogLine data)
  else raise (ValueError digit_cap_message).

(** [send_sms(message, recipients)]: one request for the whole list.  The
    function catches every exception of the delivery itself. *)
Definition send_sms (message : string) (recipients : list string) : io unit :=
  emit (Sms message recipients).

(** ** The shift parser (lines 194-262 of [process_roster]) *)

Record Shift : Type := {
  shift_type : string;
  shift_start : Z;
  shift_end : Z;
  hours : Z
}.

(** [int(text.lstrip('0') or '0')] *)
Definition int_without_leading_zeros (text : string) : option Z :=
  let stripped := Py.lstrip_char "0" text in
  Py.int (if Py.is_empty stripped then "0"%string else stripped).

Fixpoint remove_char (c : ascii) (s : string) : string :=
  match s with
  | EmptyString => EmptyString
  | String c' s' => if Ascii.eqb c c' then remove_char c s' else String c' (remove_char c s')
  end.

(** Lines 244-261 for one stripped, non-empty line: [None] when the
    [try] of line 246 raises [ValueError], from either unpacking or from
    one of the three [int] calls. *)
Definition parse_line (line : string) : option Shift :=
  match line with
  | EmptyString => None
  | String first rest =>
      let shift_type := String first EmptyString in
      let times_and_hours := Py.strip rest in
      match Py.split "(" times_and_hours with
      | [times; hours_str] =>
          match Py.split "-" times with
          | [shift_start_str; shift_end_str] =>
              shift_start ← int_without_leading_zeros shift_start_str;
              shift_end ← int_without_leading_zeros shift_end_str;
              hours ← Py.int (Py.strip (remove_char ")" hours_str));
              Some {| shift_type := shift_type; shift_start := shift_start;
                      shift_end := shift_end; hours := hours |}
          | _ => None
          end
      | _ => None
      end
  end.

(** Line 236: [cell_content.replace('<br/>', '\n').split('\n')] *)
Definition cell_lines (cell_content : string) : list string :=
  Py.split "010" (Py.replace "<br/>" (String "010" EmptyString) cell_content).

(** One round of the loop of lines 239-261, on the accumulators
    [shifts] and [hours_worked]. *)
Definition parse_step (acc : list Shift * Z) (line : string) : list Shift * Z :=
  let '(shifts, hours_worked) := acc in
  let line := Py.strip line in
  if Py.is_empty line then acc
  else match parse_line line with
       | None => acc
       | Some shift => (shifts ++ [shift], hours_worked + hours shift)
       end.

(** Lines 236-261: the shifts of a cell and their hours. *)
Definition parse_shifts (cell_content : string) : list Shift * Z :=
  fold_left parse_step (cell_lines cell_content) ([], 0).

(** The three branches of lines 195, 212 and 232. *)
Inductive DayOutcome : Type :=
| NotRostered
| NotFinalized
| Rostered (shifts : list Shift) (hours_worked : Z).

Definition classify (cell_content : string) : DayOutcome :=
  if Py.is_empty cell_content || String.eqb cell_content "&nbsp;" then NotRostered
  else if Py.contains "not finalised" (Py.lower cell_content) then NotFinalized
  else let '(shifts, hours_worked) := parse_shifts cell_content in
       Rostered shifts hours_worked.

(** ** The browser *)

(** A handle on an element of the page. *)
Definition WebElement : Type := nat.

(** What the browser answers during one round of the loop over the dates:
    the text of the month label (line 148), the outcome of lines 156-171
    for a target month (the label found again after the click, or the
    first exception), and the outcome of lines 185-188 for a cell index
    (the [textContent] of the cell, or the first exception). *)
Record Page : Type := {
  label_text : WebElement -> result string;
  next_month : string -> result WebElement;
  date_cell : Z -> result string
}.

(** What the browser answers during one attempt: the outcome of
    [setup_webdriver] (line 401), of loading the login page (line 407), of
    the three waits of the login (lines 413-416, 426-430 and 440), the
    pages of the rounds of [process_roster], and the date of line 484. *)
Record Browser : Type := {
  setup_webdriver : result unit;
  login_page : result unit;
  username_field : result unit;
  password_field : result unit;
  roster_page : result WebElement;
  page : nat -> Page;
  today_at_send : Py.date
}.

(** ** [config.py] *)

Record Recipients : Type := { self : string; wife : string; mum : string }.

Module Config.

Definition RECIPIENTS : Recipients :=
  {| self := "+1234567890"; wife := "+0987654321"; mum := "+1122334455" |}.

Definition MUM_SEND_DAYS : list string := ["wed"; "thu"]%string.

End Config.

(** ** The script *)

Section Scraper.

(** [offsets.month_offsets] is not part of the sources at hand: a
    dictionary from month numbers to cell offsets. *)
Variable month_offsets : gmap Z Z.

Variable RECIPIENTS : Recipients.
Variable MUM_SEND_DAYS : list string.

(** The two constants of [main], 120 and 60 in the script. *)
Variable max_retries : nat.
Variable retry_delay : nat.

(** Lines 177-180: the index of the cell of a date *)
Definition cell_index (month day : Z) : Z :=
  let offset := default 0 (month_offsets !! month) in
  offset + day.

(** [f"({d.strftime('%A')}) {d.day}/{d.month}/{d.year}"] *)
Definition date_label (d : Py.date) : string :=
  "(" +:+ Py.strftime_A d +:+ ") " +:+ Py.str (Py.day d) +:+ "/"
  +:+ Py.str (Py.month d) +:+ "/" +:+ Py.str (Py.year d).

Definition day_entry (lvl : Log.level) (ev : Log.kind) (text : string) (d : Py.date)
    (first last total : Z) : Log.entry :=
  {| Log.level_of := lvl; Log.event_of := ev; Log.sms_content := text;
     Log.day := Py.strftime_A d; Log.date := Py.strftime_Y_m_d d;
     Log.shift_start := first; Log.shift_end := last; Log.hours := total;
     Log.retry_attempts := 0 |}.

(** The local variables of [process_roster] that outlive a round. *)
Record Locals : Type := {
  combined_message : string;
  not_finalised_found : bool;
  calendar_label : WebElement
}.

Definition add_message (message : string) (st : Locals) : Locals :=
  {| combined_message := combined_message st +:+ message +:+ String "010" EmptyString;
     not_finalised_found := not_finalised_found st;
     calendar_label := calendar_label st |}.

Definition set_not_finalised (st : Locals) : Locals :=
  {| combined_message := combined_message st;
     not_finalised_found := true;
     calendar_label := calendar_label st |}.

Definition set_label (lbl : WebElement) (st : Locals) : Locals :=
  {| combined_message := combined_message st;
     not_finalised_found := not_finalised_found st;
     calendar_label := lbl |}.

(** Lines 148-174: [None] stands for the [continue] of line 174. *)
Definition navigate (pg : Page) (target_date : Py.date) (st : Locals) : io (option Locals) :=
  text ← lift (label_text pg (calendar_label st));
  let current_month_text := Py.strip text in
  let target_month_text := Py.strftime_B_Y target_date in
  if negb (String.eqb current_month_text target_month_text) then
    try_except
      (lbl ← lift (next_month pg target_month_text); mret (Some (set_label lbl st)))
      (fun e => if is_timeout e then Some (mret None) else None)
  else mret (Some st).

(** Lines 176-192: [None] stands for the [continue] of line 192. *)
Definition read_cell (pg : Page) (target_date : Py.date) : io (option string) :=
  let index := cell_index (Py.month target_date) (Py.day target_date) in
  try_except
    (text ← lift (date_cell pg index); mret (Some (Py.strip text)))
    (fun e => if is_timeout e then Some (mret None) else None).

(** Lines 283-298: the handler of the rostered branch. *)
Definition shift_processing_error (target_date : Py.date) (e : exn) : io unit :=
  let text := "Error processing shift for " +:+ Py.isoformat target_date
              +:+ ": " +:+ str_exn e in
  log_message (day_entry Log.ERROR Log.SHIFT_PROCESSING_ERROR text target_date 0 0 0).

(** Lines 194-298: what is done with the text of the cell. *)
Definition report (target_date : Py.date) (cell_content : string) (st : Locals)
  : io (flow Locals) :=
  match classify cell_content with
  | NotRostered =>
      let message := "Not rostered for " +:+ date_label target_date +:+ "." in
      log_message (day_entry Log.INFO Log.SMS_SENT message target_date 0 0 0);;
      mret (Next (add_message message st))
  | NotFinalized =>
      let message := "Not finalised for " +:+ date_label target_date +:+ "." in
      log_message (day_entry Log.WARNING Log.SHIFT_NOT_FINALISED message target_date 0 0 0);;
      mret (Break (set_not_finalised (add_message message st)))
  | Rostered shifts hours_worked =>
      let sms_content := "Hours for " +:+ date_label target_date +:+ " are: "
                         +:+ Py.strip cell_content +:+ " (c) Bsecurity" in
      let st' := add_message sms_content st in
      let first := match shifts with s :: _ => shift_start s | [] => 0 end in
      let last := match List.last (map Some shifts) None with
                  | Some s => shift_end s
                  | None => 0
                  end in
      try_except
        (log_message (day_entry Log.INFO Log.SMS_SENT sms_content target_date
                        first last hours_worked))
        (fun e => Some (shift_processing_error target_date e));;
      mret (Next st')
  end.

(** One round of the loop of line 144. *)
Definition process_date (pg : Page) (target_date : Py.date) (st : Locals)
  : io (flow Locals) :=
  moved ← navigate pg target_date st;
  match moved with
  | None => mret (Next st)
  | Some st =>
      cell ← read_cell pg target_date;
      match cell with
      | None => mret (Next st)
      | Some cell_content => report target_date cell_content st
      end
  end.

(** The loop of line 144; [round] counts the dates already seen. *)
Fixpoint process_dates (pages : nat -> Page) (round : nat) (test_dates : list Py.date)
    (st : Locals) : io Locals :=
  match test_dates with
  | [] => mret st
  | target_date :: rest =>
      step ← process_date (pages round) target_date st;
      match step with
      | Next st' => process_dates pages (S round) rest st'
      | Break st' => mret st'
      end
  end.

Definition process_roster (pages : nat -> Page) (test_dates : list Py.date)
    (label : WebElement) : io (string * bool * WebElement) :=
  st ← process_dates pages 0 test_dates
         {| combined_message := ""; not_finalised_found := false;
            calendar_label := label |};
  mret (combined_message st, not_finalised_found st, calendar_label st).

(** Lines 322-345.  [today] is the date [datetime.today()] gives. *)
Definition invalid_date_message : string :=
  "Error: Invalid date format. Please use 'today', 'tomorrow', or 'YYYY-MM-DD'.".

Definition determine_base_date (date_str : string) (today : Py.date) : io Py.date :=
  if String.eqb (Py.lower date_str) "today" then mret today
  else if String.eqb (Py.lower date_str) "tomorrow" then lift (Py.add_days today 1)
  else match Py.strptime_Y_m_d date_str with
       | Some base_date => mret base_date
       | None => emit (Print invalid_date_message);; sys_exit 1
       end.

(** Lines 347-373 *)
Definition get_test_dates (base_date : Py.date) : result (list Py.date) :=
  let weekday := Py.weekday base_date in
  if weekday =? 4 then
    saturday ← Py.add_days base_date 1;
    sunday ← Py.add_days base_date 2;
    mret [saturday; sunday]
  else
    next_day ← Py.add_days base_date 1;
    mret [next_day].

(** [except TimeoutException: print(text); driver.quit(); sys.exit(1)] *)
Definition exit_on_timeout {A : Type} (text : string) (e : exn) : option (io A) :=
  if is_timeout e
  then Some (emit (Print text);; emit QuitSession;; sys_exit 1)
  else None.

(** Lines 405-447: the login, up to the month label of the roster page. *)
Definition login (b : Browser) : io WebElement :=
  lift (login_page b);;
  try_except (lift (username_field b))
    (exit_on_timeout "Error: Username field not found within the expected time.");;
  try_except (lift (password_field b))
    (exit_on_timeout "Error: Password field not found within the expected time.");;
  try_except (lift (roster_page b))
    (exit_on_timeout "Error: Login failed or main roster page did not load within the expected time.").

(** The dictionary of the two log records of [main]. *)
Definition run_entry (ev : Log.kind) (text : string) (current_retry : nat) : Log.entry :=
  {| Log.level_of := Log.ERROR; Log.event_of := ev; Log.sms_content := text;
     Log.day := ""; Log.date := "";
     Log.shift_start := 0; Log.shift_end := 0; Log.hours := 0;
     Log.retry_attempts := Z.of_nat current_retry |}.

Definition error_message (e : exn) : string :=
  "Script encountered an error: " +:+ str_exn e.

(** Lines 501-521: the handler of the [try] of line 404.  It ends the
    process, with [sys.exit] or with the exception of its own
    [log_message]. *)
Definition unexpected_error {A : Type} (current_retry : nat) (e : exn) : io A :=
  emit (Print ("An unexpected error occurred: " +:+ str_exn e));;
  emit QuitSession;;
  send_sms (error_message e) [self RECIPIENTS; wife RECIPIENTS];;
  log_message (run_entry Log.UNEXPECTED_ERROR (error_message e) current_retry);;
  sys_exit 1.

(** Lines 483-495: who is sent the roster. *)
Definition recipients_on (today : Py.date) : list string :=
  let current_day := Py.strftime_a_lower today in
  [self RECIPIENTS; wife RECIPIENTS]
  ++ (if bool_decide (current_day ∈ MUM_SEND_DAYS) then [mum RECIPIENTS] else []).

(** Lines 482-497 *)
Definition send_roster (b : Browser) (combined_message : string) : io unit :=
  if negb (Py.is_empty (Py.strip combined_message))
  then send_sms (Py.strip combined_message) (recipients_on (today_at_send b))
  else emit (Print "No messages to send.").

Definition retry_limit_message : string :=
  "Retry limit (" +:+ Py.str (Z.of_nat max_retries)
  +:+ ") reached. Could not retrieve finalized roster information.".

(** Lines 462-480 *)
Definition retry_limit_reached {A : Type} (current_retry : nat) : io A :=
  emit (Print ("Retry limit (" +:+ Py.str (Z.of_nat max_retries)
               +:+ ") reached. Could not retrieve finalized information."));;
  try_except
    (log_message (run_entry Log.RETRY_LIMIT_REACHED retry_limit_message current_retry))
    (fun e => Some (unexpected_error current_retry e));;
  send_sms retry_limit_message [self RECIPIENTS; wife RECIPIENTS];;
  sys_exit 1.

(** Lines 404-453: the part of the [try] block that talks to the
    browser. *)
Definition scrape (test_dates : list Py.date) (b : Browser) : io (string * bool * WebElement) :=
  label ← login b;
  scraped ← process_roster (page b) test_dates label;
  emit QuitSession;;
  mret scraped.

(** Lines 401-499: one round of the loop of line 400.  The handler of
    line 501 ends the process, so it guards the statements of the [try]
    block in two groups here, before and after [current_retry] is
    incremented, with the value the counter has in each. *)
Definition attempt (test_dates : list Py.date) (b : Browser) (current_retry : nat)
  : io (flow nat) :=
  lift (setup_webdriver b);;
  emit OpenSession;;
  '(combined_message, not_finalised_found, _) ←
    try_except (scrape test_dates b)
      (fun e => Some (unexpected_error current_retry e));
  if not_finalised_found : bool then
    let current_retry := S current_retry in
    if (current_retry <? max_retries)%nat then
      emit (Sleep retry_delay);;
      mret (Next current_retry)
    else retry_limit_reached current_retry
  else
    send_roster b combined_message;;
    mret (Break current_retry).

(** The loop of line 400.  [world n] is the browser of the attempt that
    starts with [current_retry = n].  The answer is [None] when [fuel]
    rounds do not see the loop end. *)
Fixpoint retry_loop (fuel : nat) (test_dates : list Py.date) (world : nat -> Browser)
    (current_retry : nat) : option (io nat) :=
  if (current_retry <? max_retries)%nat then
    match fuel with
    | O => None
    | S fuel' =>
        match attempt test_dates (world current_retry) current_retry with
        | (tr, Done (Next current_retry')) =>
            '(tr', o) ← retry_loop fuel' test_dates world current_retry';
            Some (tr ++ tr', o)
        | (tr, Done (Break current_retry')) => Some (tr, Done current_retry')
        | (tr, Raised e) => Some (tr, Raised e)
        | (tr, Exited c) => Some (tr, Exited c)
        end
    end
  else Some (mret current_retry).

(** Lines 387-523.  [date_arg] is [args.date]. *)
Definition main (date_arg : string) (today : Py.date) (world : nat -> Browser)
  : option (io nat) :=
  match determine_base_date date_arg today with
  | (tr, Done base_date) =>
      match get_test_dates base_date with
      | Ok test_dates =>
          '(tr', o) ← retry_loop max_retries test_dates world 0;
          Some (current_retry ← (tr ++ tr', o);
                emit (Print "Script completed successfully.");;
                mret current_retry)
      | Raise e => Some (tr, Raised e)
      end
  | (tr, Raised e) => Some (tr, Raised e)
  | (tr, Exited c) => Some (tr, Exited c)
  end.

(** The events of the handler of line 501, and of lines 462-480. *)
Definition unexpected_error_events (current_retry : nat) (e : exn) : list event :=
  [Print ("An unexpected error occurred: " +:+ str_exn e);
   QuitSession;
   Sms (error_message e) [self RECIPIENTS; wife RECIPIENTS];
   LogLine (run_entry Log.UNEXPECTED_ERROR (error_message e) current_retry)].

Definition retry_limit_events (current_retry : nat) : list event :=
  [Print ("Retry limit (" +:+ Py.str (Z.of_nat max_retries)
          +:+ ") reached. Could not retrieve finalized information.");
   LogLine (run_entry Log.RETRY_LIMIT_REACHED retry_limit_message current_retry);
   Sms retry_limit_message [self RECIPIENTS; wife RECIPIENTS]].

(** The event of lines 482-497. *)
Definition send_roster_event (b : Browser) (combined_message : string) : event :=
  if negb (Py.is_empty (Py.strip combined_message))
  then Sms (Py.strip combined_message) (recipients_on (today_at_send b))
  else Print "No messages to send.".

End Scraper.

(** ** The classifier as the specification words it *)

(** The non-empty lines of a cell, blanks around each taken off. *)
Definition nonempty_lines (cell_content : string) : list string :=
  List.filter (fun line => negb (Py.is_empty line)) (map Py.strip (cell_lines cell_content)).

(** The records of the lines that parse, in the order of the lines. *)
Definition records_of_cell (cell_content : string) : list Shift :=
  omap parse_line (nonempty_lines cell_content).

Definition sum_hours (shifts : list Shift) : Z :=
  fold_right Z.add 0 (map hours shifts).

(** Rules 1 to 3 of the classifier, the first that matches wins. *)
Definition classify_spec (cell_content : string) : DayOutcome :=
  if Py.is_empty cell_content || String.eqb cell_content "&nbsp;" then NotRostered
  else if Py.contains "not finalised" (Py.lower cell_content) then NotFinalized
  else Rostered (records_of_cell cell_content) (sum_hours (records_of_cell cell_content)).

(** ** Reading a trace *)

Definition is_sms (ev : event) : bool :=
  match ev with Sms _ _ => true | _ => false end.

Definition is_open (ev : event) : bool :=
  match ev with OpenSession => true | _ => false end.

(** The two ends of the success path of lines 482-497: the roster is
    sent, or there is nothing to send. *)
Definition is_decision (ev : event) : bool :=
  match ev with
  | Sms _ _ => true
  | Print text => String.eqb text "No messages to send."
  | _ => false
  end.

Definition sms_sent (tr : list event) : list event := List.filter is_sms tr.

Definition decisions (tr : list event) : list event := List.filter is_decision tr.

Definition sessions_opened (tr : list event) : nat := length (List.filter is_open tr).

(** An event of the inside of an attempt: no session is opened, nothing
    is sent, no decision of the success path is taken. *)
Definition inner (ev : event) : bool := negb (is_open ev || is_decision ev).

(** The events of a piece of the script are all inner ones. *)
Definition quiet {A : Type} (m : io A) : Prop := Forall (fun ev => inner ev = true) (fst m).

(** A piece of the script that does not fall through: it raises or
    exits. *)
Definition stops {A : Type} (m : io A) : Prop :=
  match snd m with Done _ => False | _ => True end.

(** A number the interpreter renders in decimal. *)
Definition within_digit_cap (n : nat) : Prop := Py.over_digit_cap (Z.of_nat n) = false.

(** The shape YYYY-MM-DD: four digits, two digits, two digits. *)
Definition iso_date_form (s : string) : bool :=
  match s with
  | String y1 (String y2 (String y3 (String y4 (String "-"
      (String m1 (String m2 (String "-" (String d1 (String d2 EmptyString))))))))) =>
      forallb Py.isdigit [y1; y2; y3; y4; m1; m2; d1; d2]
  | _ => false
  end.

(** The recipients of the text messages of a trace, in order. *)
Definition sms_recipients (tr : list event) : list (list string) :=
  omap (fun ev => match ev with Sms _ recipients => Some recipients | _ => None end) tr.

(** ** How an attempt can go *)

(** The session opens and the browser part of the attempt ends with the
    flag [not_finalised_found] set. *)
Definition not_finalised_attempt (month_offsets : gmap Z Z) (test_dates : list Py.date)
    (b : Browser) : Prop :=
  setup_webdriver b = Ok tt
  /\ exists tr message label,
      scrape month_offsets test_dates b = (tr, Done (message, true, label)).

(** The session opens and the browser part of the attempt ends with the
    flag clear and [message] as the text gathered. *)
Definition finalised_attempt (month_offsets : gmap Z Z) (test_dates : list Py.date)
    (b : Browser) (message : string) : Prop :=
  setup_webdriver b = Ok tt
  /\ exists tr label,
      scrape month_offsets test_dates b = (tr, Done (message, false, label)).

(** The date argument is read and gives the dates [test_dates]. *)
Definition planned (date_arg : string) (today : Py.date) (test_dates : list Py.date) : Prop :=
  exists base_date,
    determine_base_date date_arg today = ([], Done base_date)
    /\ get_test_dates base_date = Ok test_dates.

(** ** Sample browsers *)

(** January 2024 starts on a Monday. *)
Definition sample_offsets : gmap Z Z := {[ 1 := 0 ]}.

Definition page_showing (cell_text : string) : Page :=
  {| label_text := fun _ => Ok "January 2024"%string;
     next_month := fun _ => Ok 1%nat;
     date_cell := fun _ => Ok cell_text |}.

(** A browser that logs in and shows [cells round] in the cell of the
    date of each round. *)
Definition browser_showing (cells : nat -> string) (send_day : Py.date) : Browser :=
  {| setup_webdriver := Ok tt; login_page := Ok tt;
     username_field := Ok tt; password_field := Ok tt; roster_page := Ok 0%nat;
     page := fun round => page_showing (cells round);
     today_at_send := send_day |}.

(** A browser in which the user name field never shows. *)
Definition browser_without_username : Browser :=
  {| setup_webdriver := Ok tt; login_page := Ok tt;
     username_field := Raise (TimeoutException "Message: ");
     password_field := Ok tt; roster_page := Ok 0%nat;
     page := fun _ => page_showing "";
     today_at_send := Py.Date 2024 1 4 |}.

(** Every attempt finds the roster not finalised. *)
Definition world_never_finalised : nat -> Browser :=
  fun _ => browser_showing (fun _ => "Roster Not Finalised"%string) (Py.Date 2024 1 4).

(** The first two attempts find the roster not finalised, the third
    finds a shift. *)
Definition world_finalised_third : nat -> Browser :=
  fun n =>
    browser_showing
      (fun _ => if (n <? 2)%nat then "Roster Not Finalised"%string
                else "D0600-1400 (8)"%string)
      (Py.Date 2024 1 4).

(** A browser that fails to load the login page. *)
Definition browser_crashing : Browser :=
  {| setup_webdriver := Ok tt;
     login_page := Raise (OtherException "WebDriverException" "Message: unknown error");
     username_field := Ok tt; password_field := Ok tt; roster_page := Ok 0%nat;
     page := fun _ => page_showing "";
     today_at_send := Py.Date 2024 1 4 |}.

Fixpoint nines (n : nat) : string :=
  match n with
  | O => EmptyString
  | S n' => String "9" (nines n')
  end.

(** A shift line whose hours have as many digits as [int] reads, all of
    them 9, and a cell with two such lines: the sum of their hours has one
    digit more. *)
Definition huge_hours_text : string := nines Py.int_max_str_digits.

Definition huge_rest : string := "0600-1400 (" +:+ huge_hours_text +:+ ")".

Definition huge_shift_line : string := String "D" huge_rest.

Definition huge_cell : string :=
  huge_shift_line +:+ String "010" EmptyString +:+ huge_shift_line.

(** The number [huge_hours_text] spells, and the record of the line. *)
Definition huge_hours : Z := 10 ^ Z.of_nat Py.int_max_str_digits - 1.

Definition huge_shift : Shift :=
  {| shift_type := "D"; shift_start := 600; shift_end := 1400; hours := huge_hours |}.

(** The first round shows the cell of the two huge lines, the rounds
    after it an ordinary shift. *)
Definition world_huge_hours : nat -> Browser :=
  fun _ =>
    browser_showing
      (fun round => match round with
                    | O => huge_cell
                    | S _ => "D0600-1400 (8)"%string
                    end)
      (Py.Date 2024 1 5).

(** ** Reading texts and traces, continued *)

(** Every character of [s] satisfies [p]. *)
Fixpoint all_chars (p : ascii -> bool) (s : string) : bool :=
  match s with
  | EmptyString => true
  | String c s' => p c && all_chars p s'
  end.

(** The character [c] does not occur in [s]. *)
Definition no_char (c : ascii) (s : string) : bool :=
  all_chars (fun c' => negb (Ascii.eqb c c')) s.

Definition is_log (ev : event) : bool :=
  match ev with LogLine _ => true | _ => false end.

(** A piece of the script that only writes log records and does not call
    [sys.exit]. *)
Definition logs_only {A : Type} (m : io A) : Prop :=
  Forall (fun ev => is_log ev = true) (fst m)
  /\ match snd m with Exited _ => False | _ => True end.

(** Whether a browser session is open after the events of [tr], starting
    with [opened]; [None] when a session is opened while another one is
    still open. *)
Fixpoint session_after (opened : bool) (tr : list event) : option bool :=
  match tr with
  | [] => Some opened
  | OpenSession :: tr' => if opened then None else session_after true tr'
  | QuitSession :: tr' => session_after false tr'
  | _ :: tr' => session_after opened tr'
  end.

(** Every text message of [tr] goes to [recipients]. *)
Definition sms_all_to (recipients : list string) (tr : list event) : Prop :=
  Forall (fun ev => match ev with Sms _ to => to = recipients | _ => True end) tr.

(** The occurrences of [c] in [s]. *)
Fixpoint count_char (c : ascii) (s : string) : nat :=
  match s with
  | EmptyString => 0
  | String c' s' => (if Ascii.eqb c' c then 1 else 0) + count_char c s'
  end.

(** The seconds the script slept. *)
Definition slept (tr : list event) : nat :=
  fold_right (fun ev total => match ev with Sleep seconds => seconds + total | _ => total end)%nat
    0%nat tr.

(** The local variables a round ends with. *)
Definition state_of (step : flow Locals) : Locals :=
  match step with Next st => st | Break st => st end.

(** Each piece followed by a line break. *)
Fixpoint join_lines (lines : list string) : string :=
  match lines with
  | [] => EmptyString
  | line :: rest => line +:+ String "010" EmptyString +:+ join_lines rest
  end.

(** A log record whose two times are not negative. *)
Definition times_not_negative (ev : event) : Prop :=
  match ev with
  | LogLine data => 0 <= Log.shift_start data /\ 0 <= Log.shift_end data
  | _ => True
  end.

(** A page on which the cell of no date shows in time. *)
Definition page_without_cells : Page :=
  {| label_text := fun _ => Ok "January 2024"%string;
     next_month := fun _ => Raise (TimeoutException "Message: ");
     date_cell := fun _ => Raise (TimeoutException "Message: ") |}.

(** A browser that logs in and then shows no cell. *)
Definition browser_without_cells : Browser :=
  {| setup_webdriver := Ok tt; login_page := Ok tt;
     username_field := Ok tt; password_field := Ok tt; roster_page := Ok 0%nat;
     page := fun _ => page_without_cells;
     today_at_send := Py.Date 2024 1 4 |}.

(** A browser that does not start. *)
Definition browser_not_starting : Browser :=
  {| setup_webdriver := Raise (OtherException "WebDriverException" "Message: chrome not found");
     login_page := Ok tt;
     username_field := Ok tt; password_field := Ok tt; roster_page := Ok 0%nat;
     page := fun _ => page_showing "";
     today_at_send := Py.Date 2024 1 4 |}.

(** The first two attempts find the roster not finalised, the third
    finds no browser. *)
Definition world_without_driver_third : nat -> Browser :=
  fun n => if (n <? 2)%nat then world_never_finalised n else browser_not_starting.

(** A log record of a roster that is not finalised. *)
Definition is_pending_log (ev : event) : bool :=
  match ev with
  | LogLine data =>
      match Log.event_of data with Log.SHIFT_NOT_FINALISED => true | _ => false end
  | _ => false
  end.

(** ** The words of the specification *)

(** The capital of a small letter of the alphabet; any other character
    is its own. *)
Definition capital (c : ascii) : ascii :=
  if Py.in_range 97 122 c then ascii_of_N (Py.chr_code c - 32) else c.

(** [s] spells [word], a word written in small letters, in letters of
    either case. *)
Fixpoint spelled (word s : string) : bool :=
  match word, s with
  | EmptyString, EmptyString => true
  | String w word', String c s' =>
      (Ascii.eqb c w || Ascii.eqb c (capital w)) && spelled word' s'
  | _, _ => false
  end.

(** [text] holds [word] somewhere, in letters of either case. *)
Definition has_words (word text : string) : Prop :=
  exists before v after, text = before +:+ v +:+ after /\ spelled word v = true.

(** The small letters and the blank. *)
Definition small_letters : string := "abcdefghijklmnopqrstuvwxyz ".

Definition in_small_letters (word : string) : bool :=
  all_chars (fun w => existsb (Ascii.eqb w) (list_ascii_of_string small_letters)) word.

(** ** Dates as they are written *)

(** The character of a digit. *)
Definition digit_char (n : Z) : ascii := ascii_of_N (Z.to_N (48 + n)).

Definition one_digit (n : Z) : string := String (digit_char n) EmptyString.

Definition two_digit (n : Z) : string :=
  String (digit_char (n / 10)) (one_digit (n mod 10)).

Definition four_digit (n : Z) : string :=
  String (digit_char (n / 1000))
    (String (digit_char (n / 100 mod 10)) (two_digit (n mod 100))).

(** The ways a month and a day can be written: with two digits, with
    one digit when below ten, and a day below ten also as a blank and one
    digit. *)
Definition month_texts (m : Z) : list string :=
  two_digit m :: (if m <? 10 then [one_digit m] else []).

Definition day_texts (d : Z) : list string :=
  two_digit d :: (if d <? 10 then [one_digit d; String " " (one_digit d)] else []).

(** A day the calendar has, from 0001-01-01 to 9999-12-31. *)
Definition calendar_day (d : Py.date) : Prop :=
  1 <= Py.year d <= 9999 /\ 1 <= Py.month d <= 12
  /\ 1 <= Py.day d <= Py.days_in_month (Py.year d) (Py.month d).

(** [s] writes the day [d]: the year in four digits, a hyphen, the
    month, a hyphen, the day, and nothing else. *)
Definition written_date (s : string) (d : Py.date) : Prop :=
  calendar_day d
  /\ exists m_text d_text,
       In m_text (month_texts (Py.month d)) /\ In d_text (day_texts (Py.day d))
       /\ s = four_digit (Py.year d) +:+ "-" +:+ m_text +:+ "-" +:+ d_text.

(** ** The records of the days *)

(** The three lines the script writes for a day. *)
Definition day_line (d : Py.date) (line : string) : Prop :=
  line = "Not rostered for " +:+ date_label d +:+ "."
  \/ line = "Not finalised for " +:+ date_label d +:+ "."
  \/ exists text,
       line = "Hours for " +:+ date_label d +:+ " are: " +:+ text +:+ " (c) Bsecurity".

(** [ev] is the log record of the day [d], whose line in the message is
    [line]: the record carries the day and the line, or it is the record
    of an error of line 283. *)
Definition day_record (ev : event) (reported : Py.date * string) : Prop :=
  let '(d, line) := reported in
  day_line d line
  /\ exists data,
       ev = LogLine data
       /\ Log.date data = Py.strftime_Y_m_d d
       /\ Log.day data = Py.strftime_A d
       /\ Log.retry_attempts data = 0
       /\ (Log.sms_content data = line
           \/ Log.event_of data = Log.SHIFT_PROCESSING_ERROR).

(** The last date the interpreter has. *)
Definition last_date : Py.date := Py.Date 9999 12 31.

(** A record with another shift-type code. *)
Definition with_type (c : ascii) (s : Shift) : Shift :=
  {| shift_type := String c EmptyString; shift_start := shift_start s;
     shift_end := shift_end s; hours := hours s |}.

(** * Properties *)

(** ** The shift parser *)

Lemma parse_step_blank acc line :
  Py.is_empty (Py.strip line) = true -> parse_step acc line = acc.
Proof.
  intros Hblank. destruct acc as [shifts total].
  unfold parse_step. now rewrite Hblank.
Qed.

Lemma parse_step_dropped acc line :
  parse_line (Py.strip line) = None -> parse_step acc line = acc.
Proof.
  intros Hbad. destruct acc as [shifts total].
  unfold parse_step. rewrite Hbad. now destruct (Py.is_empty _).
Qed.

Lemma parse_step_kept shifts total line shift :
  parse_line (Py.strip line) = Some shift ->
  parse_step (shifts, total) line = (shifts ++ [shift], total + hours shift).
Proof.
  intros Hgood. unfold parse_step. rewrite Hgood.
  destruct (Py.strip line) eqn:Hline; [discriminate | reflexivity].
Qed.

Lemma sum_hours_app l1 l2 : sum_hours (l1 ++ l2) = sum_hours l1 + sum_hours l2.
Proof.
  unfold sum_hours. induction l1 as [|s l1 IH]; simpl; [reflexivity|].
  rewrite IH. lia.
Qed.

(** The records of a list of raw lines, as [records_of_cell] takes them. *)
Lemma records_of_lines_cons line lines :
  omap parse_line (List.filter (fun l => negb (Py.is_empty l)) (map Py.strip (line :: lines)))
  = match parse_line (Py.strip line) with
    | Some shift => [shift]
    | None => []
    end ++ omap parse_line (List.filter (fun l => negb (Py.is_empty l)) (map Py.strip lines)).
Proof.
  cbn [map List.filter].
  destruct (Py.strip line) as [|c rest]; cbn [Py.is_empty negb]; [reflexivity|].
  cbn [omap list_omap].
  now destruct (parse_line (String c rest)).
Qed.

(** The loop of lines 239-261 appends to [shifts] the records of the
    lines that parse and adds their hours to [hours_worked]. *)
Lemma parse_loop_accumulates lines : forall shifts total,
  fold_left parse_step lines (shifts, total)
  = (shifts ++ omap parse_line
                 (List.filter (fun l => negb (Py.is_empty l)) (map Py.strip lines)),
     total + sum_hours (omap parse_line
                 (List.filter (fun l => negb (Py.is_empty l)) (map Py.strip lines)))).
Proof.
  induction lines as [|line lines IH]; intros shifts total.
  - simpl. rewrite app_nil_r. unfold sum_hours. simpl. f_equal. lia.
  - rewrite records_of_lines_cons. cbn [fold_left].
    destruct (parse_line (Py.strip line)) as [shift|] eqn:Hline.
    + rewrite (parse_step_kept _ _ _ _ Hline), IH.
      rewrite sum_hours_app, <- app_assoc. f_equal.
      unfold sum_hours at 2. simpl. lia.
    + rewrite (parse_step_dropped _ _ Hline), IH. reflexivity.
Qed.

Lemma parse_shifts_records cell_content :
  parse_shifts cell_content
  = (records_of_cell cell_content, sum_hours (records_of_cell cell_content)).
Proof.
  unfold parse_shifts. rewrite parse_loop_accumulates. reflexivity.
Qed.

Lemma classify_refines cell_content : classify cell_content = classify_spec cell_content.
Proof.
  unfold classify, classify_spec.
  destruct (_ || _); [reflexivity|].
  destruct (Py.contains _ _); [reflexivity|].
  now rewrite parse_shifts_records.
Qed.

Lemma parse_line_first_char c c' rest :
  parse_line (String c rest) = with_type c <$> parse_line (String c' rest).
Proof.
  unfold parse_line.
  destruct (Py.split "(" (Py.strip rest)) as [|times [|hours_str [|extra more]]];
    try reflexivity.
  destruct (Py.split "-" times) as [|start_str [|end_str [|extra more]]];
    try reflexivity.
  destruct (int_without_leading_zeros start_str) as [first|]; [|reflexivity].
  destruct (int_without_leading_zeros end_str) as [last|]; [|reflexivity].
  destruct (Py.int _) as [total|]; reflexivity.
Qed.

(** C5: the line "D0600-1400 (8)" parses to the record D, 600, 1400, 8;
    the hours of a cell are the sum of the hours of the records that
    parsed; a line that fails to convert leaves the loop's accumulators as
    they were, and the loop goes on with the lines after it. *)
Theorem parse_round_trip_and_totals :
  parse_line "D0600-1400 (8)"
  = Some {| shift_type := "D"; shift_start := 600; shift_end := 1400; hours := 8 |}
  /\ (forall cell_content,
        snd (parse_shifts cell_content) = sum_hours (fst (parse_shifts cell_content))
        /\ fst (parse_shifts cell_content) = records_of_cell cell_content)
  /\ (forall before bad after acc,
        parse_line (Py.strip bad) = None ->
        fold_left parse_step (before ++ bad :: after) acc
        = fold_left parse_step (before ++ after) acc).
Proof.
  split; [reflexivity|]. split.
  - intros cell_content. now rewrite parse_shifts_records.
  - intros before bad after acc Hbad.
    rewrite !fold_left_app. cbn [fold_left].
    now rewrite (parse_step_dropped _ _ Hbad).
Qed.

Lemma parse_round_trip_and_totals_witness :
  parse_line (Py.strip "D0600-14:00 (8)") = None
  /\ fold_left parse_step
       (["D0600-1400 (8)"%string] ++ "D0600-14:00 (8)"%string :: ["N2200-0600 (8)"%string])
       ([], 0)
     = fold_left parse_step (["D0600-1400 (8)"%string] ++ ["N2200-0600 (8)"%string]) ([], 0).
Proof.
  split; [reflexivity|].
  apply (proj2 (proj2 parse_round_trip_and_totals)). reflexivity.
Defined.

(** C10: the first character of a line is its shift-type code whatever
    it is: putting another character in its place changes nothing but the
    code of the record.  The line "0600-1400 (8)" parses to the record
    with code "0", start 600, end 1400 and hours 8. *)
Theorem shift_type_is_first_character :
  (forall c c' rest,
     parse_line (String c rest) = with_type c <$> parse_line (String c' rest))
  /\ (forall c rest shift,
        parse_line (String c rest) = Some shift -> shift_type shift = String c EmptyString)
  /\ parse_line "0600-1400 (8)"
     = Some {| shift_type := "0"; shift_start := 600; shift_end := 1400; hours := 8 |}
  /\ parse_shifts "0600-1400 (8)"
     = ([{| shift_type := "0"; shift_start := 600; shift_end := 1400; hours := 8 |}], 8).
Proof.
  split; [exact parse_line_first_char|]. split; [|split; reflexivity].
  intros c rest shift Hparse.
  rewrite (parse_line_first_char c c rest) in Hparse.
  destruct (parse_line (String c rest)) as [s|]; [|discriminate].
  now injection Hparse as <-.
Qed.

Lemma shift_type_is_first_character_witness :
  parse_line "70000-2359 (24)"
  = Some {| shift_type := "7"; shift_start := 0; shift_end := 2359; hours := 24 |}
  /\ shift_type {| shift_type := "7"; shift_start := 0; shift_end := 2359; hours := 24 |}
     = String "7" EmptyString.
Proof.
  split; [reflexivity|].
  apply (proj1 (proj2 shift_type_is_first_character) "7"%char "0000-2359 (24)"%string).
  reflexivity.
Defined.

(** ** Writing the log *)

Lemma over_digit_cap_0 : Py.over_digit_cap 0 = false.
Proof. vm_compute. reflexivity. Qed.

Lemma over_digit_cap_mono a b :
  Z.abs a <= Z.abs b -> Py.over_digit_cap b = false -> Py.over_digit_cap a = false.
Proof.
  unfold Py.over_digit_cap. intros Hle Hb.
  apply Z.leb_gt in Hb. apply Z.leb_gt.
  generalize dependent (10 ^ Z.of_nat Py.int_max_str_digits). intros; lia.
Qed.

(** Twice the number of as many nines as the cap allows is above the
    cap. *)
Lemma huge_total_over_cap : Py.over_digit_cap (0 + huge_hours + huge_hours) = true.
Proof.
  unfold Py.over_digit_cap, huge_hours.
  pose proof (Z.pow_gt_1 10 (Z.of_nat Py.int_max_str_digits) ltac:(lia)) as [Hgt _].
  specialize (Hgt ltac:(unfold Py.int_max_str_digits; lia)).
  revert Hgt. generalize (10 ^ Z.of_nat Py.int_max_str_digits). intros p Hgt.
  apply Z.leb_le. lia.
Qed.

#[local] Opaque Py.over_digit_cap.

Lemma log_message_ok data :
  json_dumps_ok data = true -> log_message data = ([LogLine data], Done tt).
Proof. intros Hok. unfold log_message. now rewrite Hok. Qed.

Lemma log_message_fails data :
  json_dumps_ok data = false -> log_message data = ([], Raised (ValueError digit_cap_message)).
Proof. intros Hbad. unfold log_message. now rewrite Hbad. Qed.

Lemma day_entry_ok lvl ev text d : json_dumps_ok (day_entry lvl ev text d 0 0 0) = true.
Proof. unfold json_dumps_ok. cbn [day_entry Log.shift_start Log.shift_end Log.hours Log.retry_attempts]. now rewrite over_digit_cap_0. Qed.

(** Whatever a cell holds, reporting it ends normally: the exception the
    log of a rostered day can raise is caught at line 283. *)
Lemma report_total target_date cell_content st :
  exists tr step, report target_date cell_content st = (tr, Done step).
Proof.
  unfold report. destruct (classify cell_content) as [| |shifts total].
  - rewrite log_message_ok by apply day_entry_ok. cbn. eauto.
  - rewrite log_message_ok by apply day_entry_ok. cbn. eauto.
  - match goal with |- context [log_message ?entry] =>
      destruct (json_dumps_ok entry) eqn:Hjson;
      [rewrite (log_message_ok _ Hjson) | rewrite (log_message_fails _ Hjson)]
    end.
    + cbn. eauto.
    + unfold try_except, shift_processing_error.
      rewrite log_message_ok by apply day_entry_ok. cbn. eauto.
Qed.

(** ** Texts *)

Lemma lstrip_all_chars p s : all_chars p s = true -> Py.lstrip_by p s = EmptyString.
Proof.
  induction s as [|c s IH]; cbn; [reflexivity|].
  intros [Hc Hs]%andb_prop. rewrite Hc. auto.
Qed.

Lemma strip_all_space s : all_chars Py.isspace s = true -> Py.strip s = EmptyString.
Proof. intros Hs. unfold Py.strip. now rewrite lstrip_all_chars. Qed.

Lemma append_cons c a b : String c a +:+ b = String c (a +:+ b).
Proof. reflexivity. Qed.

Lemma lower_app a b : Py.lower (a +:+ b) = Py.lower a +:+ Py.lower b.
Proof.
  induction a as [|c a IH]; [reflexivity|].
  rewrite append_cons. cbn [Py.lower]. now rewrite IH, append_cons.
Qed.

Lemma startswith_app p s : Py.startswith p (p +:+ s) = true.
Proof.
  induction p as [|c p IH]; [reflexivity|].
  rewrite append_cons. cbn [Py.startswith]. now rewrite Ascii.eqb_refl.
Qed.

Lemma contains_app needle a b : Py.contains needle (a +:+ needle +:+ b) = true.
Proof.
  induction a as [|c a IH].
  - change (EmptyString +:+ needle +:+ b) with (needle +:+ b).
    pose proof (startswith_app needle b) as Hhead.
    destruct (needle +:+ b); cbn [Py.contains]; now rewrite Hhead.
  - rewrite append_cons. cbn [Py.contains]. rewrite IH. apply orb_true_r.
Qed.

Lemma lower_length s : String.length (Py.lower s) = String.length s.
Proof. induction s; cbn; congruence. Qed.

Lemma append_length a b : String.length (a +:+ b) = (String.length a + String.length b)%nat.
Proof. induction a; [reflexivity|]. rewrite append_cons. cbn. congruence. Qed.

Lemma any_case_not_finalised a v b :
  Py.lower v = "not finalised"%string ->
  classify (a +:+ v +:+ b) = NotFinalized.
Proof.
  intros Hv. unfold classify.
  assert (Hlen : String.length (a +:+ v +:+ b) = (String.length a + 13 + String.length b)%nat).
  { rewrite !append_length, <- (lower_length v), Hv. cbn. lia. }
  destruct (Py.is_empty _ || String.eqb _ _) eqn:Hblank.
  - exfalso. apply orb_prop in Hblank as [Hempty|Hnbsp].
    + destruct (a +:+ v +:+ b); [cbn in Hlen; lia|discriminate].
    + apply String.eqb_eq in Hnbsp. rewrite Hnbsp in Hlen. cbn in Hlen. lia.
  - now rewrite !lower_app, Hv, contains_app.
Qed.

(** ** The words "not finalised" *)

Lemma lower_char_small_letters c :
  forallb (fun w => Bool.eqb (Ascii.eqb (Py.lower_char c) w)
                             (Ascii.eqb c w || Ascii.eqb c (capital w)))
    (list_ascii_of_string small_letters) = true.
Proof. destruct c as [[] [] [] [] [] [] [] []]; vm_compute; reflexivity. Qed.

Lemma lower_char_small c w :
  existsb (Ascii.eqb w) (list_ascii_of_string small_letters) = true ->
  Ascii.eqb (Py.lower_char c) w = Ascii.eqb c w || Ascii.eqb c (capital w).
Proof.
  intros Hw. apply existsb_exists in Hw as (w' & Hin & Heq).
  apply Ascii.eqb_eq in Heq. subst w'.
  pose proof (lower_char_small_letters c) as Hall.
  rewrite forallb_forall in Hall. specialize (Hall w Hin).
  now apply Bool.eqb_prop in Hall.
Qed.

Lemma spelled_lower word : forall s,
  in_small_letters word = true ->
  spelled word s = String.eqb (Py.lower s) word.
Proof.
  unfold in_small_letters.
  induction word as [|w word IH]; intros s Hword.
  - now destruct s.
  - cbn [all_chars] in Hword. apply andb_prop in Hword as [Hw Hrest].
    destruct s as [|c s]; [reflexivity|].
    cbn [spelled Py.lower String.eqb].
    rewrite (IH s Hrest), <- (lower_char_small c w Hw).
    now destruct (Ascii.eqb (Py.lower_char c) w).
Qed.

Lemma startswith_split p : forall s,
  Py.startswith p s = true -> exists rest, s = p +:+ rest.
Proof.
  induction p as [|a p IH]; intros s; [exists s; reflexivity|].
  destruct s as [|b s]; [discriminate|]. cbn [Py.startswith].
  intros [Hab Hrest]%andb_prop. apply Ascii.eqb_eq in Hab as ->.
  destruct (IH s Hrest) as [rest ->]. exists rest. reflexivity.
Qed.

Lemma contains_split needle : forall hay,
  Py.contains needle hay = true -> exists before after, hay = before +:+ needle +:+ after.
Proof.
  induction hay as [|c hay IH]; cbn [Py.contains].
  - rewrite orb_false_r. intros Hstart.
    destruct (startswith_split _ _ Hstart) as [rest Hrest].
    exists EmptyString, rest. exact Hrest.
  - intros [Hstart|Hlater]%orb_prop.
    + destruct (startswith_split _ _ Hstart) as [rest Hrest].
      exists EmptyString, rest. exact Hrest.
    + destruct (IH Hlater) as (before & after & ->).
      exists (String c before), after. reflexivity.
Qed.

Lemma lower_split x : forall s y,
  Py.lower s = x +:+ y ->
  exists s1 s2, s = s1 +:+ s2 /\ Py.lower s1 = x /\ Py.lower s2 = y.
Proof.
  induction x as [|a x IH]; intros s y Hs.
  - exists EmptyString, s. auto.
  - destruct s as [|c s]; [discriminate|].
    rewrite append_cons in Hs. cbn [Py.lower] in Hs. injection Hs as Hc Hs.
    destruct (IH s y Hs) as (s1 & s2 & -> & Hs1 & Hs2).
    exists (String c s1), s2. cbn [Py.lower]. rewrite Hc, Hs1. auto.
Qed.

(** The test of line 212 finds the words exactly when the text holds
    them in letters of either case. *)
Lemma contains_lower_has_words word text :
  in_small_letters word = true ->
  Py.contains word (Py.lower text) = true <-> has_words word text.
Proof.
  intros Hword. split.
  - intros Hfound. destruct (contains_split _ _ Hfound) as (x & z & Hsplit).
    destruct (lower_split _ _ _ Hsplit) as (before & rest & -> & _ & Hrest).
    destruct (lower_split _ _ _ Hrest) as (v & after & -> & Hv & _).
    exists before, v, after. split; [reflexivity|].
    rewrite (spelled_lower word v Hword). now apply String.eqb_eq.
  - intros (before & v & after & -> & Hv).
    rewrite (spelled_lower word v Hword) in Hv. apply String.eqb_eq in Hv.
    now rewrite !lower_app, Hv, contains_app.
Qed.

Lemma records_drop_line before bad after :
  parse_line (Py.strip bad) = None ->
  omap parse_line
    (List.filter (fun l => negb (Py.is_empty l)) (map Py.strip (before ++ bad :: after)))
  = omap parse_line
      (List.filter (fun l => negb (Py.is_empty l)) (map Py.strip (before ++ after))).
Proof.
  intros Hbad. induction before as [|line before IH].
  - cbn [app]. now rewrite records_of_lines_cons, Hbad.
  - cbn [app]. now rewrite !(records_of_lines_cons line), IH.
Qed.

Lemma records_none lines :
  (forall line, In line lines -> parse_line (Py.strip line) = None) ->
  omap parse_line (List.filter (fun l => negb (Py.is_empty l)) (map Py.strip lines)) = [].
Proof.
  induction lines as [|line lines IH]; intros Hnone; [reflexivity|].
  rewrite records_of_lines_cons, (Hnone line (or_introl eq_refl)).
  apply IH. intros l Hl. apply Hnone. now right.
Qed.

(** C1: the classifier applies its three rules in order, the first that
    matches wins.  An empty text or the placeholder, and no other text, is
    NotRostered.  A text that is neither is NotFinalized exactly when it
    holds the words "not finalised" somewhere, in letters of either case.
    Any other text is Rostered, with the records of its lines that parse
    and the sum of their hours: a line that does not parse is dropped by
    itself, a cell none of whose lines parses gives no record and no
    hours, and reporting a cell never ends in an error. *)
Theorem classify_first_match_wins cell_content :
  classify cell_content = classify_spec cell_content
  /\ (classify cell_content = NotRostered
      <-> (cell_content = "" \/ cell_content = "&nbsp;")%string)
  /\ (classify cell_content = NotFinalized
      <-> (cell_content <> "" /\ cell_content <> "&nbsp;"
           /\ has_words "not finalised" cell_content)%string)
  /\ ((cell_content <> "" -> cell_content <> "&nbsp;" ->
       ~ has_words "not finalised" cell_content ->
       classify cell_content
       = Rostered (records_of_cell cell_content) (sum_hours (records_of_cell cell_content)))%string)
  /\ (forall before bad after,
        cell_lines cell_content = before ++ bad :: after ->
        parse_line (Py.strip bad) = None ->
        records_of_cell cell_content
        = omap parse_line
            (List.filter (fun l => negb (Py.is_empty l)) (map Py.strip (before ++ after))))
  /\ ((forall line, In line (cell_lines cell_content) -> parse_line (Py.strip line) = None) ->
      records_of_cell cell_content = [] /\ sum_hours (records_of_cell cell_content) = 0)
  /\ (forall target_date st,
        exists tr step, report target_date cell_content st = (tr, Done step)).
Proof.
  pose proof (contains_lower_has_words "not finalised" cell_content eq_refl) as Hwords.
  split; [apply classify_refines|].
  split; [|split; [|split; [|split; [|split; [|intros; apply report_total]]]]].
  - rewrite classify_refines. unfold classify_spec.
    destruct (Py.is_empty cell_content) eqn:Hempty.
    + destruct cell_content; [|discriminate]. cbn. intuition.
    + destruct (String.eqb_spec cell_content "&nbsp;") as [->|Hne]; cbn.
      * intuition.
      * destruct (Py.contains _ _); split; try discriminate;
          intros [->|?]; try discriminate; contradiction.
  - rewrite classify_refines. unfold classify_spec.
    destruct (Py.is_empty cell_content) eqn:Hempty.
    + destruct cell_content; [|discriminate]. cbn. split; [discriminate|].
      intros (Hne & _). now contradiction Hne.
    + destruct (String.eqb_spec cell_content "&nbsp;") as [->|Hne]; cbn [orb].
      * split; [discriminate|]. intros (_ & Hne & _). now contradiction Hne.
      * destruct (Py.contains _ _).
        -- split; [|reflexivity]. intros _. split; [now intros ->|].
           split; [exact Hne|]. now apply Hwords.
        -- split; [discriminate|]. intros (_ & _ & Hhas).
           apply Hwords in Hhas. discriminate.
  - intros Hne Hnbsp Hnone. rewrite classify_refines. unfold classify_spec.
    destruct cell_content as [|c rest]; [contradiction|]. cbn [Py.is_empty orb].
    apply String.eqb_neq in Hnbsp. rewrite Hnbsp.
    destruct (Py.contains _ _) eqn:Hfound; [|reflexivity].
    exfalso. apply Hnone, Hwords. reflexivity.
  - intros before bad after Hlines Hbad. unfold records_of_cell, nonempty_lines.
    rewrite Hlines. now apply records_drop_line.
  - intros Hnone. unfold records_of_cell, nonempty_lines.
    rewrite (records_none _ Hnone). split; reflexivity.
Qed.

Lemma classify_first_match_wins_witness :
  classify "&nbsp;" = NotRostered
  /\ classify "Roster Not Finalised" = NotFinalized
  /\ classify ("D0600-1400 (8)<br/>day off" +:+ String "010" "N2200-0600 (8)")
     = Rostered [ {| shift_type := "D"; shift_start := 600; shift_end := 1400; hours := 8 |};
                  {| shift_type := "N"; shift_start := 2200; shift_end := 600; hours := 8 |} ]
         16
  /\ records_of_cell "see the office" = [].
Proof.
  split; [|split; [|split]].
  - apply (proj1 (proj2 (classify_first_match_wins "&nbsp;"))). right. reflexivity.
  - apply (proj1 (proj2 (proj2 (classify_first_match_wins "Roster Not Finalised")))).
    split; [discriminate|]. split; [discriminate|].
    exists "Roster "%string, "Not Finalised"%string, ""%string. split; reflexivity.
  - apply (proj1 (proj2 (proj2 (proj2
             (classify_first_match_wins
                ("D0600-1400 (8)<br/>day off" +:+ String "010" "N2200-0600 (8)")))))).
    + discriminate.
    + discriminate.
    + intros Hhas. apply (contains_lower_has_words "not finalised" _ eq_refl) in Hhas.
      discriminate Hhas.
  - apply (proj1 (proj2 (proj2 (proj2 (proj2 (proj2
             (classify_first_match_wins "see the office"))))))).
    intros line [<-|[]]. reflexivity.
Defined.

(** ** The cell locator *)

(** C6: for a month the offset table has, the index of the cell is the
    offset of the month plus the day; for a month the table lacks, it is
    the day. *)
Theorem cell_locator_offset (month_offsets : gmap Z Z) (month day : Z) :
  (forall offset,
     month_offsets !! month = Some offset ->
     cell_index month_offsets month day = offset + day)
  /\ (month_offsets !! month = None -> cell_index month_offsets month day = day).
Proof.
  unfold cell_index. split.
  - intros offset ->. reflexivity.
  - intros ->. cbn. lia.
Qed.

Lemma cell_locator_offset_witness :
  cell_index {[ 9 := 35 ]} 9 14 = 35 + 14 /\ cell_index {[ 9 := 35 ]} 10 14 = 14.
Proof.
  split.
  - apply (proj1 (cell_locator_offset {[ 9 := 35 ]} 9 14)). reflexivity.
  - apply (proj2 (cell_locator_offset {[ 9 := 35 ]} 10 14)). reflexivity.
Defined.

(** ** The date planner *)

Lemma add_days_in_range d k :
  0 < Py.toordinal d + k <= Py.MAXORDINAL ->
  Py.add_days d k = Ok (Py.fromordinal (Py.toordinal d + k)).
Proof.
  intros [Hlo Hhi]. unfold Py.add_days.
  apply Z.ltb_lt in Hlo. apply Z.leb_le in Hhi. now rewrite Hlo, Hhi.
Qed.

Ltac eval_tables :=
  repeat match goal with
    | |- context [Py.table ?t ?m] =>
        let v := eval vm_compute in (Py.table t m) in change (Py.table t m) with v
    | H : context [Py.table ?t ?m] |- _ =>
        let v := eval vm_compute in (Py.table t m) in change (Py.table t m) with v in H
    end.

(** The days of a year before and up to a day of the calendar. *)
Lemma month_part_bounds (leap : bool) m dd :
  1 <= m <= 12 ->
  1 <= dd <= (if (m =? 2) && leap then 29 else Py.table Py.DAYS_IN_MONTH m) ->
  1 <= Py.table Py.DAYS_BEFORE_MONTH m + (if (2 <? m) && leap then 1 else 0) + dd
    <= 365 + (if leap then 1 else 0)
  /\ (Py.table Py.DAYS_BEFORE_MONTH m + (if (2 <? m) && leap then 1 else 0) + dd
      = 365 + (if leap then 1 else 0) -> m = 12 /\ dd = 31).
Proof.
  intros Hm Hdd.
  assert (Hcases : m = 1 \/ m = 2 \/ m = 3 \/ m = 4 \/ m = 5 \/ m = 6 \/ m = 7
                   \/ m = 8 \/ m = 9 \/ m = 10 \/ m = 11 \/ m = 12) by lia.
  destruct leap;
    repeat (destruct Hcases as [->|Hcases]); try subst m; eval_tables; cbn in *; lia.
Qed.

Lemma days_before_year_bounds y :
  1 <= y <= 9998 -> 0 <= Py.days_before_year y <= 3651692.
Proof.
  intros Hy. unfold Py.days_before_year.
  pose proof (Z.div_mod (y - 1) 4 ltac:(lia)).
  pose proof (Z.mod_pos_bound (y - 1) 4 ltac:(lia)).
  pose proof (Z.div_mod (y - 1) 100 ltac:(lia)).
  pose proof (Z.mod_pos_bound (y - 1) 100 ltac:(lia)).
  pose proof (Z.div_mod (y - 1) 400 ltac:(lia)).
  pose proof (Z.mod_pos_bound (y - 1) 400 ltac:(lia)).
  lia.
Qed.

(** A date of the calendar has an ordinal between 1 and [MAXORDINAL],
    and only 9999-12-31 has the last one. *)
Lemma valid_date_ordinal y m dd d :
  Py.make_date y m dd = Some d ->
  1 <= Py.toordinal d <= Py.MAXORDINAL /\ (Py.toordinal d = Py.MAXORDINAL -> d = last_date).
Proof.
  unfold Py.make_date. intros Hvalid.
  destruct (_ && _) eqn:Hchecks in Hvalid; [|discriminate].
  injection Hvalid as <-.
  repeat (apply andb_prop in Hchecks as [Hchecks ?]).
  unfold Py.toordinal, Py.days_before_month, Py.days_in_month in *.
  cbn [Py.year Py.month Py.day].
  pose proof (month_part_bounds (Py.is_leap y) m dd ltac:(lia) ltac:(lia)) as [Hpart Hlast].
  destruct (Z.eq_dec y 9999) as [->|Hy].
  - change (Py.is_leap 9999) with false in *.
    change (Py.days_before_year 9999) with 3651694.
    unfold Py.MAXORDINAL, last_date. split; [lia|].
    intros Hmax. destruct Hlast as [-> ->]; [lia|reflexivity].
  - pose proof (days_before_year_bounds y ltac:(lia)).
    unfold Py.MAXORDINAL. destruct (Py.is_leap y); lia.
Qed.

(** The day before the last date is a Thursday: a Friday that is not the
    last date has two days after it. *)
Lemma friday_has_two_days_after d :
  Py.weekday d = 4 -> Py.toordinal d < Py.MAXORDINAL -> Py.toordinal d + 2 <= Py.MAXORDINAL.
Proof.
  unfold Py.weekday, Py.MAXORDINAL. intros Hfriday Hlt.
  destruct (Z.eq_dec (Py.toordinal d) 3652058) as [Heq|Hne].
  - rewrite Heq in Hfriday. discriminate Hfriday.
  - lia.
Qed.

(** C7, as the script has it: for every reference date but 9999-12-31,
    a Friday gives the next day and the day after it, in this order, and
    any other day gives the next day alone. *)
Theorem planner_next_days y m d base_date :
  Py.make_date y m d = Some base_date ->
  base_date <> last_date ->
  (Py.weekday base_date = 4 ->
   get_test_dates base_date
   = Ok [Py.fromordinal (Py.toordinal base_date + 1);
         Py.fromordinal (Py.toordinal base_date + 2)])
  /\ (Py.weekday base_date <> 4 ->
      get_test_dates base_date = Ok [Py.fromordinal (Py.toordinal base_date + 1)])
  /\ Py.add_days base_date 1 = Ok (Py.fromordinal (Py.toordinal base_date + 1))
  /\ (Py.weekday base_date = 4 ->
      Py.add_days base_date 2 = Ok (Py.fromordinal (Py.toordinal base_date + 2))).
Proof.
  intros Hvalid Hnot_last.
  destruct (valid_date_ordinal _ _ _ _ Hvalid) as [[Hlo Hmax] Honly_last].
  assert (Hhi : Py.toordinal base_date < Py.MAXORDINAL).
  { destruct (Z.eq_dec (Py.toordinal base_date) Py.MAXORDINAL) as [Heq|Hne]; [|lia].
    now apply Honly_last in Heq. }
  assert (Hnext : Py.add_days base_date 1
                  = Ok (Py.fromordinal (Py.toordinal base_date + 1)))
    by (apply add_days_in_range; lia).
  assert (Hafter : Py.weekday base_date = 4 ->
                   Py.add_days base_date 2
                   = Ok (Py.fromordinal (Py.toordinal base_date + 2))).
  { intros Hfriday. apply add_days_in_range.
    pose proof (friday_has_two_days_after _ Hfriday Hhi). lia. }
  unfold get_test_dates. repeat split; try assumption.
  - intros Hfriday. rewrite Hfriday, Hnext, (Hafter Hfriday). reflexivity.
  - intros Hother. apply Z.eqb_neq in Hother. rewrite Hother, Hnext. reflexivity.
Qed.

(** 2024-01-05 is a Friday, 2024-01-04 a Thursday. *)
Lemma planner_next_days_witness :
  get_test_dates (Py.Date 2024 1 5) = Ok [Py.Date 2024 1 6; Py.Date 2024 1 7]
  /\ get_test_dates (Py.Date 2024 1 4) = Ok [Py.Date 2024 1 5].
Proof.
  split.
  - apply (proj1 (planner_next_days 2024 1 5 (Py.Date 2024 1 5)
                    ltac:(reflexivity) ltac:(discriminate))).
    reflexivity.
  - apply (proj1 (proj2 (planner_next_days 2024 1 4 (Py.Date 2024 1 4)
                           ltac:(reflexivity) ltac:(discriminate)))).
    discriminate.
Defined.

(** C7 as the specification states it fails on the last date: 9999-12-31
    is a date, it is a Friday, and the planner raises [OverflowError]
    instead of returning the two days after it. *)
Lemma planner_last_date_overflows :
  Py.make_date 9999 12 31 = Some last_date
  /\ Py.weekday last_date = 4
  /\ get_test_dates last_date = Raise (OverflowError "date value out of range").
Proof. repeat split; reflexivity. Qed.

(** ** The [io] monad *)

Lemma bind_done {A B : Type} tr (a : A) (k : A -> io B) :
  (tr, Done a) ≫= k = (tr ++ fst (k a), snd (k a)).
Proof. cbn. now destruct (k a). Qed.

Lemma bind_raised {A B : Type} tr e (k : A -> io B) :
  (tr, Raised e) ≫= k = (tr, Raised e).
Proof. reflexivity. Qed.

Lemma try_except_caught {A : Type} tr e (handler : exn -> option (io A)) h :
  handler e = Some h -> try_except (tr, Raised e) handler = (tr ++ fst h, snd h).
Proof. intros Hh. unfold try_except. rewrite Hh. now destruct h. Qed.

Lemma quiet_ret {A : Type} (a : A) : quiet (mret a).
Proof. constructor. Qed.

Lemma quiet_emit ev : inner ev = true -> quiet (emit ev).
Proof. intros Hev. repeat constructor. exact Hev. Qed.

Lemma quiet_raise {A : Type} e : quiet (@raise A e).
Proof. constructor. Qed.

Lemma quiet_sys_exit {A : Type} c : quiet (@sys_exit A c).
Proof. constructor. Qed.

Lemma quiet_lift {A : Type} (r : result A) : quiet (lift r).
Proof. destruct r; constructor. Qed.

Lemma quiet_bind {A B : Type} (m : io A) (k : A -> io B) :
  quiet m -> (forall a, quiet (k a)) -> quiet (m ≫= k).
Proof.
  intros Hm Hk. destruct m as [tr [a| |]]; try exact Hm.
  rewrite bind_done. unfold quiet in *. cbn [fst] in *.
  apply Forall_app. split; [exact Hm | apply Hk].
Qed.

Lemma quiet_try_except {A : Type} (m : io A) handler :
  quiet m ->
  (forall e, match handler e with Some h => quiet h | None => True end) ->
  quiet (try_except m handler).
Proof.
  intros Hm Hh. destruct m as [tr [a|e|c]]; try exact Hm.
  unfold try_except. specialize (Hh e). destruct (handler e) as [[tr' o]|]; [|exact Hm].
  unfold quiet in *. cbn [fst] in *. apply Forall_app. now split.
Qed.

Lemma quiet_log_message data : quiet (log_message data).
Proof.
  unfold log_message. destruct (json_dumps_ok data).
  - now apply quiet_emit.
  - apply quiet_raise.
Qed.

Create HintDb quiet.
#[local] Hint Resolve quiet_ret quiet_raise quiet_sys_exit quiet_lift quiet_log_message : quiet.
#[local] Hint Extern 2 (quiet (emit _)) => (apply quiet_emit; reflexivity) : quiet.
#[local] Hint Extern 3 (quiet (_ ≫= _)) => (apply quiet_bind; [|intros]) : quiet.

Lemma quiet_sms_sent tr : Forall (fun ev => inner ev = true) tr -> sms_sent tr = [].
Proof.
  induction 1 as [|ev tr Hev _ IH]; [reflexivity|].
  unfold sms_sent in *. cbn [List.filter]. rewrite IH.
  now destruct ev.
Qed.

Lemma quiet_decisions tr : Forall (fun ev => inner ev = true) tr -> decisions tr = [].
Proof.
  induction 1 as [|ev tr Hev _ IH]; [reflexivity|].
  unfold decisions in *. cbn [List.filter]. rewrite IH.
  unfold inner in Hev. apply negb_true_iff, orb_false_iff in Hev as [_ ->]. reflexivity.
Qed.

Lemma quiet_sessions_opened tr :
  Forall (fun ev => inner ev = true) tr -> sessions_opened tr = 0%nat.
Proof.
  induction 1 as [|ev tr Hev _ IH]; [reflexivity|].
  unfold sessions_opened in *. cbn [List.filter].
  unfold inner in Hev. apply negb_true_iff, orb_false_iff in Hev as [-> _]. exact IH.
Qed.

Lemma sms_sent_app tr tr' : sms_sent (tr ++ tr') = sms_sent tr ++ sms_sent tr'.
Proof. apply List.filter_app. Qed.

Lemma decisions_app tr tr' : decisions (tr ++ tr') = decisions tr ++ decisions tr'.
Proof. apply List.filter_app. Qed.

Lemma sessions_opened_app tr tr' :
  sessions_opened (tr ++ tr') = (sessions_opened tr + sessions_opened tr')%nat.
Proof. unfold sessions_opened. now rewrite List.filter_app, length_app. Qed.

(** ** [process_roster] *)

Section Roster.

Variable month_offsets : gmap Z Z.

Lemma quiet_navigate pg target_date st : quiet (navigate pg target_date st).
Proof.
  unfold navigate. apply quiet_bind; [auto with quiet|]. intros text.
  destruct (negb _); [|auto with quiet].
  apply quiet_try_except; [auto with quiet|].
  intros e. destruct (is_timeout e); [auto with quiet|exact I].
Qed.

Lemma quiet_read_cell pg target_date : quiet (read_cell month_offsets pg target_date).
Proof.
  unfold read_cell. apply quiet_try_except; [auto with quiet|].
  intros e. destruct (is_timeout e); [auto with quiet|exact I].
Qed.

Lemma quiet_report target_date cell_content st : quiet (report target_date cell_content st).
Proof.
  unfold report. destruct (classify cell_content); auto with quiet.
  apply quiet_bind; [|auto with quiet].
  apply quiet_try_except; [auto with quiet|].
  intros e. unfold shift_processing_error. auto with quiet.
Qed.

Lemma quiet_process_date pg target_date st :
  quiet (process_date month_offsets pg target_date st).
Proof.
  unfold process_date. apply quiet_bind; [apply quiet_navigate|].
  intros [st'|]; [|auto with quiet].
  apply quiet_bind; [apply quiet_read_cell|].
  intros [cell|]; [apply quiet_report|auto with quiet].
Qed.

Lemma quiet_process_dates pages test_dates : forall round st,
  quiet (process_dates month_offsets pages round test_dates st).
Proof.
  induction test_dates as [|d rest IH]; intros round st; cbn [process_dates].
  - auto with quiet.
  - apply quiet_bind; [apply quiet_process_date|].
    intros [st'|st']; [apply IH|auto with quiet].
Qed.

Lemma quiet_process_roster pages test_dates label :
  quiet (process_roster month_offsets pages test_dates label).
Proof.
  unfold process_roster. apply quiet_bind; [apply quiet_process_dates|].
  auto with quiet.
Qed.

Lemma quiet_login_step {A : Type} (r : result A) text :
  inner (Print text) = true -> quiet (try_except (lift r) (exit_on_timeout text)).
Proof.
  intros Htext. apply quiet_try_except; [auto with quiet|].
  intros e. unfold exit_on_timeout.
  destruct (is_timeout e); [|exact I].
  repeat constructor. exact Htext.
Qed.

Lemma quiet_login b : quiet (login b).
Proof.
  unfold login.
  repeat (apply quiet_bind; [|intros]);
    first [now apply quiet_login_step | auto with quiet].
Qed.

Lemma quiet_scrape test_dates b : quiet (scrape month_offsets test_dates b).
Proof.
  unfold scrape. apply quiet_bind; [apply quiet_login|]. intros label.
  apply quiet_bind; [apply quiet_process_roster|]. auto with quiet.
Qed.

End Roster.

(** ** One attempt *)

Lemma within_digit_cap_mono a b :
  (a <= b)%nat -> within_digit_cap b -> within_digit_cap a.
Proof. unfold within_digit_cap. intros Hle. apply over_digit_cap_mono. lia. Qed.

Lemma run_entry_ok ev text current_retry :
  within_digit_cap current_retry -> json_dumps_ok (run_entry ev text current_retry) = true.
Proof.
  unfold within_digit_cap, json_dumps_ok. intros Hcap.
  cbn [run_entry Log.shift_start Log.shift_end Log.hours Log.retry_attempts].
  now rewrite over_digit_cap_0, Hcap.
Qed.

(** Runs the binds whose first part is known, from the outside in. *)
Ltac run_io :=
  unfold lift, emit, send_sms; cbn [try_except];
  repeat (rewrite bind_done; cbn [fst snd]).

Section Orchestrator.

Variable month_offsets : gmap Z Z.
Variable RECIPIENTS : Recipients.
Variable MUM_SEND_DAYS : list string.
Variable max_retries retry_delay : nat.
Variable test_dates : list Py.date.

Lemma unexpected_error_ends {A : Type} current_retry e :
  within_digit_cap current_retry ->
  @unexpected_error RECIPIENTS A current_retry e
  = (unexpected_error_events RECIPIENTS current_retry e, Exited 1).
Proof.
  intros Hcap. unfold unexpected_error, send_sms.
  rewrite (log_message_ok _ (run_entry_ok _ _ _ Hcap)). reflexivity.
Qed.

Lemma retry_limit_reached_ends {A : Type} current_retry :
  within_digit_cap current_retry ->
  @retry_limit_reached RECIPIENTS max_retries A current_retry
  = (retry_limit_events RECIPIENTS max_retries current_retry, Exited 1).
Proof.
  intros Hcap. unfold retry_limit_reached, send_sms.
  rewrite (log_message_ok _ (run_entry_ok _ _ _ Hcap)). reflexivity.
Qed.

Lemma send_roster_event_eq b combined_message :
  send_roster RECIPIENTS MUM_SEND_DAYS b combined_message
  = ([send_roster_event RECIPIENTS MUM_SEND_DAYS b combined_message], Done tt).
Proof.
  unfold send_roster, send_roster_event. now destruct (negb _).
Qed.

Local Abbreviation attempt_of b current_retry :=
  (attempt month_offsets RECIPIENTS MUM_SEND_DAYS max_retries retry_delay
     test_dates b current_retry).

Lemma attempt_setup_fails b current_retry e :
  setup_webdriver b = Raise e -> attempt_of b current_retry = ([], Raised e).
Proof. intros Hsetup. unfold attempt. now rewrite Hsetup. Qed.

Lemma attempt_unexpected b current_retry tr e :
  setup_webdriver b = Ok tt ->
  scrape month_offsets test_dates b = (tr, Raised e) ->
  within_digit_cap current_retry ->
  attempt_of b current_retry
  = (OpenSession :: tr ++ unexpected_error_events RECIPIENTS current_retry e, Exited 1).
Proof.
  intros Hsetup Hscrape Hcap. unfold attempt.
  rewrite Hsetup, Hscrape.
  rewrite (try_except_caught _ _ _ _ eq_refl), (unexpected_error_ends _ _ Hcap).
  reflexivity.
Qed.

Lemma attempt_exits b current_retry tr code :
  setup_webdriver b = Ok tt ->
  scrape month_offsets test_dates b = (tr, Exited code) ->
  attempt_of b current_retry = (OpenSession :: tr, Exited code).
Proof.
  intros Hsetup Hscrape. unfold attempt. rewrite Hsetup, Hscrape. reflexivity.
Qed.

Lemma attempt_retries b current_retry tr message label :
  setup_webdriver b = Ok tt ->
  scrape month_offsets test_dates b = (tr, Done (message, true, label)) ->
  (S current_retry < max_retries)%nat ->
  attempt_of b current_retry
  = (OpenSession :: tr ++ [Sleep retry_delay], Done (Next (S current_retry))).
Proof.
  intros Hsetup Hscrape Hlt. unfold attempt. rewrite Hsetup, Hscrape.
  apply Nat.ltb_lt in Hlt. run_io. rewrite Hlt. run_io. reflexivity.
Qed.

Lemma attempt_reaches_limit b current_retry tr message label :
  setup_webdriver b = Ok tt ->
  scrape month_offsets test_dates b = (tr, Done (message, true, label)) ->
  (max_retries <= S current_retry)%nat ->
  within_digit_cap (S current_retry) ->
  attempt_of b current_retry
  = (OpenSession :: tr ++ retry_limit_events RECIPIENTS max_retries (S current_retry),
     Exited 1).
Proof.
  intros Hsetup Hscrape Hge Hcap. unfold attempt. rewrite Hsetup, Hscrape.
  apply Nat.ltb_ge in Hge. run_io.
  rewrite Hge, (retry_limit_reached_ends _ Hcap). reflexivity.
Qed.

Lemma attempt_succeeds b current_retry tr message label :
  setup_webdriver b = Ok tt ->
  scrape month_offsets test_dates b = (tr, Done (message, false, label)) ->
  attempt_of b current_retry
  = (OpenSession :: tr ++ [send_roster_event RECIPIENTS MUM_SEND_DAYS b message],
     Done (Break current_retry)).
Proof.
  intros Hsetup Hscrape. unfold attempt. rewrite Hsetup, Hscrape.
  run_io. rewrite send_roster_event_eq. reflexivity.
Qed.

End Orchestrator.

(** ** Stopping at a roster that is not finalised *)

Lemma report_not_finalised target_date cell_content st :
  classify cell_content = NotFinalized ->
  report target_date cell_content st
  = ([LogLine (day_entry Log.WARNING Log.SHIFT_NOT_FINALISED
                 ("Not finalised for " +:+ date_label target_date +:+ ".")
                 target_date 0 0 0)],
     Done (Break (set_not_finalised
                    (add_message ("Not finalised for " +:+ date_label target_date +:+ ".")
                       st)))).
Proof.
  intros Hclass. unfold report. rewrite Hclass.
  rewrite log_message_ok by apply day_entry_ok. reflexivity.
Qed.

(** A round leaves the flag as it found it, unless it leaves the loop. *)
Lemma report_flag target_date cell_content st tr step :
  report target_date cell_content st = (tr, Done step) ->
  match step with
  | Next st' => not_finalised_found st' = not_finalised_found st
  | Break st' => not_finalised_found st' = true
  end.
Proof.
  unfold report. destruct (classify cell_content) as [| |shifts total].
  - rewrite log_message_ok by apply day_entry_ok. intros [= <- <-]. reflexivity.
  - rewrite log_message_ok by apply day_entry_ok. intros [= <- <-]. reflexivity.
  - match goal with |- context [log_message ?entry] =>
      destruct (json_dumps_ok entry) eqn:Hjson;
      [rewrite (log_message_ok _ Hjson) | rewrite (log_message_fails _ Hjson)]
    end.
    + intros [= <- <-]. reflexivity.
    + unfold try_except, shift_processing_error.
      rewrite log_message_ok by apply day_entry_ok. intros [= <- <-]. reflexivity.
Qed.

Lemma navigate_flag pg target_date st tr st' :
  navigate pg target_date st = (tr, Done (Some st')) ->
  not_finalised_found st' = not_finalised_found st.
Proof.
  unfold navigate. destruct (label_text pg _) as [text|e]; [|discriminate].
  run_io. rewrite app_nil_l. destruct (negb _).
  - destruct (next_month pg _) as [lbl|e]; cbn.
    + intros [= <- <-]. reflexivity.
    + destruct (is_timeout e); discriminate.
  - intros [= <- <-]. reflexivity.
Qed.

Section Rounds.

Variable month_offsets : gmap Z Z.

Lemma process_date_flag pg target_date st tr step :
  process_date month_offsets pg target_date st = (tr, Done step) ->
  match step with
  | Next st' => not_finalised_found st' = not_finalised_found st
  | Break st' => not_finalised_found st' = true
  end.
Proof.
  unfold process_date.
  destruct (navigate pg target_date st) as [tr1 [[st1|]|e|c]] eqn:Hnav;
    try discriminate.
  - apply navigate_flag in Hnav. rewrite bind_done.
    destruct (read_cell month_offsets pg target_date) as [tr2 [[cell|]|e|c]];
      try discriminate.
    + rewrite bind_done.
      destruct (report target_date cell st1) as [tr3 o] eqn:Hreport. cbn [fst snd].
      intros [= <- ->]. apply report_flag in Hreport. now rewrite <- Hnav.
    + intros [= <- <-]. exact Hnav.
  - intros [= <- <-]. reflexivity.
Qed.

(** Once a round has left the loop with the flag set, the dates that
    follow are not looked at: the events and the result are those of the
    dates up to that round. *)
Lemma process_dates_stops pages before after : forall round st tr st',
  not_finalised_found st = false ->
  process_dates month_offsets pages round before st = (tr, Done st') ->
  not_finalised_found st' = true ->
  process_dates month_offsets pages round (before ++ after) st = (tr, Done st').
Proof.
  induction before as [|d rest IH]; intros round st tr st' Hclear Hrun Hset.
  - cbn in Hrun. injection Hrun as <- <-. congruence.
  - cbn [process_dates app] in *.
    destruct (process_date month_offsets (pages round) d st) as [tr1 [[st1|st1]|e|c]]
      eqn:Hround; try discriminate.
    + pose proof (process_date_flag _ _ _ _ _ Hround) as Hflag. cbn in Hflag.
      rewrite bind_done in *.
      destruct (process_dates month_offsets pages (S round) rest st1) as [tr2 o] eqn:Hrest.
      cbn [fst snd] in Hrun. injection Hrun as <- ->.
      rewrite (IH (S round) st1 tr2 st'); [reflexivity| congruence | exact Hrest | exact Hset].
    + exact Hrun.
Qed.

Lemma process_roster_stops pages before after label tr message label' :
  process_roster month_offsets pages before label = (tr, Done (message, true, label')) ->
  process_roster month_offsets pages (before ++ after) label
  = (tr, Done (message, true, label')).
Proof.
  unfold process_roster.
  destruct (process_dates month_offsets pages 0 before _) as [tr1 [st'| |]] eqn:Hrun;
    try discriminate.
  rewrite bind_done. cbn [mret io_ret fst snd]. rewrite app_nil_r.
  intros [= <- <- Hflag <-].
  rewrite (process_dates_stops pages before after 0 _ tr1 st'
             (eq_refl : not_finalised_found
                          {| combined_message := ""; not_finalised_found := false;
                             calendar_label := label |} = false)
             Hrun Hflag).
  rewrite bind_done. cbn [mret io_ret fst snd]. rewrite app_nil_r.
  now rewrite Hflag.
Qed.

(** The round of a date whose cell is not finalised leaves the loop with
    the flag set. *)
Lemma process_date_not_finalised pg target_date st tr1 st1 tr2 cell_content :
  navigate pg target_date st = (tr1, Done (Some st1)) ->
  read_cell month_offsets pg target_date = (tr2, Done (Some cell_content)) ->
  classify cell_content = NotFinalized ->
  exists entry st',
    process_date month_offsets pg target_date st
    = (tr1 ++ tr2 ++ [LogLine entry], Done (Break st'))
    /\ not_finalised_found st' = true
    /\ Log.event_of entry = Log.SHIFT_NOT_FINALISED.
Proof.
  intros Hnav Hcell Hclass. unfold process_date.
  rewrite Hnav, bind_done, Hcell, bind_done, (report_not_finalised _ _ _ Hclass).
  cbn [fst snd]. eauto.
Qed.

End Rounds.

(** ** The retry loop *)

Section Loop.

Variable month_offsets : gmap Z Z.
Variable RECIPIENTS : Recipients.
Variable MUM_SEND_DAYS : list string.
Variable max_retries retry_delay : nat.
Variable test_dates : list Py.date.
Variable world : nat -> Browser.

Local Abbreviation attempt_at current_retry :=
  (attempt month_offsets RECIPIENTS MUM_SEND_DAYS max_retries retry_delay
     test_dates (world current_retry) current_retry).

Local Abbreviation loop fuel current_retry :=
  (retry_loop month_offsets RECIPIENTS MUM_SEND_DAYS max_retries retry_delay
     fuel test_dates world current_retry).

Lemma stops_bind {A B : Type} (m : io A) (k : A -> io B) :
  (forall a, stops (k a)) -> stops (m ≫= k).
Proof.
  intros Hk. destruct m as [tr [a| |]]; try exact I.
  rewrite bind_done. apply Hk.
Qed.

Lemma unexpected_error_stops {A : Type} current_retry e :
  stops (@unexpected_error RECIPIENTS A current_retry e).
Proof. unfold unexpected_error. repeat (apply stops_bind; intros _). exact I. Qed.

Lemma retry_limit_reached_stops {A : Type} current_retry :
  stops (@retry_limit_reached RECIPIENTS max_retries A current_retry).
Proof. unfold retry_limit_reached. repeat (apply stops_bind; intros _). exact I. Qed.

(** A round of the loop that goes on has added one to the counter. *)
Lemma attempt_next_increments current_retry tr current_retry' :
  attempt_at current_retry = (tr, Done (Next current_retry')) ->
  current_retry' = S current_retry.
Proof.
  unfold attempt. destruct (setup_webdriver _) as [[]|e]; [|discriminate].
  destruct (scrape _ _ _) as [tr0 [[[message flag] label]|e|c]].
  - run_io. destruct flag.
    + destruct (S current_retry <? max_retries)%nat.
      * run_io. now intros [= _ <-].
      * intros Hlimit. exfalso. revert Hlimit.
        destruct (@retry_limit_reached RECIPIENTS max_retries (flow nat) (S current_retry))
          as [tr' o] eqn:Hlimit.
        pose proof (@retry_limit_reached_stops (flow nat) (S current_retry)) as Hstops.
        rewrite Hlimit in Hstops. cbn [fst snd]. intros [= _ ->]. exact Hstops.
    + rewrite send_roster_event_eq. run_io. discriminate.
  - run_io.
    destruct (@unexpected_error RECIPIENTS (string * bool * WebElement) current_retry e)
      as [tr' o] eqn:Hfatal.
    pose proof (@unexpected_error_stops (string * bool * WebElement) current_retry e)
      as Hstops.
    rewrite Hfatal in Hstops. destruct o as [a| |]; [destruct Hstops| |]; discriminate.
  - discriminate.
Qed.

(** The loop ends: [max_retries - current_retry] rounds of fuel are
    enough. *)
Lemma retry_loop_total fuel : forall current_retry,
  (max_retries - current_retry <= fuel)%nat ->
  exists r, loop fuel current_retry = Some r.
Proof.
  induction fuel as [|fuel IH]; intros current_retry Hfuel.
  - cbn [retry_loop]. destruct (Nat.ltb_spec current_retry max_retries); [lia|eauto].
  - cbn [retry_loop]. destruct (Nat.ltb_spec current_retry max_retries); [|eauto].
    destruct (attempt_at current_retry) as [tr [[next|stop]|e|c]] eqn:Hround; eauto.
    apply attempt_next_increments in Hround as ->.
    destruct (IH (S current_retry) ltac:(lia)) as [[tr' o] ->]. cbn. eauto.
Qed.

Lemma retry_loop_round fuel current_retry :
  (current_retry < max_retries)%nat ->
  loop (S fuel) current_retry
  = match attempt_at current_retry with
    | (tr, Done (Next current_retry')) =>
        '(tr', o) ← loop fuel current_retry'; Some (tr ++ tr', o)
    | (tr, Done (Break current_retry')) => Some (tr, Done current_retry')
    | (tr, Raised e) => Some (tr, Raised e)
    | (tr, Exited c) => Some (tr, Exited c)
    end.
Proof. intros Hlt. apply Nat.ltb_lt in Hlt. cbn [retry_loop]. now rewrite Hlt. Qed.

Lemma scrape_trace_inner b tr o :
  scrape month_offsets test_dates b = (tr, o) -> Forall (fun ev => inner ev = true) tr.
Proof.
  intros Hscrape. pose proof (quiet_scrape month_offsets test_dates b) as Hquiet.
  unfold quiet in Hquiet. now rewrite Hscrape in Hquiet.
Qed.

(** [n] attempts in a row that find the roster not finalised, none of
    them the last one allowed: [n] sessions, nothing sent, and the loop
    goes on from the counter plus [n]. *)
Lemma retry_rounds n : forall current_retry,
  (current_retry + n < max_retries)%nat ->
  (forall k, (current_retry <= k < current_retry + n)%nat ->
             not_finalised_attempt month_offsets test_dates (world k)) ->
  exists prefix,
    sms_sent prefix = [] /\ decisions prefix = [] /\ sessions_opened prefix = n
    /\ forall fuel,
        loop (n + fuel) current_retry
        = '(tr', o) ← loop fuel (current_retry + n); Some (prefix ++ tr', o).
Proof.
  induction n as [|n IH]; intros current_retry Hbelow Hrounds.
  - exists []. repeat split; try reflexivity. intros fuel.
    rewrite Nat.add_0_r. cbn [Nat.add app].
    now destruct (loop fuel current_retry) as [[tr' o]|].
  - destruct (Hrounds current_retry ltac:(lia)) as [Hsetup (tr & message & label & Hscrape)].
    pose proof (attempt_retries month_offsets RECIPIENTS MUM_SEND_DAYS max_retries
                  retry_delay test_dates _ current_retry _ _ _ Hsetup Hscrape ltac:(lia))
      as Hround.
    destruct (IH (S current_retry) ltac:(lia) ltac:(intros; apply Hrounds; lia))
      as (prefix & Hsms & Hdecisions & Hsessions & Hloop).
    pose proof (scrape_trace_inner _ _ _ Hscrape) as Hinner.
    exists ((OpenSession :: tr ++ [Sleep retry_delay]) ++ prefix). repeat split.
    + rewrite sms_sent_app, Hsms. change (OpenSession :: tr ++ [Sleep retry_delay])
        with ([OpenSession] ++ tr ++ [Sleep retry_delay]).
      rewrite !sms_sent_app, (quiet_sms_sent _ Hinner). reflexivity.
    + rewrite decisions_app, Hdecisions. change (OpenSession :: tr ++ [Sleep retry_delay])
        with ([OpenSession] ++ tr ++ [Sleep retry_delay]).
      rewrite !decisions_app, (quiet_decisions _ Hinner). reflexivity.
    + rewrite sessions_opened_app, Hsessions.
      change (OpenSession :: tr ++ [Sleep retry_delay])
        with ([OpenSession] ++ tr ++ [Sleep retry_delay]).
      rewrite !sessions_opened_app, (quiet_sessions_opened _ Hinner). reflexivity.
    + intros fuel. cbn [Nat.add]. rewrite retry_loop_round by lia.
      rewrite Hround, Hloop. replace (S current_retry + n)%nat with (current_retry + S n)%nat by lia.
      destruct (loop fuel (current_retry + S n)) as [[tr' o]|]; [|reflexivity].
      cbn. now rewrite (app_assoc (tr ++ [Sleep retry_delay])).
Qed.

End Loop.

(** The script ends, whatever the browser answers. *)
Lemma main_total month_offsets RECIPIENTS MUM_SEND_DAYS max_retries retry_delay
    date_arg today world :
  exists r,
    main month_offsets RECIPIENTS MUM_SEND_DAYS max_retries retry_delay date_arg today world
    = Some r.
Proof.
  unfold main. destruct (determine_base_date date_arg today) as [tr [base| |]]; eauto.
  destruct (get_test_dates base) as [dates|e]; eauto.
  destruct (retry_loop_total month_offsets RECIPIENTS MUM_SEND_DAYS max_retries retry_delay
              dates world max_retries 0 ltac:(lia)) as [[tr' o] ->].
  cbn. eauto.
Qed.

Lemma main_planned month_offsets RECIPIENTS MUM_SEND_DAYS max_retries retry_delay
    date_arg today test_dates world :
  planned date_arg today test_dates ->
  main month_offsets RECIPIENTS MUM_SEND_DAYS max_retries retry_delay date_arg today world
  = '(tr, o) ← retry_loop month_offsets RECIPIENTS MUM_SEND_DAYS max_retries retry_delay
                 max_retries test_dates world 0;
    Some (match o with
          | Done current_retry =>
              (tr ++ [Print "Script completed successfully."], Done current_retry)
          | Raised e => (tr, Raised e)
          | Exited c => (tr, Exited c)
          end).
Proof.
  intros (base_date & Hbase & Hdates). unfold main. rewrite Hbase, Hdates.
  destruct (retry_loop _ _ _ _ _ _ _ _ _) as [[tr [current_retry| |]]|]; reflexivity.
Qed.

(** The loop when every attempt finds the roster not finalised. *)
Lemma retry_loop_exhausted month_offsets RECIPIENTS MUM_SEND_DAYS max_retries retry_delay
    test_dates world :
  (0 < max_retries)%nat ->
  within_digit_cap max_retries ->
  (forall k, (k < max_retries)%nat ->
             not_finalised_attempt month_offsets test_dates (world k)) ->
  exists trace,
    retry_loop month_offsets RECIPIENTS MUM_SEND_DAYS max_retries retry_delay
      max_retries test_dates world 0
    = Some (trace, Exited 1)
    /\ sms_sent trace
       = [Sms (retry_limit_message max_retries) [self RECIPIENTS; wife RECIPIENTS]]
    /\ sessions_opened trace = max_retries
    /\ In (LogLine (run_entry Log.RETRY_LIMIT_REACHED (retry_limit_message max_retries)
                      max_retries)) trace.
Proof.
  intros Hpos Hcap Hall.
  destruct (retry_rounds month_offsets RECIPIENTS MUM_SEND_DAYS max_retries retry_delay
              test_dates world (max_retries - 1) 0 ltac:(lia) ltac:(intros; apply Hall; lia))
    as (prefix & Hsms & Hdecisions & Hsessions & Hloop).
  destruct (Hall (max_retries - 1)%nat ltac:(lia))
    as [Hsetup (tr & message & label & Hscrape)].
  pose proof (scrape_trace_inner _ _ _ _ _ Hscrape) as Hinner.
  exists (prefix ++ OpenSession :: tr ++ retry_limit_events RECIPIENTS max_retries max_retries).
  split; [|split; [|split]].
  - specialize (Hloop 1%nat).
    replace (max_retries - 1 + 1)%nat with max_retries in Hloop by lia.
    rewrite Hloop, retry_loop_round by lia. cbn [Nat.add].
    rewrite (attempt_reaches_limit month_offsets RECIPIENTS MUM_SEND_DAYS max_retries
               retry_delay test_dates _ (max_retries - 1) _ _ _ Hsetup Hscrape);
      replace (S (max_retries - 1)) with max_retries by lia;
      [reflexivity | lia | exact Hcap].
  - change (OpenSession :: tr ++ ?l) with ([OpenSession] ++ tr ++ l).
    rewrite !sms_sent_app, Hsms, (quiet_sms_sent _ Hinner). reflexivity.
  - change (OpenSession :: tr ++ ?l) with ([OpenSession] ++ tr ++ l).
    rewrite !sessions_opened_app, Hsessions, (quiet_sessions_opened _ Hinner).
    cbn. lia.
  - apply in_or_app. right. right. apply in_or_app. right. right. left. reflexivity.
Qed.

(** The loop when an attempt finds the roster finalised after [j]
    attempts that did not. *)
Lemma retry_loop_succeeds month_offsets RECIPIENTS MUM_SEND_DAYS max_retries retry_delay
    test_dates world j message :
  (j < max_retries)%nat ->
  (forall k, (k < j)%nat -> not_finalised_attempt month_offsets test_dates (world k)) ->
  finalised_attempt month_offsets test_dates (world j) message ->
  exists trace,
    retry_loop month_offsets RECIPIENTS MUM_SEND_DAYS max_retries retry_delay
      max_retries test_dates world 0
    = Some (trace, Done j)
    /\ decisions trace = [send_roster_event RECIPIENTS MUM_SEND_DAYS (world j) message]
    /\ sessions_opened trace = S j.
Proof.
  intros Hj Hbefore [Hsetup (tr & label & Hscrape)].
  destruct (retry_rounds month_offsets RECIPIENTS MUM_SEND_DAYS max_retries retry_delay
              test_dates world j 0 ltac:(lia) ltac:(intros; apply Hbefore; lia))
    as (prefix & Hsms & Hdecisions & Hsessions & Hloop).
  pose proof (scrape_trace_inner _ _ _ _ _ Hscrape) as Hinner.
  exists (prefix ++ OpenSession :: tr
          ++ [send_roster_event RECIPIENTS MUM_SEND_DAYS (world j) message]).
  split; [|split].
  - specialize (Hloop (S (max_retries - S j))).
    replace (j + S (max_retries - S j))%nat with max_retries in Hloop by lia.
    rewrite Hloop, retry_loop_round by lia. cbn [Nat.add].
    rewrite (attempt_succeeds month_offsets RECIPIENTS MUM_SEND_DAYS max_retries
               retry_delay test_dates _ j _ _ _ Hsetup Hscrape).
    reflexivity.
  - change (OpenSession :: tr ++ ?l) with ([OpenSession] ++ tr ++ l).
    rewrite !decisions_app, Hdecisions, (quiet_decisions _ Hinner).
    unfold send_roster_event. now destruct (negb _).
  - change (OpenSession :: tr ++ ?l) with ([OpenSession] ++ tr ++ l).
    rewrite !sessions_opened_app, Hsessions, (quiet_sessions_opened _ Hinner).
    unfold send_roster_event. destruct (negb _); cbn; lia.
Qed.

(** ** The claims on the orchestrator *)

(** C2: a date that classifies as not finalised ends the rounds of its
    attempt with the flag set, the dates after it are not processed, and
    the attempt asks for a retry; after [max_retries] attempts that all
    find the roster not finalised the script has failed, with the counter
    at [max_retries] in its log and exactly one text message, the failure
    notice; when attempt number [j + 1] finds the roster finalised,
    exactly one decision of the success path is taken and [j + 1]
    sessions were opened in all. *)
Theorem retry_state_machine month_offsets RECIPIENTS MUM_SEND_DAYS max_retries retry_delay :
  (0 < max_retries)%nat ->
  within_digit_cap max_retries ->
  (forall pg target_date st tr1 st1 tr2 cell_content,
     navigate pg target_date st = (tr1, Done (Some st1)) ->
     read_cell month_offsets pg target_date = (tr2, Done (Some cell_content)) ->
     classify cell_content = NotFinalized ->
     exists entry st',
       process_date month_offsets pg target_date st
       = (tr1 ++ tr2 ++ [LogLine entry], Done (Break st'))
       /\ not_finalised_found st' = true
       /\ Log.event_of entry = Log.SHIFT_NOT_FINALISED)
  /\ (forall pages before after label tr message label',
        process_roster month_offsets pages before label
        = (tr, Done (message, true, label')) ->
        process_roster month_offsets pages (before ++ after) label
        = (tr, Done (message, true, label')))
  /\ (forall test_dates b current_retry,
        (current_retry < max_retries)%nat ->
        not_finalised_attempt month_offsets test_dates b ->
        exists tr,
          attempt month_offsets RECIPIENTS MUM_SEND_DAYS max_retries retry_delay
            test_dates b current_retry
          = (tr, if (S current_retry <? max_retries)%nat
                 then Done (Next (S current_retry)) else Exited 1))
  /\ (forall date_arg today test_dates world,
        planned date_arg today test_dates ->
        (forall k, (k < max_retries)%nat ->
                   not_finalised_attempt month_offsets test_dates (world k)) ->
        exists trace,
          main month_offsets RECIPIENTS MUM_SEND_DAYS max_retries retry_delay
            date_arg today world
          = Some (trace, Exited 1)
          /\ sms_sent trace
             = [Sms (retry_limit_message max_retries) [self RECIPIENTS; wife RECIPIENTS]]
          /\ sessions_opened trace = max_retries
          /\ In (LogLine (run_entry Log.RETRY_LIMIT_REACHED
                            (retry_limit_message max_retries) max_retries)) trace)
  /\ (forall date_arg today test_dates world j message,
        planned date_arg today test_dates ->
        (j < max_retries)%nat ->
        (forall k, (k < j)%nat ->
                   not_finalised_attempt month_offsets test_dates (world k)) ->
        finalised_attempt month_offsets test_dates (world j) message ->
        exists trace,
          main month_offsets RECIPIENTS MUM_SEND_DAYS max_retries retry_delay
            date_arg today world
          = Some (trace, Done j)
          /\ decisions trace
             = [send_roster_event RECIPIENTS MUM_SEND_DAYS (world j) message]
          /\ sessions_opened trace = S j).
Proof.
  intros Hpos Hcap. split; [|split; [|split; [|split]]].
  - intros. eapply process_date_not_finalised; eassumption.
  - intros. now apply process_roster_stops.
  - intros test_dates b current_retry Hlt [Hsetup (tr & message & label & Hscrape)].
    destruct (Nat.ltb_spec (S current_retry) max_retries) as [Hmore|Hlast].
    + eexists. now apply (attempt_retries _ _ _ _ _ _ _ _ _ _ _ Hsetup Hscrape).
    + eexists. apply (attempt_reaches_limit _ _ _ _ _ _ _ _ _ _ _ Hsetup Hscrape Hlast).
      apply (within_digit_cap_mono _ max_retries); [lia|exact Hcap].
  - intros date_arg today test_dates world Hplan Hall.
    destruct (retry_loop_exhausted month_offsets RECIPIENTS MUM_SEND_DAYS max_retries
                retry_delay test_dates world Hpos Hcap Hall)
      as (trace & Hloop & Hsms & Hsessions & Hlog).
    exists trace. rewrite (main_planned _ _ _ _ _ _ _ _ _ Hplan), Hloop. auto.
  - intros date_arg today test_dates world j message Hplan Hj Hbefore Hlast.
    destruct (retry_loop_succeeds month_offsets RECIPIENTS MUM_SEND_DAYS max_retries
                retry_delay test_dates world j message Hj Hbefore Hlast)
      as (trace & Hloop & Hdecisions & Hsessions).
    exists (trace ++ [Print "Script completed successfully."]).
    rewrite (main_planned _ _ _ _ _ _ _ _ _ Hplan), Hloop.
    rewrite decisions_app, sessions_opened_app, Hdecisions, Hsessions.
    split; [reflexivity|]. split; cbn; [reflexivity | lia].
Qed.

Lemma retry_state_machine_witness :
  (exists trace,
     main sample_offsets Config.RECIPIENTS Config.MUM_SEND_DAYS 120 60
       "today" (Py.Date 2024 1 4) world_never_finalised
     = Some (trace, Exited 1)
     /\ sms_sent trace
        = [Sms (retry_limit_message 120) ["+1234567890"; "+0987654321"]%string]
     /\ sessions_opened trace = 120%nat)
  /\ (exists trace,
        main sample_offsets Config.RECIPIENTS Config.MUM_SEND_DAYS 120 60
          "today" (Py.Date 2024 1 4) world_finalised_third
        = Some (trace, Done 2%nat)
        /\ length (decisions trace) = 1%nat
        /\ sessions_opened trace = 3%nat)
  /\ process_roster sample_offsets (page (world_never_finalised 0))
       ([Py.Date 2024 1 6] ++ [Py.Date 2024 1 7]) 0%nat
     = process_roster sample_offsets (page (world_never_finalised 0))
         [Py.Date 2024 1 6] 0%nat.
Proof.
  destruct (retry_state_machine sample_offsets Config.RECIPIENTS Config.MUM_SEND_DAYS
              120 60 ltac:(lia) ltac:(vm_compute; reflexivity))
    as (_ & Hstops & _ & Hfailed & Hsucceeded).
  split; [|split].
  - destruct (Hfailed "today"%string (Py.Date 2024 1 4) [Py.Date 2024 1 5]
                world_never_finalised) as (trace & Hmain & Hsms & Hsessions & _).
    + exists (Py.Date 2024 1 4). split; reflexivity.
    + intros k _. split; [reflexivity|]. eexists _, _, _. reflexivity.
    + exists trace. auto.
  - destruct (Hsucceeded "today"%string (Py.Date 2024 1 4) [Py.Date 2024 1 5]
                world_finalised_third 2%nat
                ("Hours for (Friday) 5/1/2024 are: D0600-1400 (8) (c) Bsecurity"
                 +:+ String "010" EmptyString))
      as (trace & Hmain & Hdecisions & Hsessions).
    + exists (Py.Date 2024 1 4). split; reflexivity.
    + lia.
    + intros k Hk. destruct k as [|[|k]]; [| |lia];
        (split; [reflexivity|]; eexists _, _, _; reflexivity).
    + split; [reflexivity|]. eexists _, _. reflexivity.
    + exists trace. rewrite Hdecisions. auto.
  - apply Hstops. reflexivity.
Defined.

(** ** Who is sent the roster *)

(** C8: on the success path with a text to send, the recipients are the
    primary and the secondary one, and the tertiary one after them when
    the abbreviated name of today's weekday is in the configured list:
    three recipients on such a day, two on any other. *)
Theorem success_recipients month_offsets RECIPIENTS MUM_SEND_DAYS max_retries retry_delay
    test_dates b current_retry tr message label :
  setup_webdriver b = Ok tt ->
  scrape month_offsets test_dates b = (tr, Done (message, false, label)) ->
  Py.strip message <> ""%string ->
  (Py.strftime_a_lower (today_at_send b) ∈ MUM_SEND_DAYS ->
   attempt month_offsets RECIPIENTS MUM_SEND_DAYS max_retries retry_delay
     test_dates b current_retry
   = (OpenSession :: tr
      ++ [Sms (Py.strip message) [self RECIPIENTS; wife RECIPIENTS; mum RECIPIENTS]],
      Done (Break current_retry)))
  /\ (Py.strftime_a_lower (today_at_send b) ∉ MUM_SEND_DAYS ->
      attempt month_offsets RECIPIENTS MUM_SEND_DAYS max_retries retry_delay
        test_dates b current_retry
      = (OpenSession :: tr ++ [Sms (Py.strip message) [self RECIPIENTS; wife RECIPIENTS]],
         Done (Break current_retry))).
Proof.
  intros Hsetup Hscrape Htext.
  rewrite (attempt_succeeds _ _ _ _ _ _ _ _ _ _ _ Hsetup Hscrape).
  unfold send_roster_event, recipients_on.
  destruct (Py.strip message); [contradiction|]. cbn [Py.is_empty negb].
  split; intros Hday.
  - now rewrite bool_decide_eq_true_2.
  - now rewrite bool_decide_eq_false_2.
Qed.

(** 2024-01-04 is a Thursday, 2024-01-05 a Friday. *)
Lemma success_recipients_witness :
  sms_recipients
    (fst (attempt sample_offsets Config.RECIPIENTS Config.MUM_SEND_DAYS 120 60
            [Py.Date 2024 1 6]
            (browser_showing (fun _ => "D0600-1400 (8)"%string) (Py.Date 2024 1 4)) 0))
  = [["+1234567890"; "+0987654321"; "+1122334455"]%string]
  /\ sms_recipients
       (fst (attempt sample_offsets Config.RECIPIENTS Config.MUM_SEND_DAYS 120 60
               [Py.Date 2024 1 6]
               (browser_showing (fun _ => "D0600-1400 (8)"%string) (Py.Date 2024 1 5)) 0))
     = [["+1234567890"; "+0987654321"]%string].
Proof.
  split.
  - rewrite (proj1 (success_recipients sample_offsets Config.RECIPIENTS
                      Config.MUM_SEND_DAYS 120 60 [Py.Date 2024 1 6]
                      (browser_showing (fun _ => "D0600-1400 (8)"%string) (Py.Date 2024 1 4))
                      0 _ _ _ eq_refl eq_refl ltac:(discriminate))).
    + reflexivity.
    + vm_compute. apply list_elem_of_In. right. left. reflexivity.
  - rewrite (proj2 (success_recipients sample_offsets Config.RECIPIENTS
                      Config.MUM_SEND_DAYS 120 60 [Py.Date 2024 1 6]
                      (browser_showing (fun _ => "D0600-1400 (8)"%string) (Py.Date 2024 1 5))
                      0 _ _ _ eq_refl eq_refl ltac:(discriminate))).
    + reflexivity.
    + vm_compute. intros Hin. apply list_elem_of_In in Hin.
      destruct Hin as [Hin|[Hin|[]]]; discriminate.
Defined.

(** ** The date argument *)

Lemma main_rejects month_offsets RECIPIENTS MUM_SEND_DAYS max_retries retry_delay
    date_arg today world tr code :
  determine_base_date date_arg today = (tr, Exited code) ->
  main month_offsets RECIPIENTS MUM_SEND_DAYS max_retries retry_delay date_arg today world
  = Some (tr, Exited code).
Proof. intros Hexit. unfold main. now rewrite Hexit. Qed.

(** ** Dates written YYYY-MM-DD *)

Lemma isdigit_value c : Py.isdigit c = true -> 0 <= Py.digit_value c <= 9.
Proof.
  unfold Py.isdigit, Py.in_range, Py.digit_value.
  intros [Hlo Hhi]%andb_prop. apply N.leb_le in Hlo, Hhi. lia.
Qed.

Lemma take_digit_digit c s :
  Py.isdigit c = true -> Py.take_digit (String c s) = Some (Py.digit_value c, s).
Proof. intros Hc. cbn. now rewrite Hc. Qed.

Lemma isdigit_not_hyphen c : Py.isdigit c = true -> Ascii.eqb "-" c = false.
Proof. destruct c as [[] [] [] [] [] [] [] []]; (discriminate || reflexivity). Qed.

Lemma take_char_digit c s : Py.isdigit c = true -> Py.take_char "-" (String c s) = None.
Proof. intros Hc. cbn [Py.take_char]. now rewrite (isdigit_not_hyphen c Hc). Qed.

Lemma days_in_month_bounds y m : 1 <= m <= 12 -> 28 <= Py.days_in_month y m <= 31.
Proof.
  intros Hm. unfold Py.days_in_month.
  destruct ((m =? 2) && Py.is_leap y); [lia|].
  assert (m = 1 \/ m = 2 \/ m = 3 \/ m = 4 \/ m = 5 \/ m = 6 \/ m = 7 \/ m = 8
          \/ m = 9 \/ m = 10 \/ m = 11 \/ m = 12) as Hcases by lia.
  repeat (destruct Hcases as [->|Hcases]); try subst m; eval_tables; lia.
Qed.

Lemma option_bind_some {A B : Type} (x : A) (f : A -> option B) : Some x ≫= f = f x.
Proof. reflexivity. Qed.

Lemma take_char_same c s : Py.take_char c (String c s) = Some s.
Proof. cbn [Py.take_char]. now rewrite Ascii.eqb_refl. Qed.

Ltac run_match :=
  repeat (first [rewrite take_digit_digit by assumption
                | rewrite take_char_same
                | rewrite option_bind_some]; cbn beta iota).

(** The constructor refuses a month or a day that no calendar has. *)
Lemma make_date_out y m d :
  m < 1 \/ 12 < m \/ d < 1 \/ 31 < d -> Py.make_date y m d = None.
Proof.
  intros Hout. unfold Py.make_date.
  destruct (andb _ _) eqn:Hok; [|reflexivity]. exfalso.
  rewrite !andb_true_iff, !Z.leb_le in Hok.
  pose proof (days_in_month_bounds y m ltac:(lia)). lia.
Qed.

Ltac to_arith H :=
  rewrite ?orb_true_iff, ?orb_false_iff, ?andb_true_iff, ?andb_false_iff,
    ?Z.eqb_eq, ?Z.eqb_neq, ?Z.leb_le, ?Z.leb_gt in H.

Lemma strptime_iso_form y1 y2 y3 y4 m1 m2 d1 d2 :
  forallb Py.isdigit [y1; y2; y3; y4; m1; m2; d1; d2] = true ->
  Py.strptime_Y_m_d
    (String y1 (String y2 (String y3 (String y4 (String "-"
       (String m1 (String m2 (String "-" (String d1 (String d2 EmptyString))))))))))
  = Py.make_date
      (1000 * Py.digit_value y1 + 100 * Py.digit_value y2
       + 10 * Py.digit_value y3 + Py.digit_value y4)
      (10 * Py.digit_value m1 + Py.digit_value m2)
      (10 * Py.digit_value d1 + Py.digit_value d2).
Proof.
  cbn [forallb]. rewrite !andb_true_iff.
  intros (Hy1 & Hy2 & Hy3 & Hy4 & Hm1 & Hm2 & Hd1 & Hd2 & _).
  unfold Py.strptime_Y_m_d, Py.match_Y, Py.match_m. run_match.
  pose proof (isdigit_value _ Hm1) as Bm1. pose proof (isdigit_value _ Hm2) as Bm2.
  pose proof (isdigit_value _ Hd1) as Bd1. pose proof (isdigit_value _ Hd2) as Bd2.
  set (y := 1000 * _ + _ + _ + _).
  set (a := Py.digit_value m1) in *. set (b := Py.digit_value m2) in *.
  set (p := Py.digit_value d1) in *. set (q := Py.digit_value d2) in *.
  assert (Hnone : Py.match_after_m y
                    (if 1 <=? a
                     then [(a, String m2 (String "-" (String d1 (String d2 EmptyString))))]
                     else []) = None).
  { destruct (1 <=? a); [|reflexivity].
    cbn [Py.match_after_m]. now rewrite take_char_digit. }
  destruct (((a =? 1) && (b <=? 2)) || ((a =? 0) && (1 <=? b))) eqn:Hmonth;
    to_arith Hmonth.
  - cbn [app Py.match_after_m]. unfold Py.match_d. run_match.
    fold p q.
    destruct (((p =? 3) && (q <=? 1)) || ((1 <=? p) && (p <=? 2)) || ((p =? 0) && (1 <=? q)))
      eqn:Hday; to_arith Hday.
    + reflexivity.
    + rewrite (make_date_out y (10 * a + b) (10 * p + q)) by lia.
      destruct (1 <=? p); [reflexivity|]. now rewrite Hnone.
  - cbn [app]. rewrite Hnone.
    now rewrite (make_date_out y (10 * a + b) (10 * p + q)) by lia.
Qed.

(** ** The texts [strptime] reads *)

Lemma digit_char_digit n :
  0 <= n <= 9 -> Py.isdigit (digit_char n) = true /\ Py.digit_value (digit_char n) = n.
Proof.
  intros Hn. rewrite <- (Z2Nat.id n) by lia.
  assert (Hsmall : (Z.to_nat n < 10)%nat) by lia.
  revert Hsmall. generalize (Z.to_nat n). intros k Hsmall.
  do 10 (destruct k as [|k]; [split; reflexivity|]). lia.
Qed.

Lemma digit_value_char c : Py.isdigit c = true -> digit_char (Py.digit_value c) = c.
Proof. destruct c as [[] [] [] [] [] [] [] []]; (discriminate || reflexivity). Qed.

Lemma take_digit_char n s :
  0 <= n <= 9 -> Py.take_digit (String (digit_char n) s) = Some (n, s).
Proof.
  intros Hn. destruct (digit_char_digit n Hn) as [Hdigit Hvalue].
  cbn [Py.take_digit]. now rewrite Hdigit, Hvalue.
Qed.

Lemma take_digit_some s a r :
  Py.take_digit s = Some (a, r) -> 0 <= a <= 9 /\ s = String (digit_char a) r.
Proof.
  destruct s as [|c s]; [discriminate|]. cbn [Py.take_digit].
  destruct (Py.isdigit c) eqn:Hc; [|discriminate]. intros [= <- <-].
  split; [apply (isdigit_value c Hc)|]. now rewrite (digit_value_char c Hc).
Qed.

Lemma take_char_some c s r : Py.take_char c s = Some r -> s = String c r.
Proof.
  destruct s as [|c' s]; [discriminate|]. cbn [Py.take_char].
  destruct (Ascii.eqb_spec c c') as [->|]; [|discriminate]. now intros [= ->].
Qed.

Lemma take_digit_hyphen s : Py.take_digit (String "-" s) = None.
Proof. reflexivity. Qed.

Lemma take_digit_blank s : Py.take_digit (String " " s) = None.
Proof. reflexivity. Qed.

Lemma take_char_hyphen_digit n s :
  0 <= n <= 9 -> Py.take_char "-" (String (digit_char n) s) = None.
Proof.
  intros Hn. destruct (digit_char_digit n Hn) as [Hdigit _].
  now apply take_char_digit.
Qed.

Lemma append_nil_l s : EmptyString +:+ s = s.
Proof. reflexivity. Qed.

Lemma two_digit_parts p q :
  0 <= q <= 9 -> two_digit (10 * p + q) = String (digit_char p) (one_digit q).
Proof.
  intros Hq. unfold two_digit.
  replace ((10 * p + q) / 10) with p by (Z.div_mod_to_equations; lia).
  replace ((10 * p + q) mod 10) with q by (Z.div_mod_to_equations; lia).
  reflexivity.
Qed.

Lemma four_digit_parts a b c d :
  0 <= a -> 0 <= b <= 9 -> 0 <= c <= 9 -> 0 <= d <= 9 ->
  four_digit (1000 * a + 100 * b + 10 * c + d)
  = String (digit_char a) (String (digit_char b) (String (digit_char c) (one_digit d))).
Proof.
  intros Ha Hb Hc Hd. unfold four_digit.
  replace ((1000 * a + 100 * b + 10 * c + d) / 1000) with a
    by (Z.div_mod_to_equations; lia).
  replace ((1000 * a + 100 * b + 10 * c + d) / 100 mod 10) with b
    by (Z.div_mod_to_equations; lia).
  replace ((1000 * a + 100 * b + 10 * c + d) mod 100) with (10 * c + d)
    by (Z.div_mod_to_equations; lia).
  now rewrite two_digit_parts.
Qed.

Lemma match_Y_written y rest :
  0 <= y <= 9999 -> Py.match_Y (four_digit y +:+ rest) = Some (y, rest).
Proof.
  intros Hy. unfold Py.match_Y, four_digit, two_digit, one_digit.
  rewrite !append_cons.
  rewrite take_digit_char by (Z.div_mod_to_equations; lia). rewrite option_bind_some. cbn beta iota.
  rewrite take_digit_char by (Z.div_mod_to_equations; lia). rewrite option_bind_some. cbn beta iota.
  rewrite take_digit_char by (Z.div_mod_to_equations; lia). rewrite option_bind_some. cbn beta iota.
  rewrite take_digit_char by (Z.div_mod_to_equations; lia). rewrite option_bind_some. cbn beta iota.
  do 2 f_equal. Z.div_mod_to_equations; lia.
Qed.

Lemma match_d_written d d_text :
  1 <= d <= 31 -> In d_text (day_texts d) -> Py.match_d d_text = Some (d, EmptyString).
Proof.
  intros Hd Hin. unfold day_texts in Hin. destruct Hin as [<-|Hin].
  - unfold Py.match_d, two_digit, one_digit.
    rewrite !take_digit_char by (Z.div_mod_to_equations; lia).
    assert (Hcond : ((d / 10 =? 3) && (d mod 10 <=? 1))
                    || ((1 <=? d / 10) && (d / 10 <=? 2))
                    || ((d / 10 =? 0) && (1 <=? d mod 10)) = true).
    { rewrite !orb_true_iff, !andb_true_iff, !Z.eqb_eq, !Z.leb_le.
      Z.div_mod_to_equations; lia. }
    rewrite Hcond. do 2 f_equal. Z.div_mod_to_equations; lia.
  - destruct (Z.ltb_spec d 10) as [Hsmall|]; [|destruct Hin].
    destruct Hin as [<-|[<-|[]]].
    + unfold Py.match_d, one_digit. rewrite take_digit_char by lia.
      cbn [Py.take_digit]. now replace (1 <=? d) with true by (symmetry; apply Z.leb_le; lia).
    + unfold Py.match_d, one_digit. rewrite take_digit_blank.
      cbn [Py.take_char]. change (Ascii.eqb " " " ") with true. cbn iota.
      rewrite option_bind_some, take_digit_char by lia. rewrite option_bind_some. cbn beta iota.
      now replace (1 <=? d) with true by (symmetry; apply Z.leb_le; lia).
Qed.

Lemma match_after_m_written y m m_text d d_text :
  1 <= m <= 12 -> In m_text (month_texts m) ->
  1 <= d <= 31 -> In d_text (day_texts d) ->
  Py.match_after_m y (Py.match_m (m_text +:+ "-" +:+ d_text)) = Some (y, m, d, EmptyString).
Proof.
  intros Hm Hmin Hd Hdin. pose proof (match_d_written d d_text Hd Hdin) as Hday.
  unfold month_texts in Hmin. destruct Hmin as [<-|Hmin].
  - unfold Py.match_m, two_digit, one_digit. rewrite !append_cons.
    rewrite !take_digit_char by (Z.div_mod_to_equations; lia).
    assert (Hcond : ((m / 10 =? 1) && (m mod 10 <=? 2))
                    || ((m / 10 =? 0) && (1 <=? m mod 10)) = true).
    { rewrite !orb_true_iff, !andb_true_iff, !Z.eqb_eq, !Z.leb_le.
      Z.div_mod_to_equations; lia. }
    rewrite Hcond. cbn [app Py.match_after_m].
    change (EmptyString +:+ ?x) with x.
    rewrite take_char_same, option_bind_some. cbn beta. rewrite !append_nil_l, Hday.
    do 4 f_equal. Z.div_mod_to_equations; lia.
  - destruct (Z.ltb_spec m 10) as [Hsmall|]; [|destruct Hmin].
    destruct Hmin as [<-|[]].
    unfold Py.match_m, one_digit. rewrite !append_cons.
    rewrite take_digit_char by lia. change (EmptyString +:+ ?x) with x.
    rewrite take_digit_hyphen. cbn [app].
    replace (1 <=? m) with true by (symmetry; apply Z.leb_le; lia).
    cbn [Py.match_after_m]. rewrite take_char_same, option_bind_some. cbn beta.
    now rewrite ?append_nil_l, Hday.
Qed.

Lemma date_fields d : Py.Date (Py.year d) (Py.month d) (Py.day d) = d.
Proof. now destruct d. Qed.

Lemma make_date_calendar y m d date :
  Py.make_date y m d = Some date <-> date = Py.Date y m d /\ calendar_day date.
Proof.
  unfold Py.make_date, calendar_day. split.
  - destruct (andb _ _) eqn:Hok; [|discriminate]. intros [= <-].
    rewrite !andb_true_iff, !Z.leb_le in Hok. cbn. intuition.
  - intros [-> Hday]. cbn in Hday.
    replace (andb _ _) with true; [reflexivity|].
    symmetry. rewrite !andb_true_iff, !Z.leb_le. intuition.
Qed.

Lemma calendar_day_bounds d : calendar_day d -> 1 <= Py.day d <= 31.
Proof.
  intros (_ & Hm & Hd). pose proof (days_in_month_bounds (Py.year d) (Py.month d) Hm). lia.
Qed.

(** [strptime] reads the texts that write a day of the calendar. *)
Lemma strptime_written s d : written_date s d -> Py.strptime_Y_m_d s = Some d.
Proof.
  intros (Hday & m_text & d_text & Hm & Hd & ->).
  pose proof (calendar_day_bounds d Hday) as Hbounds.
  destruct Hday as (Hy & Hmonth & Hdd).
  unfold Py.strptime_Y_m_d.
  rewrite match_Y_written by lia. rewrite option_bind_some. cbn beta iota.
  change ("-" +:+ ?x) with (String "-" x).
  rewrite take_char_same, option_bind_some.
  change (String "-" d_text) with ("-" +:+ d_text).
  rewrite (match_after_m_written _ _ _ _ _ Hmonth Hm Hbounds Hd).
  rewrite option_bind_some. cbn beta iota. cbn [Py.is_empty].
  apply make_date_calendar. rewrite date_fields. split; [reflexivity|].
  unfold calendar_day. auto.
Qed.

Lemma bind_some_inv {A B : Type} (m : option A) (f : A -> option B) b :
  m ≫= f = Some b -> exists a, m = Some a /\ f a = Some b.
Proof. destruct m as [a|]; [eauto|discriminate]. Qed.

Lemma match_Y_some s y rest :
  Py.match_Y s = Some (y, rest) -> 0 <= y <= 9999 /\ s = four_digit y +:+ rest.
Proof.
  unfold Py.match_Y. intros Hmatch.
  apply bind_some_inv in Hmatch as ([a s1] & Ha & Hmatch).
  apply bind_some_inv in Hmatch as ([b s2] & Hb & Hmatch).
  apply bind_some_inv in Hmatch as ([c s3] & Hc & Hmatch).
  apply bind_some_inv in Hmatch as ([d s4] & Hd & Hmatch).
  injection Hmatch as <- <-.
  apply take_digit_some in Ha as [Ha ->], Hb as [Hb ->], Hc as [Hc ->], Hd as [Hd ->].
  split; [lia|]. rewrite four_digit_parts by lia. reflexivity.
Qed.

Lemma match_d_some s d :
  Py.match_d s = Some (d, EmptyString) -> 1 <= d /\ In s (day_texts d).
Proof.
  unfold Py.match_d, day_texts.
  destruct (Py.take_digit s) as [[p r]|] eqn:Hp.
  - apply take_digit_some in Hp as [Hp ->].
    destruct (Py.take_digit r) as [[q r']|] eqn:Hq.
    + apply take_digit_some in Hq as [Hq ->].
      destruct (orb _ _) eqn:Hcond.
      * intros [= <- ->].
        rewrite !orb_true_iff, !andb_true_iff, !Z.eqb_eq, !Z.leb_le in Hcond.
        split; [lia|]. left. now rewrite two_digit_parts.
      * destruct (1 <=? p); discriminate.
    + destruct (Z.leb_spec 1 p) as [Hpos|]; [|discriminate]. intros [= <- ->].
      split; [lia|]. right.
      destruct (Z.ltb_spec p 10); [|lia]. left. reflexivity.
  - intros Hblank.
    apply bind_some_inv in Hblank as (r & Hr & Hblank).
    apply bind_some_inv in Hblank as ([b r'] & Hb & Hblank).
    apply take_char_some in Hr as ->. apply take_digit_some in Hb as [Hb ->].
    destruct (Z.leb_spec 1 b) as [Hpos|]; [|discriminate]. injection Hblank as <- ->.
    split; [lia|]. right.
    destruct (Z.ltb_spec b 10); [|lia]. right. left. reflexivity.
Qed.

Lemma match_after_m_one y a r :
  0 <= a <= 9 ->
  (exists b r', r = String (digit_char b) r' /\ 0 <= b <= 9) ->
  Py.match_after_m y (if 1 <=? a then [(a, r)] else []) = None.
Proof.
  intros Ha (b & r' & -> & Hb). destruct (1 <=? a); [|reflexivity].
  cbn [Py.match_after_m]. now rewrite take_char_hyphen_digit.
Qed.

Lemma match_after_m_some y s y' m d :
  Py.match_after_m y (Py.match_m s) = Some (y', m, d, EmptyString) ->
  y' = y
  /\ exists m_text d_text,
       In m_text (month_texts m) /\ In d_text (day_texts d)
       /\ s = m_text +:+ "-" +:+ d_text.
Proof.
  unfold Py.match_m, month_texts.
  destruct (Py.take_digit s) as [[a r]|] eqn:Ha; [|discriminate].
  apply take_digit_some in Ha as [Ha ->].
  destruct (Py.take_digit r) as [[b r']|] eqn:Hb.
  - apply take_digit_some in Hb as [Hb ->].
    destruct (orb _ _) eqn:Hcond.
    + cbn [app Py.match_after_m].
      destruct (Py.take_char "-" r' ≫= _) as [[d' rest]|] eqn:Hday.
      * intros [= <- <- <- ->]. split; [reflexivity|].
        apply bind_some_inv in Hday as (r2 & Hr2 & Hday).
        apply take_char_some in Hr2 as ->. apply match_d_some in Hday as [_ Hday].
        exists (two_digit (10 * a + b)), r2. split; [now left|]. split; [exact Hday|].
        now rewrite two_digit_parts.
      * rewrite match_after_m_one; [discriminate|lia|eauto].
    + cbn [app]. rewrite match_after_m_one; [discriminate|lia|eauto].
  - cbn [app]. destruct (Z.leb_spec 1 a) as [Hpos|]; [|discriminate].
    cbn [Py.match_after_m].
    destruct (Py.take_char "-" r ≫= _) as [[d' rest]|] eqn:Hday; [|discriminate].
    intros [= <- <- <- ->]. split; [reflexivity|].
    apply bind_some_inv in Hday as (r2 & Hr2 & Hday).
    apply take_char_some in Hr2 as ->. apply match_d_some in Hday as [_ Hday].
    exists (one_digit a), r2. split; [|split; [exact Hday|reflexivity]].
    right. destruct (Z.ltb_spec a 10); [|lia]. now left.
Qed.

(** The texts [strptime] reads with the format %Y-%m-%d are those that
    write a day of the calendar. *)
Lemma strptime_reads_written s d : Py.strptime_Y_m_d s = Some d <-> written_date s d.
Proof.
  split; [|apply strptime_written].
  unfold Py.strptime_Y_m_d. intros Hread.
  apply bind_some_inv in Hread as ([y s1] & Hy & Hread).
  apply bind_some_inv in Hread as (s2 & Hs2 & Hread).
  apply bind_some_inv in Hread as ([[[y' m] dd] rest] & Hrest & Hread).
  destruct rest; [|discriminate]. cbn [Py.is_empty] in Hread.
  apply match_Y_some in Hy as [Hy ->]. apply take_char_some in Hs2 as ->.
  apply match_after_m_some in Hrest as (-> & m_text & d_text & Hm & Hd & ->).
  apply make_date_calendar in Hread as [-> Hday].
  split; [exact Hday|]. exists m_text, d_text. cbn [Py.year Py.month Py.day]. auto.
Qed.

Lemma written_date_head s d :
  written_date s d -> exists k rest, 0 <= k <= 9 /\ s = String (digit_char k) rest.
Proof.
  intros ((Hy & _) & m_text & d_text & _ & _ & ->).
  exists (Py.year d / 1000), (String (digit_char (Py.year d / 100 mod 10))
                               (two_digit (Py.year d mod 100) +:+ "-" +:+ m_text +:+ "-" +:+ d_text)).
  split; [Z.div_mod_to_equations; lia|reflexivity].
Qed.

Lemma lower_digit_not_t k : 0 <= k <= 9 -> Ascii.eqb (Py.lower_char (digit_char k)) "t" = false.
Proof.
  intros Hk. rewrite <- (Z2Nat.id k) by lia.
  assert (Hsmall : (Z.to_nat k < 10)%nat) by lia.
  revert Hsmall. generalize (Z.to_nat k). intros i Hsmall.
  do 10 (destruct i as [|i]; [reflexivity|]). lia.
Qed.

Lemma written_date_no_token s d :
  written_date s d ->
  String.eqb (Py.lower s) "today" = false /\ String.eqb (Py.lower s) "tomorrow" = false.
Proof.
  intros Hwritten. destruct (written_date_head s d Hwritten) as (k & rest & Hk & ->).
  cbn [Py.lower String.eqb]. now rewrite (lower_digit_not_t k Hk).
Qed.




(** ** Failures *)

Section Failures.

Variable month_offsets : gmap Z Z.
Variable test_dates : list Py.date.

Lemma scrape_page_load_fails b e :
  login_page b = Raise e -> scrape month_offsets test_dates b = ([], Raised e).
Proof. intros Hload. unfold scrape, login. now rewrite Hload. Qed.

Lemma scrape_username_fails b e :
  login_page b = Ok tt -> username_field b = Raise e ->
  scrape month_offsets test_dates b
  = if is_timeout e
    then ([Print "Error: Username field not found within the expected time."; QuitSession],
          Exited 1)
    else ([], Raised e).
Proof.
  intros Hload Huser. unfold scrape, login, exit_on_timeout. rewrite Hload, Huser.
  now destruct (is_timeout e) eqn:Htimeout; cbn; rewrite Htimeout.
Qed.

Lemma scrape_password_fails b e :
  login_page b = Ok tt -> username_field b = Ok tt -> password_field b = Raise e ->
  scrape month_offsets test_dates b
  = if is_timeout e
    then ([Print "Error: Password field not found within the expected time."; QuitSession],
          Exited 1)
    else ([], Raised e).
Proof.
  intros Hload Huser Hpass. unfold scrape, login, exit_on_timeout.
  rewrite Hload, Huser, Hpass.
  now destruct (is_timeout e) eqn:Htimeout; cbn; rewrite Htimeout.
Qed.

Lemma scrape_roster_page_fails b e :
  login_page b = Ok tt -> username_field b = Ok tt -> password_field b = Ok tt ->
  roster_page b = Raise e ->
  scrape month_offsets test_dates b
  = if is_timeout e
    then ([Print "Error: Login failed or main roster page did not load within the expected time.";
           QuitSession],
          Exited 1)
    else ([], Raised e).
Proof.
  intros Hload Huser Hpass Hpage. unfold scrape, login, exit_on_timeout.
  rewrite Hload, Huser, Hpass, Hpage.
  now destruct (is_timeout e) eqn:Htimeout; cbn; rewrite Htimeout.
Qed.

Lemma process_date_label_fails pg target_date st e :
  label_text pg (calendar_label st) = Raise e ->
  process_date month_offsets pg target_date st = ([], Raised e).
Proof. intros Hlabel. unfold process_date, navigate. now rewrite Hlabel. Qed.

Lemma process_date_navigation_fails pg target_date st text e :
  label_text pg (calendar_label st) = Ok text ->
  Py.strip text <> Py.strftime_B_Y target_date ->
  next_month pg (Py.strftime_B_Y target_date) = Raise e ->
  process_date month_offsets pg target_date st
  = if is_timeout e then ([], Done (Next st)) else ([], Raised e).
Proof.
  intros Hlabel Hmonth Hnext. unfold process_date, navigate.
  apply String.eqb_neq in Hmonth. rewrite Hlabel. run_io.
  rewrite Hmonth, Hnext. cbn. now destruct (is_timeout e).
Qed.

Lemma process_date_cell_fails pg target_date st tr st1 e :
  navigate pg target_date st = (tr, Done (Some st1)) ->
  date_cell pg (cell_index month_offsets (Py.month target_date) (Py.day target_date))
  = Raise e ->
  process_date month_offsets pg target_date st
  = if is_timeout e then (tr, Done (Next st1)) else (tr, Raised e).
Proof.
  intros Hnav Hcell. unfold process_date, read_cell. rewrite Hnav, Hcell. run_io.
  rewrite bind_raised. cbn [try_except].
  destruct (is_timeout e); cbn; now rewrite ?app_nil_r.
Qed.

Lemma process_dates_raises pages round target_date rest st tr e :
  process_date month_offsets (pages round) target_date st = (tr, Raised e) ->
  process_dates month_offsets pages round (target_date :: rest) st = (tr, Raised e).
Proof. intros Hround. cbn [process_dates]. now rewrite Hround. Qed.

End Failures.

(** The exception of the log of a rostered day is caught at line 283:
    the text of the day stays in the message, the error is logged, and the
    loop goes on. *)
Lemma report_log_fails target_date cell_content st shifts hours_worked :
  classify cell_content = Rostered shifts hours_worked ->
  Py.over_digit_cap hours_worked = true ->
  exists entry st',
    report target_date cell_content st = ([LogLine entry], Done (Next st'))
    /\ Log.event_of entry = Log.SHIFT_PROCESSING_ERROR
    /\ not_finalised_found st' = not_finalised_found st.
Proof.
  intros Hclass Hhuge. unfold report. rewrite Hclass.
  rewrite log_message_fails.
  - unfold raise, shift_processing_error. cbn [try_except].
    rewrite log_message_ok by apply day_entry_ok. cbn. eauto.
  - unfold json_dumps_ok. cbn [day_entry Log.shift_start Log.shift_end Log.hours].
    rewrite Hhuge. now rewrite !orb_true_r.
Qed.

Lemma scrape_roster_raises month_offsets test_dates b tr0 label tr e :
  login b = (tr0, Done label) ->
  process_roster month_offsets (page b) test_dates label = (tr, Raised e) ->
  scrape month_offsets test_dates b = (tr0 ++ tr, Raised e).
Proof. intros Hlogin Hroster. unfold scrape. now rewrite Hlogin, bind_done, Hroster. Qed.

Lemma process_roster_raises month_offsets pages test_dates label tr e :
  process_dates month_offsets pages 0 test_dates
    {| combined_message := ""; not_finalised_found := false; calendar_label := label |}
  = (tr, Raised e) ->
  process_roster month_offsets pages test_dates label = (tr, Raised e).
Proof. intros Hdates. unfold process_roster. now rewrite Hdates. Qed.

Section Fatal.

Variable month_offsets : gmap Z Z.
Variable RECIPIENTS : Recipients.
Variable MUM_SEND_DAYS : list string.
Variable max_retries retry_delay : nat.
Variable test_dates : list Py.date.
Variable world : nat -> Browser.

Local Abbreviation loop_from fuel current_retry :=
  (retry_loop month_offsets RECIPIENTS MUM_SEND_DAYS max_retries retry_delay
     fuel test_dates world current_retry).

(** An exception that leaves the browser part of an attempt ends the
    run: the handler of line 501 closes the session, sends the notice,
    writes the log with the counter as it was, and exits with status 1. *)
Lemma retry_loop_unexpected fuel current_retry tr e :
  (current_retry < max_retries)%nat ->
  within_digit_cap max_retries ->
  setup_webdriver (world current_retry) = Ok tt ->
  scrape month_offsets test_dates (world current_retry) = (tr, Raised e) ->
  loop_from (S fuel) current_retry
  = Some (OpenSession :: tr ++ unexpected_error_events RECIPIENTS current_retry e, Exited 1).
Proof.
  intros Hlt Hcap Hsetup Hscrape. rewrite retry_loop_round by exact Hlt.
  rewrite (attempt_unexpected _ _ _ _ _ _ _ _ _ _ Hsetup Hscrape); [reflexivity|].
  apply (within_digit_cap_mono _ max_retries); [lia|exact Hcap].
Qed.

Lemma retry_loop_limit fuel current_retry tr message label :
  (current_retry < max_retries)%nat ->
  (max_retries <= S current_retry)%nat ->
  within_digit_cap max_retries ->
  setup_webdriver (world current_retry) = Ok tt ->
  scrape month_offsets test_dates (world current_retry) = (tr, Done (message, true, label)) ->
  loop_from (S fuel) current_retry
  = Some (OpenSession :: tr ++ retry_limit_events RECIPIENTS max_retries max_retries,
          Exited 1).
Proof.
  intros Hlt Hlast Hcap Hsetup Hscrape. rewrite retry_loop_round by exact Hlt.
  assert (Hcount : S current_retry = max_retries) by lia.
  rewrite (attempt_reaches_limit _ _ _ _ _ _ _ _ _ _ _ Hsetup Hscrape Hlast);
    rewrite Hcount; [reflexivity|exact Hcap].
Qed.

Lemma retry_loop_exits fuel current_retry tr code :
  (current_retry < max_retries)%nat ->
  setup_webdriver (world current_retry) = Ok tt ->
  scrape month_offsets test_dates (world current_retry) = (tr, Exited code) ->
  loop_from (S fuel) current_retry = Some (OpenSession :: tr, Exited code).
Proof.
  intros Hlt Hsetup Hscrape. rewrite retry_loop_round by exact Hlt.
  now rewrite (attempt_exits _ _ _ _ _ _ _ _ _ _ Hsetup Hscrape).
Qed.

(** C3, as the script has it: when the retry limit is reached, and when
    an exception reaches the handler of the attempt, the script sends one
    text message about the failure to the primary and the secondary
    recipient and ends with status 1; when a wait of the login times out
    (user name field, password field or roster page) it closes the
    session and ends with status 1, and sends nothing. *)
Theorem failure_notifications fuel current_retry :
  (current_retry < max_retries)%nat ->
  within_digit_cap max_retries ->
  setup_webdriver (world current_retry) = Ok tt ->
  (forall tr e,
     scrape month_offsets test_dates (world current_retry) = (tr, Raised e) ->
     exists trace,
       loop_from (S fuel) current_retry = Some (trace, Exited 1)
       /\ sms_sent trace = [Sms (error_message e) [self RECIPIENTS; wife RECIPIENTS]])
  /\ (forall tr message label,
        scrape month_offsets test_dates (world current_retry)
        = (tr, Done (message, true, label)) ->
        (max_retries <= S current_retry)%nat ->
        exists trace,
          loop_from (S fuel) current_retry = Some (trace, Exited 1)
          /\ sms_sent trace
             = [Sms (retry_limit_message max_retries) [self RECIPIENTS; wife RECIPIENTS]])
  /\ (forall msg,
        login_page (world current_retry) = Ok tt ->
        username_field (world current_retry) = Raise (TimeoutException msg)
        \/ (username_field (world current_retry) = Ok tt
            /\ password_field (world current_retry) = Raise (TimeoutException msg))
        \/ (username_field (world current_retry) = Ok tt
            /\ password_field (world current_retry) = Ok tt
            /\ roster_page (world current_retry) = Raise (TimeoutException msg)) ->
        exists text,
          loop_from (S fuel) current_retry
          = Some ([OpenSession; Print text; QuitSession], Exited 1)).
Proof.
  intros Hlt Hcap Hsetup. split; [|split].
  - intros tr e Hscrape. eexists. split.
    + apply (retry_loop_unexpected _ _ _ _ Hlt Hcap Hsetup Hscrape).
    + pose proof (scrape_trace_inner _ _ _ _ _ Hscrape) as Hinner.
      change (OpenSession :: tr ++ ?l) with ([OpenSession] ++ tr ++ l).
      now rewrite !sms_sent_app, (quiet_sms_sent _ Hinner).
  - intros tr message label Hscrape Hlast. eexists. split.
    + apply (retry_loop_limit _ _ _ _ _ Hlt Hlast Hcap Hsetup Hscrape).
    + pose proof (scrape_trace_inner _ _ _ _ _ Hscrape) as Hinner.
      change (OpenSession :: tr ++ ?l) with ([OpenSession] ++ tr ++ l).
      now rewrite !sms_sent_app, (quiet_sms_sent _ Hinner).
  - intros msg Hload [Huser|[[Huser Hpass]|(Huser & Hpass & Hpage)]]; eexists;
      apply (retry_loop_exits _ _ _ _ Hlt Hsetup).
    + now rewrite (scrape_username_fails _ _ _ _ Hload Huser).
    + now rewrite (scrape_password_fails _ _ _ _ Hload Huser Hpass).
    + now rewrite (scrape_roster_page_fails _ _ _ _ Hload Huser Hpass Hpage).
Qed.

(** C4, as the script has it: an exception that leaves the browser part
    of an attempt is fatal; the session is closed, the failure notice is
    sent, the log carries the retry counter as it was, the process exits
    with status 1, and no date or attempt follows.  Such are the
    exceptions of the page load, of reading the month label, and those
    other than a time-out of the login waits, of the navigation and of the
    cell lookup.  The exception raised when a rostered day is logged does
    not leave [process_roster]: it is logged as a processing error and the
    loop over the dates goes on. *)
Theorem unexpected_exception_is_fatal fuel current_retry :
  (current_retry < max_retries)%nat ->
  within_digit_cap max_retries ->
  setup_webdriver (world current_retry) = Ok tt ->
  (forall tr e,
     scrape month_offsets test_dates (world current_retry) = (tr, Raised e) ->
     loop_from (S fuel) current_retry
     = Some (OpenSession :: tr ++ unexpected_error_events RECIPIENTS current_retry e,
             Exited 1))
  /\ (forall b e, login_page b = Raise e ->
                  scrape month_offsets test_dates b = ([], Raised e))
  /\ (forall b e,
        login_page b = Ok tt -> is_timeout e = false ->
        username_field b = Raise e
        \/ (username_field b = Ok tt /\ password_field b = Raise e)
        \/ (username_field b = Ok tt /\ password_field b = Ok tt
            /\ roster_page b = Raise e) ->
        scrape month_offsets test_dates b = ([], Raised e))
  /\ (forall pg target_date st e,
        label_text pg (calendar_label st) = Raise e ->
        process_date month_offsets pg target_date st = ([], Raised e))
  /\ (forall pg target_date st text e,
        label_text pg (calendar_label st) = Ok text ->
        Py.strip text <> Py.strftime_B_Y target_date ->
        next_month pg (Py.strftime_B_Y target_date) = Raise e ->
        is_timeout e = false ->
        process_date month_offsets pg target_date st = ([], Raised e))
  /\ (forall pg target_date st tr st1 e,
        navigate pg target_date st = (tr, Done (Some st1)) ->
        date_cell pg (cell_index month_offsets (Py.month target_date) (Py.day target_date))
        = Raise e ->
        is_timeout e = false ->
        process_date month_offsets pg target_date st = (tr, Raised e))
  /\ (forall pages round target_date rest st tr e,
        process_date month_offsets (pages round) target_date st = (tr, Raised e) ->
        process_dates month_offsets pages round (target_date :: rest) st = (tr, Raised e))
  /\ (forall b tr0 label tr e,
        login b = (tr0, Done label) ->
        process_dates month_offsets (page b) 0 test_dates
          {| combined_message := ""; not_finalised_found := false; calendar_label := label |}
        = (tr, Raised e) ->
        scrape month_offsets test_dates b = (tr0 ++ tr, Raised e))
  /\ (forall target_date cell_content st shifts hours_worked,
        classify cell_content = Rostered shifts hours_worked ->
        Py.over_digit_cap hours_worked = true ->
        exists entry st',
          report target_date cell_content st = ([LogLine entry], Done (Next st'))
          /\ Log.event_of entry = Log.SHIFT_PROCESSING_ERROR
          /\ not_finalised_found st' = not_finalised_found st).
Proof.
  intros Hlt Hcap Hsetup. repeat apply conj.
  - intros tr e. apply (retry_loop_unexpected _ _ _ _ Hlt Hcap Hsetup).
  - intros b e. apply scrape_page_load_fails.
  - intros b e Hload Hother [Huser|[[Huser Hpass]|(Huser & Hpass & Hpage)]].
    + now rewrite (scrape_username_fails _ _ _ _ Hload Huser), Hother.
    + now rewrite (scrape_password_fails _ _ _ _ Hload Huser Hpass), Hother.
    + now rewrite (scrape_roster_page_fails _ _ _ _ Hload Huser Hpass Hpage), Hother.
  - intros pg target_date st e. apply process_date_label_fails.
  - intros pg target_date st text e Hlabel Hmonth Hnext Hother.
    now rewrite (process_date_navigation_fails _ _ _ _ _ _ Hlabel Hmonth Hnext), Hother.
  - intros pg target_date st tr st1 e Hnav Hcell Hother.
    now rewrite (process_date_cell_fails _ _ _ _ _ _ _ Hnav Hcell), Hother.
  - intros pages round target_date rest st tr e. apply process_dates_raises.
  - intros b tr0 label tr e Hlogin Hdates.
    apply (scrape_roster_raises _ _ _ _ _ _ _ Hlogin).
    now apply process_roster_raises.
  - intros target_date cell_content st shifts hours_worked.
    apply report_log_fails.
Qed.

End Fatal.

Lemma failure_notifications_witness :
  (exists trace,
     retry_loop sample_offsets Config.RECIPIENTS Config.MUM_SEND_DAYS 120 60 1
       [Py.Date 2024 1 5] (fun _ => browser_crashing) 0
     = Some (trace, Exited 1)
     /\ sms_sent trace
        = [Sms "Script encountered an error: Message: unknown error"
             ["+1234567890"; "+0987654321"]%string])
  /\ (exists trace,
        retry_loop sample_offsets Config.RECIPIENTS Config.MUM_SEND_DAYS 120 60 1
          [Py.Date 2024 1 5] world_never_finalised 119
        = Some (trace, Exited 1)
        /\ sms_sent trace
           = [Sms (retry_limit_message 120) ["+1234567890"; "+0987654321"]%string])
  /\ (exists text,
        retry_loop sample_offsets Config.RECIPIENTS Config.MUM_SEND_DAYS 120 60 1
          [Py.Date 2024 1 5] (fun _ => browser_without_username) 0
        = Some ([OpenSession; Print text; QuitSession], Exited 1)).
Proof.
  split; [|split].
  - apply (proj1 (failure_notifications sample_offsets Config.RECIPIENTS
                    Config.MUM_SEND_DAYS 120 60 [Py.Date 2024 1 5]
                    (fun _ => browser_crashing) 0 0
                    ltac:(lia) ltac:(vm_compute; reflexivity) eq_refl) []
             (OtherException "WebDriverException" "Message: unknown error")).
    reflexivity.
  - apply (proj1 (proj2 (failure_notifications sample_offsets Config.RECIPIENTS
                           Config.MUM_SEND_DAYS 120 60 [Py.Date 2024 1 5]
                           world_never_finalised 0 119
                           ltac:(lia) ltac:(vm_compute; reflexivity) eq_refl))
             _ _ _ eq_refl).
    lia.
  - apply (proj2 (proj2 (failure_notifications sample_offsets Config.RECIPIENTS
                           Config.MUM_SEND_DAYS 120 60 [Py.Date 2024 1 5]
                           (fun _ => browser_without_username) 0 0
                           ltac:(lia) ltac:(vm_compute; reflexivity) eq_refl))
             "Message: "%string eq_refl).
    left. reflexivity.
Defined.

(** C3 as the specification states it fails on the login: when the user
    name field does not show in time, the script closes the session and
    exits with status 1, and no text message is sent. *)
Lemma login_timeout_sends_nothing :
  main sample_offsets Config.RECIPIENTS Config.MUM_SEND_DAYS 120 60
    "today" (Py.Date 2024 1 4) (fun _ => browser_without_username)
  = Some ([OpenSession;
           Print "Error: Username field not found within the expected time.";
           QuitSession],
          Exited 1)
  /\ sms_sent [OpenSession;
               Print "Error: Username field not found within the expected time.";
               QuitSession]
     = [].
Proof. split; reflexivity. Qed.

Lemma unexpected_exception_is_fatal_witness :
  retry_loop sample_offsets Config.RECIPIENTS Config.MUM_SEND_DAYS 120 60 1
    [Py.Date 2024 1 5] (fun _ => browser_crashing) 0
  = Some ([OpenSession;
           Print "An unexpected error occurred: Message: unknown error";
           QuitSession;
           Sms "Script encountered an error: Message: unknown error"
             ["+1234567890"; "+0987654321"]%string;
           LogLine (run_entry Log.UNEXPECTED_ERROR
                      "Script encountered an error: Message: unknown error" 0)],
          Exited 1).
Proof.
  apply (proj1 (unexpected_exception_is_fatal sample_offsets Config.RECIPIENTS
                  Config.MUM_SEND_DAYS 120 60 [Py.Date 2024 1 5]
                  (fun _ => browser_crashing) 0 0
                  ltac:(lia) ltac:(vm_compute; reflexivity) eq_refl) []
           (OtherException "WebDriverException" "Message: unknown error")).
  reflexivity.
Defined.

(** ** A cell whose hours are too long for the log *)

Lemma scan_digits_nines k : forall acc n,
  Py.scan_digits false acc n (nines k)
  = Some (acc * 10 ^ Z.of_nat k + (10 ^ Z.of_nat k - 1), (n + k)%nat, EmptyString).
Proof.
  induction k as [|k IH]; intros acc n.
  - cbn [nines Py.scan_digits Z.of_nat]. rewrite Nat.add_0_r. do 3 f_equal. lia.
  - cbn [nines Py.scan_digits].
    change (Py.isdigit "9") with true. change (Py.digit_value "9") with 9. cbn iota.
    rewrite IH, Nat2Z.inj_succ, Z.pow_succ_r by lia.
    generalize (10 ^ Z.of_nat k). intros p.
    replace (S n + k)%nat with (n + S k)%nat by lia.
    do 3 f_equal. ring.
Qed.

Lemma int_nines k :
  (0 < k <= Py.int_max_str_digits)%nat -> Py.int (nines k) = Some (10 ^ Z.of_nat k - 1).
Proof.
  intros [Hpos Hcap]. destruct k as [|k]; [lia|].
  unfold Py.int. cbn [nines Py.lstrip_by].
  change (Py.int_space "9") with false. cbn iota.
  change (Py.startswith "_" (String "9" (nines k))) with false. cbn iota.
  change (String "9" (nines k)) with (nines (S k)).
  rewrite scan_digits_nines. cbn [Nat.add Nat.eqb Py.lstrip_by Py.is_empty negb].
  apply Nat.ltb_ge in Hcap. rewrite Hcap. f_equal. lia.
Qed.

Lemma huge_hours_parse : Py.int huge_hours_text = Some huge_hours.
Proof. apply int_nines. unfold Py.int_max_str_digits. lia. Qed.

#[local] Opaque Py.int nines huge_hours.

Lemma huge_rest_stripped : Py.strip huge_rest = huge_rest.
Proof. vm_compute. reflexivity. Qed.

Lemma huge_rest_split : Py.split "(" huge_rest = ["0600-1400 "%string; huge_hours_text +:+ ")"].
Proof. vm_compute. reflexivity. Qed.

Lemma huge_hours_text_found : Py.strip (remove_char ")" (huge_hours_text +:+ ")")) = huge_hours_text.
Proof. vm_compute. reflexivity. Qed.

Lemma huge_shift_line_parse : parse_line huge_shift_line = Some huge_shift.
Proof.
  unfold parse_line, huge_shift_line.
  rewrite huge_rest_stripped, huge_rest_split.
  change (Py.split "-" "0600-1400 ") with ["0600"%string; "1400 "%string]. cbn iota.
  change (int_without_leading_zeros "0600") with (Some 600).
  change (int_without_leading_zeros "1400 ") with (Some 1400).
  rewrite huge_hours_text_found, huge_hours_parse. reflexivity.
Qed.

Lemma huge_shift_line_stripped : Py.strip huge_shift_line = huge_shift_line.
Proof. vm_compute. reflexivity. Qed.

Lemma huge_cell_lines : cell_lines huge_cell = [huge_shift_line; huge_shift_line].
Proof. vm_compute. reflexivity. Qed.

Lemma huge_cell_not_blank :
  Py.is_empty huge_cell || String.eqb huge_cell "&nbsp;" = false.
Proof. vm_compute. reflexivity. Qed.

Lemma huge_cell_not_pending : Py.contains "not finalised" (Py.lower huge_cell) = false.
Proof. vm_compute. reflexivity. Qed.

(** Both lines of the cell parse, and their hours add up. *)
Lemma huge_cell_is_rostered :
  classify huge_cell = Rostered [huge_shift; huge_shift] (0 + huge_hours + huge_hours).
Proof.
  unfold classify. rewrite huge_cell_not_blank, huge_cell_not_pending.
  unfold parse_shifts. rewrite huge_cell_lines. cbn [fold_left].
  assert (Hline : parse_line (Py.strip huge_shift_line) = Some huge_shift)
    by (rewrite huge_shift_line_stripped; apply huge_shift_line_parse).
  rewrite (parse_step_kept [] 0 _ _ Hline).
  rewrite (parse_step_kept ([] ++ [huge_shift]) (0 + hours huge_shift) _ _ Hline).
  reflexivity.
Qed.

(** The log of the day raises, the handler of line 283 logs the error,
    and the round goes on to the next date with the text of the day in the
    message. *)
Lemma report_huge_cell target_date st :
  report target_date huge_cell st
  = ([LogLine (day_entry Log.ERROR Log.SHIFT_PROCESSING_ERROR
                 ("Error processing shift for " +:+ Py.isoformat target_date +:+ ": "
                  +:+ digit_cap_message)
                 target_date 0 0 0)],
     Done (Next (add_message ("Hours for " +:+ date_label target_date +:+ " are: "
                              +:+ Py.strip huge_cell +:+ " (c) Bsecurity") st))).
Proof.
  unfold report. rewrite huge_cell_is_rostered.
  rewrite log_message_fails.
  - unfold raise, shift_processing_error. cbn [try_except str_exn].
    rewrite log_message_ok by apply day_entry_ok. reflexivity.
  - unfold json_dumps_ok. cbn [day_entry Log.shift_start Log.shift_end Log.hours].
    rewrite huge_total_over_cap. now rewrite !orb_true_r.
Qed.

Lemma process_date_reports month_offsets pg target_date st tr1 st1 tr2 cell_content :
  navigate pg target_date st = (tr1, Done (Some st1)) ->
  read_cell month_offsets pg target_date = (tr2, Done (Some cell_content)) ->
  process_date month_offsets pg target_date st
  = (tr1 ++ tr2 ++ fst (report target_date cell_content st1),
     snd (report target_date cell_content st1)).
Proof.
  intros Hnav Hcell. unfold process_date. rewrite Hnav, bind_done, Hcell, bind_done.
  reflexivity.
Qed.

Lemma report_rostered target_date cell_content st shifts hours_worked :
  classify cell_content = Rostered shifts hours_worked ->
  json_dumps_ok
    (day_entry Log.INFO Log.SMS_SENT
       ("Hours for " +:+ date_label target_date +:+ " are: " +:+ Py.strip cell_content
        +:+ " (c) Bsecurity")
       target_date
       match shifts with s :: _ => shift_start s | [] => 0 end
       match List.last (map Some shifts) None with Some s => shift_end s | None => 0 end
       hours_worked) = true ->
  report target_date cell_content st
  = ([LogLine
        (day_entry Log.INFO Log.SMS_SENT
           ("Hours for " +:+ date_label target_date +:+ " are: " +:+ Py.strip cell_content
            +:+ " (c) Bsecurity")
           target_date
           match shifts with s :: _ => shift_start s | [] => 0 end
           match List.last (map Some shifts) None with Some s => shift_end s | None => 0 end
           hours_worked)],
     Done (Next (add_message ("Hours for " +:+ date_label target_date +:+ " are: "
                              +:+ Py.strip cell_content +:+ " (c) Bsecurity") st))).
Proof.
  intros Hclass Hjson. unfold report. rewrite Hclass, (log_message_ok _ Hjson).
  reflexivity.
Qed.

(** C4 as the specification states it fails inside the rostered branch.
    The cell of Saturday holds two shifts whose hours have 4300 digits
    each; both parse, their sum has 4301 digits, and the log of the day
    raises [ValueError].  The exception is caught at line 283: the error
    is logged, Sunday is processed after it, the roster is sent, no
    failure notice is, and the script ends normally after one attempt. *)
Lemma rostered_exception_is_swallowed :
  classify huge_cell = Rostered [huge_shift; huge_shift] (0 + huge_hours + huge_hours)
  /\ Py.over_digit_cap (0 + huge_hours + huge_hours) = true
  /\ process_roster sample_offsets (page (world_huge_hours 0))
       [Py.Date 2024 1 6; Py.Date 2024 1 7] 0%nat
     = ([LogLine (day_entry Log.ERROR Log.SHIFT_PROCESSING_ERROR
                    ("Error processing shift for 2024-01-06: " +:+ digit_cap_message)
                    (Py.Date 2024 1 6) 0 0 0);
         LogLine (day_entry Log.INFO Log.SMS_SENT
                    "Hours for (Sunday) 7/1/2024 are: D0600-1400 (8) (c) Bsecurity"
                    (Py.Date 2024 1 7) 600 1400 8)],
        Done ("Hours for (Saturday) 6/1/2024 are: " +:+ huge_cell +:+ " (c) Bsecurity"
              +:+ String "010" "Hours for (Sunday) 7/1/2024 are: D0600-1400 (8) (c) Bsecurity"
              +:+ String "010" EmptyString,
              false, 0%nat))
  /\ main sample_offsets Config.RECIPIENTS Config.MUM_SEND_DAYS 120 60
       "2024-01-05" (Py.Date 2024 1 5) world_huge_hours
     = Some ([OpenSession;
              LogLine (day_entry Log.ERROR Log.SHIFT_PROCESSING_ERROR
                         ("Error processing shift for 2024-01-06: " +:+ digit_cap_message)
                         (Py.Date 2024 1 6) 0 0 0);
              LogLine (day_entry Log.INFO Log.SMS_SENT
                         "Hours for (Sunday) 7/1/2024 are: D0600-1400 (8) (c) Bsecurity"
                         (Py.Date 2024 1 7) 600 1400 8);
              QuitSession;
              Sms ("Hours for (Saturday) 6/1/2024 are: " +:+ huge_cell +:+ " (c) Bsecurity"
                   +:+ String "010"
                         "Hours for (Sunday) 7/1/2024 are: D0600-1400 (8) (c) Bsecurity")
                ["+1234567890"; "+0987654321"]%string;
              Print "Script completed successfully."],
             Done 0%nat).
Proof.
  assert (Hroster :
    process_roster sample_offsets (page (world_huge_hours 0))
      [Py.Date 2024 1 6; Py.Date 2024 1 7] 0%nat
    = ([LogLine (day_entry Log.ERROR Log.SHIFT_PROCESSING_ERROR
                   ("Error processing shift for 2024-01-06: " +:+ digit_cap_message)
                   (Py.Date 2024 1 6) 0 0 0);
        LogLine (day_entry Log.INFO Log.SMS_SENT
                   "Hours for (Sunday) 7/1/2024 are: D0600-1400 (8) (c) Bsecurity"
                   (Py.Date 2024 1 7) 600 1400 8)],
       Done ("Hours for (Saturday) 6/1/2024 are: " +:+ huge_cell +:+ " (c) Bsecurity"
             +:+ String "010" "Hours for (Sunday) 7/1/2024 are: D0600-1400 (8) (c) Bsecurity"
             +:+ String "010" EmptyString,
             false, 0%nat))).
  { pose (st0 := {| combined_message := ""; not_finalised_found := false;
                     calendar_label := 0%nat |}).
    pose (st1 := add_message ("Hours for " +:+ date_label (Py.Date 2024 1 6) +:+ " are: "
                              +:+ Py.strip huge_cell +:+ " (c) Bsecurity") st0).
    assert (Hnav0 : navigate (page (world_huge_hours 0) 0%nat) (Py.Date 2024 1 6) st0
                    = ([], Done (Some st0))) by reflexivity.
    assert (Hcell0 : read_cell sample_offsets (page (world_huge_hours 0) 0%nat)
                       (Py.Date 2024 1 6)
                     = ([], Done (Some huge_cell))) by (vm_compute; reflexivity).
    assert (Hnav1 : navigate (page (world_huge_hours 0) 1%nat) (Py.Date 2024 1 7) st1
                    = ([], Done (Some st1))) by reflexivity.
    assert (Hcell1 : read_cell sample_offsets (page (world_huge_hours 0) 1%nat)
                       (Py.Date 2024 1 7)
                     = ([], Done (Some "D0600-1400 (8)"%string))) by reflexivity.
    unfold process_roster. fold st0. cbn [process_dates].
    rewrite (process_date_reports sample_offsets _ _ st0 [] st0 [] huge_cell Hnav0 Hcell0).
    rewrite report_huge_cell. cbn [fst snd app]. rewrite bind_done. fold st1.
    rewrite (process_date_reports sample_offsets _ _ st1 [] st1 [] _ Hnav1 Hcell1).
    rewrite (report_rostered (Py.Date 2024 1 7) "D0600-1400 (8)" st1
               [{| shift_type := "D"; shift_start := 600; shift_end := 1400; hours := 8 |}] 8);
      [| reflexivity | vm_compute; reflexivity].
    vm_compute. reflexivity. }
  split; [apply huge_cell_is_rostered|]. split; [apply huge_total_over_cap|].
  split; [exact Hroster|].
  rewrite (main_planned _ _ _ _ _ _ _ [Py.Date 2024 1 6; Py.Date 2024 1 7]);
    [| exists (Py.Date 2024 1 5); split; reflexivity].
  rewrite retry_loop_round by lia.
  rewrite (attempt_succeeds sample_offsets Config.RECIPIENTS Config.MUM_SEND_DAYS 120 60
             [Py.Date 2024 1 6; Py.Date 2024 1 7] (world_huge_hours 0) 0
             [LogLine (day_entry Log.ERROR Log.SHIFT_PROCESSING_ERROR
                         ("Error processing shift for 2024-01-06: " +:+ digit_cap_message)
                         (Py.Date 2024 1 6) 0 0 0);
              LogLine (day_entry Log.INFO Log.SMS_SENT
                         "Hours for (Sunday) 7/1/2024 are: D0600-1400 (8) (c) Bsecurity"
                         (Py.Date 2024 1 7) 600 1400 8);
              QuitSession]
             ("Hours for (Saturday) 6/1/2024 are: " +:+ huge_cell +:+ " (c) Bsecurity"
              +:+ String "010" "Hours for (Sunday) 7/1/2024 are: D0600-1400 (8) (c) Bsecurity"
              +:+ String "010" EmptyString)
             0%nat eq_refl).
  - vm_compute. reflexivity.
  - unfold scrape. change (login (world_huge_hours 0)) with (([], Done 0%nat) : io WebElement).
    rewrite bind_done. cbn [fst snd app]. rewrite Hroster. reflexivity.
Qed.

(** * Further properties of the script *)

(** ** The markup of a line break *)

Lemma replace_from_cons old new c s :
  Py.replace_from old new 0 (String c s)
  = if Py.startswith old (String c s)
    then new +:+ Py.replace_from old new (Nat.pred (String.length old)) s
    else String c (Py.replace_from old new 0 s).
Proof. reflexivity. Qed.

Lemma replace_br_head rest :
  Py.replace_from "<br/>" (String "010" EmptyString) 0 ("<br/>" +:+ rest)
  = String "010" (Py.replace_from "<br/>" (String "010" EmptyString) 0 rest).
Proof. destruct rest; reflexivity. Qed.

(** An occurrence of the markup that starts in the text before a break
    lies in that text: what follows starts with the markup or with a line
    break, and neither completes an occurrence. *)
Lemma startswith_br_inside c a b :
  Py.startswith "<br/>" (String c (a +:+ "<br/>" +:+ b))
  = Py.startswith "<br/>" (String c (a +:+ String "010" b))
  /\ (Py.startswith "<br/>" (String c (a +:+ String "010" b)) = true
      -> (4 <= String.length a)%nat).
Proof.
  destruct a as [|c1 [|c2 [|c3 [|c4 a]]]];
    repeat rewrite append_cons;
    change (EmptyString +:+ ?x) with x;
    repeat rewrite append_cons;
    cbn [Py.startswith String.length];
    repeat match goal with
           | |- context [Ascii.eqb ?x ?y] =>
               first [is_var y; destruct (Ascii.eqb x y)
                     | let v := eval vm_compute in (Ascii.eqb x y) in
                       change (Ascii.eqb x y) with v]
           end;
    cbn [andb]; (split; [reflexivity|intros; (discriminate || lia)]).
Qed.

Lemma replace_br_from a b : forall skip,
  (skip <= String.length a)%nat ->
  Py.replace_from "<br/>" (String "010" EmptyString) skip (a +:+ "<br/>" +:+ b)
  = Py.replace_from "<br/>" (String "010" EmptyString) skip (a +:+ String "010" b).
Proof.
  induction a as [|c a IH]; intros skip Hskip.
  - cbn in Hskip. replace skip with 0%nat by lia.
    change (EmptyString +:+ ?x) with x.
    now rewrite replace_br_head.
  - rewrite (append_cons c a ("<br/>" +:+ b)), (append_cons c a (String "010" b)).
    destruct skip as [|skip].
    + rewrite !replace_from_cons.
      destruct (startswith_br_inside c a b) as [-> Hlen].
      destruct (Py.startswith _ _).
      * now rewrite IH by (cbn; auto).
      * now rewrite IH by lia.
    + cbn [Py.replace_from]. apply IH. cbn in Hskip. lia.
Qed.

Lemma cell_lines_br a b :
  cell_lines (a +:+ "<br/>" +:+ b) = cell_lines (a +:+ String "010" b).
Proof.
  unfold cell_lines, Py.replace. now rewrite (replace_br_from a b 0) by lia.
Qed.

(** ** Numbers of a shift line *)

#[local] Transparent Py.int.

Lemma scan_digits_nonneg s : forall prev acc n v n' rest,
  Py.scan_digits prev acc n s = Some (v, n', rest) -> 0 <= acc -> 0 <= v.
Proof.
  induction s as [|c s IH]; intros prev acc n v n' rest; cbn [Py.scan_digits].
  - destruct prev; [discriminate|]. now intros [= <- _ _].
  - destruct (Py.isdigit c) eqn:Hc.
    + intros Hscan Hacc. apply (IH _ _ _ _ _ _ Hscan).
      pose proof (isdigit_value c Hc). lia.
    + destruct (Ascii.eqb c "_").
      * destruct prev; [discriminate|]. intros Hscan Hacc. exact (IH _ _ _ _ _ _ Hscan Hacc).
      * destruct prev; [discriminate|]. now intros [= <- _ _].
Qed.

Lemma int_sign body :
  match body with
  | String "+" r => (1, r)
  | String "-" r => (-1, r)
  | _ => (1, body)
  end
  = match body with
    | String c r =>
        if Ascii.eqb c "+" then (1, r)
        else if Ascii.eqb c "-" then (-1, r) else (1, body)
    | EmptyString => (1, body)
    end.
Proof.
  destruct body as [|c r]; [reflexivity|].
  destruct c as [[] [] [] [] [] [] [] []]; reflexivity.
Qed.

Lemma lstrip_no_char c p s : no_char c s = true -> no_char c (Py.lstrip_by p s) = true.
Proof.
  unfold no_char. induction s as [|d s IH]; [reflexivity|].
  cbn [Py.lstrip_by]. destruct (p d); [|auto].
  cbn [all_chars]. intros [_ Hs]%andb_prop. auto.
Qed.

(** A numeral without a minus sign is not negative. *)
Lemma int_nonneg s v : no_char "-" s = true -> Py.int s = Some v -> 0 <= v.
Proof.
  intros Hs. unfold Py.int. rewrite int_sign.
  pose proof (lstrip_no_char "-" Py.int_space s Hs) as Hbody.
  destruct (Py.lstrip_by Py.int_space s) as [|c r].
  - cbn. discriminate.
  - unfold no_char in Hbody. cbn [all_chars] in Hbody.
    apply andb_prop in Hbody as [Hc _]. apply negb_true_iff in Hc.
    rewrite Ascii.eqb_sym in Hc. rewrite Hc.
    assert (Hgen : forall numeral,
               (if Py.startswith "_" numeral then None
                else match Py.scan_digits false 0 0 numeral with
                     | None => None
                     | Some (v, n, rest) =>
                         if (n =? 0)%nat then None
                         else if negb (Py.is_empty (Py.lstrip_by Py.int_space rest)) then None
                         else if (Py.int_max_str_digits <? n)%nat then None
                         else Some (1 * v)
                     end) = Some v -> 0 <= v).
    { intros numeral. destruct (Py.startswith "_" numeral); [discriminate|].
      destruct (Py.scan_digits false 0 0 numeral) as [[[v' n] rest]|] eqn:Hscan;
        [|discriminate].
      destruct (n =? 0)%nat; [discriminate|].
      destruct (negb _); [discriminate|].
      destruct (_ <? _)%nat; [discriminate|].
      intros [= <-]. apply scan_digits_nonneg in Hscan; lia. }
    destruct (Ascii.eqb c "+"); apply Hgen.
Qed.

Lemma split_no_sep sep s : Forall (fun piece => no_char sep piece = true) (Py.split sep s).
Proof.
  induction s as [|c s IH]; cbn [Py.split].
  - repeat constructor.
  - destruct (Ascii.eqb c sep) eqn:Hc.
    + constructor; [reflexivity|exact IH].
    + destruct (Py.split sep s) as [|piece pieces].
      * repeat constructor. unfold no_char. cbn. rewrite Ascii.eqb_sym, Hc. reflexivity.
      * inversion IH as [|? ? Hpiece Hpieces]; subst. constructor; [|exact Hpieces].
        unfold no_char in *. cbn [all_chars]. rewrite Ascii.eqb_sym, Hc. exact Hpiece.
Qed.

Lemma int_without_leading_zeros_nonneg text v :
  no_char "-" text = true -> int_without_leading_zeros text = Some v -> 0 <= v.
Proof.
  intros Htext. unfold int_without_leading_zeros.
  pose proof (lstrip_no_char "-" (Ascii.eqb "0") text Htext) as Hstripped.
  unfold Py.lstrip_char.
  destruct (Py.is_empty _); apply int_nonneg; [reflexivity|exact Hstripped].
Qed.

Lemma parse_line_times_nonneg line shift :
  parse_line line = Some shift -> 0 <= shift_start shift /\ 0 <= shift_end shift.
Proof.
  unfold parse_line. destruct line as [|first rest]; [discriminate|].
  destruct (Py.split "(" (Py.strip rest)) as [|times [|hours_str [|]]]; try discriminate.
  pose proof (split_no_sep "-" times) as Hpieces.
  destruct (Py.split "-" times) as [|start_str [|end_str [|]]]; try discriminate.
  inversion Hpieces as [|? ? Hstart Hrest]; subst.
  inversion Hrest as [|? ? Hend _]; subst.
  destruct (int_without_leading_zeros start_str) as [a|] eqn:Ha; [|discriminate].
  destruct (int_without_leading_zeros end_str) as [b|] eqn:Hb; [|discriminate].
  cbn [mbind option_bind]. 
  destruct (Py.int _) as [h|]; [|discriminate].
  intros [= <-]. cbn [shift_start shift_end].
  split.
  - exact (int_without_leading_zeros_nonneg _ _ Hstart Ha).
  - exact (int_without_leading_zeros_nonneg _ _ Hend Hb).
Qed.

(** ** The separators of a shift line *)

Lemma split_length sep s : length (Py.split sep s) = S (count_char sep s).
Proof.
  induction s as [|c s IH]; [reflexivity|].
  cbn [Py.split count_char]. destruct (Ascii.eqb c sep).
  - cbn [length]. now rewrite IH.
  - destruct (Py.split sep s) as [|piece pieces]; [discriminate|].
    cbn [length] in *. exact IH.
Qed.

(** X15: a line gives a record only if, after its first character, it
    has exactly one opening parenthesis and, before it, exactly one
    hyphen: with any other count the unpacking of line 247 or 248 raises
    and the line is skipped. *)
Theorem parsed_line_has_one_of_each first rest shift :
  parse_line (String first rest) = Some shift ->
  count_char "(" (Py.strip rest) = 1%nat
  /\ exists times hours_str,
       Py.split "(" (Py.strip rest) = [times; hours_str]
       /\ count_char "-" times = 1%nat.
Proof.
  unfold parse_line.
  pose proof (split_length "(" (Py.strip rest)) as Hparens.
  destruct (Py.split "(" (Py.strip rest)) as [|times [|hours_str [|]]]; try discriminate.
  pose proof (split_length "-" times) as Hhyphens.
  destruct (Py.split "-" times) as [|start_str [|end_str [|]]]; try discriminate.
  intros _. cbn [length] in *. split; [lia|]. exists times, hours_str. split; [reflexivity|lia].
Qed.

Lemma parsed_line_has_one_of_each_witness :
  count_char "(" (Py.strip "0600-1400 (8)") = 1%nat
  /\ exists times hours_str,
       Py.split "(" (Py.strip "0600-1400 (8)") = [times; hours_str]
       /\ count_char "-" times = 1%nat.
Proof.
  exact (parsed_line_has_one_of_each "D" "0600-1400 (8)"
           {| shift_type := "D"; shift_start := 600; shift_end := 1400; hours := 8 |}
           eq_refl).
Defined.

(** ** Pieces that only write log records *)

Lemma logs_only_ret {A : Type} (a : A) : logs_only (mret a : io A).
Proof. split; [constructor|exact I]. Qed.

Lemma logs_only_lift {A : Type} (r : result A) : logs_only (lift r).
Proof. destruct r; (split; [constructor|exact I]). Qed.

Lemma logs_only_log_message data : logs_only (log_message data).
Proof.
  unfold log_message. destruct (json_dumps_ok data); (split; [|exact I]).
  - repeat constructor.
  - constructor.
Qed.

Lemma logs_only_bind {A B : Type} (m : io A) (k : A -> io B) :
  logs_only m -> (forall a, logs_only (k a)) -> logs_only (m ≫= k).
Proof.
  intros [Hm Hend] Hk. destruct m as [tr [a|e|c]]; [|now split|destruct Hend].
  rewrite bind_done. destruct (Hk a) as [Hka Hkend]. split; [|exact Hkend].
  cbn [fst] in *. apply Forall_app. now split.
Qed.

Lemma logs_only_try_except {A : Type} (m : io A) handler :
  logs_only m ->
  (forall e, match handler e with Some h => logs_only h | None => True end) ->
  logs_only (try_except m handler).
Proof.
  intros [Hm Hend] Hh. destruct m as [tr [a|e|c]]; [now split| |destruct Hend].
  unfold try_except. specialize (Hh e).
  destruct (handler e) as [[tr' o]|]; [|now split].
  destruct Hh as [Htr' Ho]. split; [|exact Ho].
  cbn [fst] in *. apply Forall_app. now split.
Qed.

Section Logs.

Variable month_offsets : gmap Z Z.

Lemma logs_only_navigate pg target_date st : logs_only (navigate pg target_date st).
Proof.
  unfold navigate. apply logs_only_bind; [apply logs_only_lift|]. intros text.
  destruct (negb _); [|apply logs_only_ret].
  apply logs_only_try_except.
  - apply logs_only_bind; [apply logs_only_lift|]. intros lbl. apply logs_only_ret.
  - intros e. destruct (is_timeout e); [apply logs_only_ret|exact I].
Qed.

Lemma logs_only_read_cell pg target_date :
  logs_only (read_cell month_offsets pg target_date).
Proof.
  unfold read_cell. apply logs_only_try_except.
  - apply logs_only_bind; [apply logs_only_lift|]. intros text. apply logs_only_ret.
  - intros e. destruct (is_timeout e); [apply logs_only_ret|exact I].
Qed.

Lemma logs_only_report target_date cell_content st :
  logs_only (report target_date cell_content st).
Proof.
  unfold report. destruct (classify cell_content).
  - apply logs_only_bind; [apply logs_only_log_message|]. intros _. apply logs_only_ret.
  - apply logs_only_bind; [apply logs_only_log_message|]. intros _. apply logs_only_ret.
  - apply logs_only_bind; [|intros _; apply logs_only_ret].
    apply logs_only_try_except; [apply logs_only_log_message|].
    intros e. apply logs_only_log_message.
Qed.

Lemma logs_only_process_date pg target_date st :
  logs_only (process_date month_offsets pg target_date st).
Proof.
  unfold process_date. apply logs_only_bind; [apply logs_only_navigate|].
  intros [st'|]; [|apply logs_only_ret].
  apply logs_only_bind; [apply logs_only_read_cell|].
  intros [cell|]; [apply logs_only_report|apply logs_only_ret].
Qed.

Lemma logs_only_process_dates pages test_dates : forall round st,
  logs_only (process_dates month_offsets pages round test_dates st).
Proof.
  induction test_dates as [|d rest IH]; intros round st; cbn [process_dates].
  - apply logs_only_ret.
  - apply logs_only_bind; [apply logs_only_process_date|].
    intros [st'|st']; [apply IH|apply logs_only_ret].
Qed.

Lemma logs_only_process_roster pages test_dates label :
  logs_only (process_roster month_offsets pages test_dates label).
Proof.
  unfold process_roster. apply logs_only_bind; [apply logs_only_process_dates|].
  intros st. apply logs_only_ret.
Qed.

(** The login ends in one of three ways: the month label is found, an
    exception leaves it, or a time-out closes the session and exits. *)
Lemma login_cases b :
  (exists label, login b = ([], Done label))
  \/ (exists e, login b = ([], Raised e))
  \/ (exists text, login b = ([Print text; QuitSession], Exited 1)
                   /\ inner (Print text) = true).
Proof.
  unfold login, exit_on_timeout.
  destruct (login_page b) as [[]|e]; [|right; left; now exists e].
  destruct (username_field b) as [[]|e].
  2: { cbn. destruct (is_timeout e); [right; right|right; left]; eauto. }
  destruct (password_field b) as [[]|e].
  2: { cbn. destruct (is_timeout e); [right; right|right; left]; eauto. }
  destruct (roster_page b) as [label|e].
  - left. now exists label.
  - cbn. destruct (is_timeout e); [right; right|right; left]; eauto.
Qed.

(** The browser part of an attempt, likewise: log records and then the
    session closed, log records and then an exception, or the exit of the
    login. *)
Lemma scrape_cases test_dates b :
  (exists logs scraped,
      scrape month_offsets test_dates b = (logs ++ [QuitSession], Done scraped)
      /\ Forall (fun ev => is_log ev = true) logs)
  \/ (exists logs e,
        scrape month_offsets test_dates b = (logs, Raised e)
        /\ Forall (fun ev => is_log ev = true) logs)
  \/ (exists text,
        scrape month_offsets test_dates b = ([Print text; QuitSession], Exited 1)
        /\ inner (Print text) = true).
Proof.
  unfold scrape.
  destruct (login_cases b) as [[label ->]|[[e ->]|(text & -> & Htext)]].
  - rewrite bind_done. cbn [fst snd app].
    pose proof (logs_only_process_roster (page b) test_dates label) as [Hlogs Hend].
    destruct (process_roster month_offsets (page b) test_dates label)
      as [logs [scraped|e|c]]; cbn [fst snd] in *.
    + left. exists logs, scraped. split; [|exact Hlogs]. reflexivity.
    + right. left. exists logs, e. now split.
    + destruct Hend.
  - right. left. exists [], e. split; [reflexivity|constructor].
  - right. right. exists text. now split.
Qed.

End Logs.

(** ** Reading the trace of a run *)

Lemma session_after_app tr tr' : forall opened,
  session_after opened (tr ++ tr')
  = match session_after opened tr with
    | Some opened' => session_after opened' tr'
    | None => None
    end.
Proof.
  induction tr as [|ev tr IH]; intros opened; [reflexivity|].
  destruct ev; cbn [app session_after]; try apply IH.
  destruct opened; [reflexivity|apply IH].
Qed.

Lemma logs_session_after logs opened :
  Forall (fun ev => is_log ev = true) logs -> session_after opened logs = Some opened.
Proof.
  induction 1 as [|ev logs Hev _ IH]; [reflexivity|].
  destruct ev; try discriminate. exact IH.
Qed.

Lemma logs_sms_sent logs : Forall (fun ev => is_log ev = true) logs -> sms_sent logs = [].
Proof.
  induction 1 as [|ev logs Hev _ IH]; [reflexivity|].
  destruct ev; try discriminate. exact IH.
Qed.

Lemma logs_sessions_opened logs :
  Forall (fun ev => is_log ev = true) logs -> sessions_opened logs = 0%nat.
Proof.
  induction 1 as [|ev logs Hev _ IH]; [reflexivity|].
  destruct ev; try discriminate. exact IH.
Qed.

Lemma logs_sms_all_to recipients logs :
  Forall (fun ev => is_log ev = true) logs -> sms_all_to recipients logs.
Proof.
  unfold sms_all_to. induction 1 as [|ev logs Hev _ IH]; constructor; [|exact IH].
  now destruct ev.
Qed.

Lemma sms_all_to_app recipients tr tr' :
  sms_all_to recipients tr -> sms_all_to recipients tr' -> sms_all_to recipients (tr ++ tr').
Proof. intros Htr Htr'. apply Forall_app. now split. Qed.

Lemma no_sms_all_to recipients tr : sms_sent tr = [] -> sms_all_to recipients tr.
Proof.
  unfold sms_all_to, sms_sent. induction tr as [|ev tr IH]; [constructor|].
  cbn [List.filter]. destruct ev; cbn [is_sms]; try discriminate;
    intros Hnone; constructor; auto.
Qed.

Lemma slept_app tr tr' : slept (tr ++ tr') = (slept tr + slept tr')%nat.
Proof.
  induction tr as [|ev tr IH]; [reflexivity|].
  cbn [app]. unfold slept in *. cbn [fold_right]. destruct ev; rewrite IH; lia.
Qed.

Lemma logs_slept logs : Forall (fun ev => is_log ev = true) logs -> slept logs = 0%nat.
Proof.
  induction 1 as [|ev logs Hev _ IH]; [reflexivity|].
  destruct ev; try discriminate. exact IH.
Qed.

Lemma closed_session_after tr : forall opened,
  sessions_opened tr = 0%nat -> exists opened', session_after opened tr = Some opened'
  /\ (opened = false -> opened' = false).
Proof.
  unfold sessions_opened.
  induction tr as [|ev tr IH]; intros opened Hclosed; [eauto|].
  destruct ev; cbn [List.filter is_open session_after] in *; try (apply IH; exact Hclosed).
  - discriminate.
  - destruct (IH false Hclosed) as (opened' & Hrun & Hfalse). eauto.
Qed.

(** A session is opened, closed after [body], and neither [body] nor
    [tail] opens another: one session, none left open. *)
Lemma bracket_session_after body tail :
  sessions_opened body = 0%nat -> sessions_opened tail = 0%nat ->
  session_after false (OpenSession :: body ++ QuitSession :: tail) = Some false.
Proof.
  intros Hbody Htail. cbn [session_after]. rewrite session_after_app.
  destruct (closed_session_after body true Hbody) as (opened & -> & _).
  cbn [session_after].
  destruct (closed_session_after tail false Htail) as (opened' & -> & Hfalse).
  now rewrite Hfalse.
Qed.

Section Attempts.

Variable month_offsets : gmap Z Z.
Variable RECIPIENTS : Recipients.
Variable MUM_SEND_DAYS : list string.
Variable max_retries retry_delay : nat.
Variable test_dates : list Py.date.

Local Abbreviation attempt_of b current_retry :=
  (attempt month_offsets RECIPIENTS MUM_SEND_DAYS max_retries retry_delay
     test_dates b current_retry).

(** The handler of line 501 ends in [sys.exit(1)], or in the exception
    of its own log record. *)
Lemma unexpected_error_cases {A : Type} current_retry e :
  @unexpected_error RECIPIENTS A current_retry e
  = (unexpected_error_events RECIPIENTS current_retry e, Exited 1)
  \/ @unexpected_error RECIPIENTS A current_retry e
     = ([Print ("An unexpected error occurred: " +:+ str_exn e); QuitSession;
         Sms (error_message e) [self RECIPIENTS; wife RECIPIENTS]],
        Raised (ValueError digit_cap_message)).
Proof.
  unfold unexpected_error, send_sms.
  match goal with |- context [log_message ?entry] =>
    destruct (json_dumps_ok entry) eqn:Hjson;
    [rewrite (log_message_ok _ Hjson) | rewrite (log_message_fails _ Hjson)]
  end; [left|right]; reflexivity.
Qed.

Lemma retry_limit_reached_cases {A : Type} current_retry :
  @retry_limit_reached RECIPIENTS max_retries A current_retry
  = (retry_limit_events RECIPIENTS max_retries current_retry, Exited 1)
  \/ @retry_limit_reached RECIPIENTS max_retries A current_retry
     = ([Print ("Retry limit (" +:+ Py.str (Z.of_nat max_retries)
                +:+ ") reached. Could not retrieve finalized information.");
         Print ("An unexpected error occurred: "
                +:+ str_exn (ValueError digit_cap_message));
         QuitSession;
         Sms (error_message (ValueError digit_cap_message))
           [self RECIPIENTS; wife RECIPIENTS]],
        Raised (ValueError digit_cap_message)).
Proof.
  unfold retry_limit_reached, send_sms.
  match goal with |- context [log_message ?entry] =>
    destruct (json_dumps_ok entry) eqn:Hjson;
    [rewrite (log_message_ok _ Hjson); left; reflexivity
    |rewrite (log_message_fails _ Hjson); right]
  end.
  unfold try_except, unexpected_error, send_sms.
  change (run_entry Log.UNEXPECTED_ERROR ?text current_retry)
    with (run_entry Log.UNEXPECTED_ERROR text current_retry).
  match goal with |- context [log_message ?entry] =>
    assert (Hjson' : json_dumps_ok entry = false) by exact Hjson;
    rewrite (log_message_fails _ Hjson')
  end.
  reflexivity.
Qed.

(** How an attempt whose session opened can go. *)
Lemma attempt_trace b current_retry :
  (exists e, attempt_of b current_retry = ([], Raised e))
  \/ exists body tail,
       fst (attempt_of b current_retry) = OpenSession :: body ++ QuitSession :: tail
       /\ sessions_opened body = 0%nat /\ sms_sent body = []
       /\ sessions_opened tail = 0%nat /\ (length (sms_sent tail) <= 1)%nat
       /\ slept body = 0%nat
       /\ slept tail = match snd (attempt_of b current_retry) with
                       | Done (Next _) => retry_delay
                       | _ => 0%nat
                       end
       /\ match snd (attempt_of b current_retry) with
          | Done (Next _) => sms_sent tail = []
          | Done (Break _) => True
          | _ => sms_all_to [self RECIPIENTS; wife RECIPIENTS] tail
          end.
Proof.
  destruct (setup_webdriver b) as [[]|e] eqn:Hsetup;
    [right|left; exists e; now apply attempt_setup_fails].
  destruct (scrape_cases month_offsets test_dates b)
    as [(logs & [[message flag] label] & Hscrape & Hlogs)
       |[(logs & e & Hscrape & Hlogs)|(text & Hscrape & Htext)]].
  - exists logs. destruct flag.
    + destruct (Nat.ltb_spec (S current_retry) max_retries) as [Hmore|Hlast].
      * rewrite (attempt_retries _ _ _ _ _ _ _ _ _ _ _ Hsetup Hscrape Hmore).
        exists [Sleep retry_delay]. cbn [fst snd]. rewrite <- app_assoc.
        rewrite ?slept_app, (logs_sessions_opened _ Hlogs), (logs_sms_sent _ Hlogs),
          (logs_slept _ Hlogs).
        repeat split; cbn; lia.
      * unfold attempt. rewrite Hsetup, Hscrape. run_io.
        apply Nat.ltb_ge in Hlast. rewrite Hlast.
        rewrite ?slept_app, (logs_sessions_opened _ Hlogs), (logs_sms_sent _ Hlogs),
          (logs_slept _ Hlogs).
        destruct (@retry_limit_reached_cases (flow nat) (S current_retry)) as [-> | ->];
          cbn [fst snd app]; rewrite <- app_assoc; cbn [app];
          eexists; (split; [reflexivity|]);
          (repeat split; try (cbn; lia)); repeat constructor.
    + rewrite (attempt_succeeds _ _ _ _ _ _ _ _ _ _ _ Hsetup Hscrape).
      exists [send_roster_event RECIPIENTS MUM_SEND_DAYS b message].
      cbn [fst snd]. rewrite <- app_assoc.
      rewrite ?slept_app, (logs_sessions_opened _ Hlogs), (logs_sms_sent _ Hlogs),
          (logs_slept _ Hlogs).
      unfold send_roster_event. destruct (negb _); repeat split; cbn; lia.
  - unfold attempt. rewrite Hsetup, Hscrape. run_io.
    destruct (@unexpected_error_cases (string * bool * WebElement) current_retry e)
      as [-> | ->]; cbn [fst snd app].
    + exists (logs ++ [Print ("An unexpected error occurred: " +:+ str_exn e)]).
      eexists. split; [rewrite <- app_assoc; reflexivity|].
      rewrite sessions_opened_app, sms_sent_app.
      rewrite ?slept_app, (logs_sessions_opened _ Hlogs), (logs_sms_sent _ Hlogs),
          (logs_slept _ Hlogs).
      (repeat split; try (cbn; lia)); repeat constructor.
    + exists (logs ++ [Print ("An unexpected error occurred: " +:+ str_exn e)]).
      eexists. split; [rewrite <- app_assoc; reflexivity|].
      rewrite sessions_opened_app, sms_sent_app.
      rewrite ?slept_app, (logs_sessions_opened _ Hlogs), (logs_sms_sent _ Hlogs),
          (logs_slept _ Hlogs).
      (repeat split; try (cbn; lia)); repeat constructor.
  - rewrite (attempt_exits _ _ _ _ _ _ _ _ _ _ Hsetup Hscrape).
    exists [Print text], []. cbn [fst snd app].
    (repeat split; try (cbn; lia)); repeat constructor.
Qed.

End Attempts.

Lemma bracket_sessions_opened body tail :
  sessions_opened body = 0%nat -> sessions_opened tail = 0%nat ->
  sessions_opened (OpenSession :: body ++ QuitSession :: tail) = 1%nat.
Proof.
  intros Hbody Htail.
  change (OpenSession :: body ++ QuitSession :: tail)
    with ([OpenSession] ++ body ++ [QuitSession] ++ tail).
  rewrite !sessions_opened_app, Hbody, Htail. reflexivity.
Qed.

Lemma bracket_sms_sent body tail :
  sms_sent body = [] ->
  sms_sent (OpenSession :: body ++ QuitSession :: tail) = sms_sent tail.
Proof.
  intros Hbody.
  change (OpenSession :: body ++ QuitSession :: tail)
    with ([OpenSession] ++ body ++ [QuitSession] ++ tail).
  rewrite !sms_sent_app, Hbody. reflexivity.
Qed.

Lemma bracket_sms_all_to recipients body tail :
  sms_sent body = [] -> sms_all_to recipients tail ->
  sms_all_to recipients (OpenSession :: body ++ QuitSession :: tail).
Proof.
  intros Hbody Htail. constructor; [exact I|].
  apply sms_all_to_app; [now apply no_sms_all_to|].
  constructor; [exact I|exact Htail].
Qed.

Section Runs.

Variable month_offsets : gmap Z Z.
Variable RECIPIENTS : Recipients.
Variable MUM_SEND_DAYS : list string.
Variable max_retries retry_delay : nat.
Variable test_dates : list Py.date.
Variable world : nat -> Browser.

Local Abbreviation attempt_at current_retry :=
  (attempt month_offsets RECIPIENTS MUM_SEND_DAYS max_retries retry_delay
     test_dates (world current_retry) current_retry).

Local Abbreviation loop fuel current_retry :=
  (retry_loop month_offsets RECIPIENTS MUM_SEND_DAYS max_retries retry_delay
     fuel test_dates world current_retry).

(** The sessions and the text messages of the loop, from any counter. *)
Lemma retry_loop_trace fuel : forall current_retry tr o,
  loop fuel current_retry = Some (tr, o) ->
  (sessions_opened tr <= max_retries - current_retry)%nat
  /\ (length (sms_sent tr) <= 1)%nat
  /\ session_after false tr = Some false
  /\ match o with
     | Done _ => True
     | _ => sms_all_to [self RECIPIENTS; wife RECIPIENTS] tr
     end.
Proof.
  induction fuel as [|fuel IH]; intros current_retry tr o.
  - cbn [retry_loop]. destruct (current_retry <? max_retries)%nat; [discriminate|].
    intros [= <- <-]. repeat split; cbn; lia.
  - destruct (Nat.ltb_spec current_retry max_retries) as [Hlt|Hge].
    2: { cbn [retry_loop]. apply Nat.ltb_ge in Hge. rewrite Hge.
         intros [= <- <-]. repeat split; cbn; lia. }
    rewrite retry_loop_round by exact Hlt.
    destruct (attempt_trace month_offsets RECIPIENTS MUM_SEND_DAYS max_retries retry_delay
                test_dates (world current_retry) current_retry)
      as [[e ->]|(body & tail & Htrace & Hbody & Hquiet & Htail & Hone & _ & _ & Hend)].
    { intros [= <- <-]. repeat split; try (cbn; lia). constructor. }
    destruct (attempt_at current_retry) as [tr1 [[next|stop]|e|c]] eqn:Hround;
      cbn [fst snd] in Htrace, Hend; subst tr1.
    + apply attempt_next_increments in Hround as ->.
      destruct (loop fuel (S current_retry)) as [[tr' o']|] eqn:Hrest; [|discriminate].
      cbn [mbind option_bind]. intros [= <- <-].
      destruct (IH _ _ _ Hrest) as (Hsessions & Hsms & Hclosed & Hto).
      change (OpenSession :: (body ++ QuitSession :: tail) ++ tr')
        with ((OpenSession :: body ++ QuitSession :: tail) ++ tr').
      rewrite sessions_opened_app, sms_sent_app, session_after_app.
      rewrite (bracket_sessions_opened _ _ Hbody Htail),
        (bracket_sms_sent _ _ Hquiet), (bracket_session_after _ _ Hbody Htail), Hend.
      split; [lia|]. split; [exact Hsms|]. split; [exact Hclosed|].
      destruct o'; [exact I| |]; (apply sms_all_to_app; [|exact Hto]);
        (apply bracket_sms_all_to; [exact Hquiet|apply no_sms_all_to; exact Hend]).
    + intros [= <- <-].
      rewrite (bracket_sessions_opened _ _ Hbody Htail),
        (bracket_sms_sent _ _ Hquiet), (bracket_session_after _ _ Hbody Htail).
      split; [lia|]. auto.
    + intros [= <- <-].
      rewrite (bracket_sessions_opened _ _ Hbody Htail),
        (bracket_sms_sent _ _ Hquiet), (bracket_session_after _ _ Hbody Htail).
      split; [lia|]. split; [exact Hone|]. split; [reflexivity|].
      now apply bracket_sms_all_to.
    + intros [= <- <-].
      rewrite (bracket_sessions_opened _ _ Hbody Htail),
        (bracket_sms_sent _ _ Hquiet), (bracket_session_after _ _ Hbody Htail).
      split; [lia|]. split; [exact Hone|]. split; [reflexivity|].
      now apply bracket_sms_all_to.
Qed.

End Runs.

Lemma determine_base_date_cases date_arg today :
  (exists base_date, determine_base_date date_arg today = ([], Done base_date))
  \/ (exists e, determine_base_date date_arg today = ([], Raised e))
  \/ determine_base_date date_arg today = ([Print invalid_date_message], Exited 1).
Proof.
  unfold determine_base_date.
  destruct (String.eqb _ "today"); [left; eauto|].
  destruct (String.eqb _ "tomorrow").
  - destruct (Py.add_days today 1) as [d|e]; [left|right; left]; cbn; eauto.
  - destruct (Py.strptime_Y_m_d date_arg) as [d|]; [left; eauto|right; right; reflexivity].
Qed.

(** The trace of a whole run. *)
Lemma main_trace month_offsets RECIPIENTS MUM_SEND_DAYS max_retries retry_delay
    date_arg today world :
  exists tr o,
    main month_offsets RECIPIENTS MUM_SEND_DAYS max_retries retry_delay date_arg today world
    = Some (tr, o)
    /\ (sessions_opened tr <= max_retries)%nat
    /\ (length (sms_sent tr) <= 1)%nat
    /\ session_after false tr = Some false
    /\ match o with
       | Done _ => True
       | _ => sms_all_to [self RECIPIENTS; wife RECIPIENTS] tr
       end.
Proof.
  unfold main.
  destruct (determine_base_date_cases date_arg today) as [[base ->]|[[e ->]| ->]].
  - destruct (get_test_dates base) as [dates|e].
    + destruct (retry_loop_total month_offsets RECIPIENTS MUM_SEND_DAYS max_retries
                  retry_delay dates world max_retries 0 ltac:(lia)) as [[tr o] Hloop].
      rewrite Hloop. cbn [mbind option_bind app].
      destruct (retry_loop_trace _ _ _ _ _ _ _ _ _ _ _ Hloop)
        as (Hsessions & Hsms & Hclosed & Hto).
      destruct o as [current_retry|e|c].
      * exists (tr ++ [Print "Script completed successfully."]), (Done current_retry).
        split; [reflexivity|].
        rewrite sessions_opened_app, sms_sent_app, session_after_app, Hclosed.
        cbn. rewrite app_nil_r, Nat.add_0_r. split; [lia|]. auto.
      * eexists _, _. split; [reflexivity|]. split; [lia|]. auto.
      * eexists _, _. split; [reflexivity|]. split; [lia|]. auto.
    + eexists _, _. split; [reflexivity|]. repeat split; try (cbn; lia). constructor.
  - eexists _, _. split; [reflexivity|]. repeat split; try (cbn; lia). constructor.
  - eexists _, _. split; [reflexivity|]. repeat split; try (cbn; lia). repeat constructor.
Qed.

(** ** One record and one line of text for each day reported *)

Lemma navigate_silent pg target_date st : fst (navigate pg target_date st) = [].
Proof.
  unfold navigate. destruct (label_text pg _) as [text|e]; [|reflexivity].
  run_io. destruct (negb _); [|reflexivity].
  destruct (next_month pg _) as [lbl|e]; cbn; [reflexivity|].
  now destruct (is_timeout e).
Qed.

Lemma read_cell_silent month_offsets pg target_date :
  fst (read_cell month_offsets pg target_date) = [].
Proof.
  unfold read_cell. destruct (date_cell pg _) as [text|e]; cbn; [reflexivity|].
  now destruct (is_timeout e).
Qed.

Lemma append_assoc a b c : (a +:+ b) +:+ c = a +:+ b +:+ c.
Proof.
  induction a as [|x a IH]; [reflexivity|].
  rewrite !append_cons. now rewrite IH.
Qed.

Lemma append_nil_r a : a +:+ EmptyString = a.
Proof. induction a as [|x a IH]; [reflexivity|]. rewrite append_cons. now rewrite IH. Qed.

Lemma navigate_message pg target_date st tr st' :
  navigate pg target_date st = (tr, Done (Some st')) ->
  combined_message st' = combined_message st.
Proof.
  unfold navigate. destruct (label_text pg _) as [text|e]; [|discriminate].
  run_io. rewrite app_nil_l. destruct (negb _).
  - destruct (next_month pg _) as [lbl|e]; cbn.
    + intros [= <- <-]. reflexivity.
    + destruct (is_timeout e); discriminate.
  - intros [= <- <-]. reflexivity.
Qed.

Lemma report_day_record target_date cell_content st :
  exists ev line step,
    report target_date cell_content st = ([ev], Done step)
    /\ day_record ev (target_date, line)
    /\ combined_message (state_of step)
       = combined_message st +:+ line +:+ String "010" EmptyString.
Proof.
  unfold report, day_record, day_line. destruct (classify cell_content) as [| |shifts total].
  - rewrite log_message_ok by apply day_entry_ok. cbn.
    eexists _, _, _. split; [reflexivity|]. split; [|reflexivity].
    split; [now left|]. eexists. split; [reflexivity|]. cbn. auto.
  - rewrite log_message_ok by apply day_entry_ok. cbn.
    eexists _, _, _. split; [reflexivity|]. split; [|reflexivity].
    split; [right; now left|]. eexists. split; [reflexivity|]. cbn. auto.
  - match goal with |- context [log_message ?entry] =>
      destruct (json_dumps_ok entry) eqn:Hjson;
      [rewrite (log_message_ok _ Hjson) | rewrite (log_message_fails _ Hjson)]
    end.
    + cbn. eexists _, _, _. split; [reflexivity|]. split; [|reflexivity].
      split; [right; right; eauto|]. eexists. split; [reflexivity|]. cbn. auto.
    + unfold try_except, shift_processing_error.
      rewrite log_message_ok by apply day_entry_ok. cbn.
      eexists _, _, _. split; [reflexivity|]. split; [|reflexivity].
      split; [right; right; eauto|]. eexists. split; [reflexivity|]. cbn. auto.
Qed.

Section Reported.

Variable month_offsets : gmap Z Z.

Lemma process_date_reported pg target_date st tr step :
  process_date month_offsets pg target_date st = (tr, Done step) ->
  (tr = [] /\ combined_message (state_of step) = combined_message st)
  \/ exists ev line,
       tr = [ev] /\ day_record ev (target_date, line)
       /\ combined_message (state_of step)
          = combined_message st +:+ line +:+ String "010" EmptyString.
Proof.
  unfold process_date.
  pose proof (navigate_silent pg target_date st) as Hsilent.
  destruct (navigate pg target_date st) as [tr1 [[st1|]|e|c]] eqn:Hnav;
    cbn [fst] in Hsilent; subst tr1; try discriminate.
  2: { intros [= <- <-]. left. auto. }
  apply navigate_message in Hnav. rewrite bind_done. cbn [app].
  pose proof (read_cell_silent month_offsets pg target_date) as Hcell.
  destruct (read_cell month_offsets pg target_date) as [tr2 [[cell|]|e|c]];
    cbn [fst] in Hcell; subst tr2; try discriminate.
  2: { intros [= <- <-]. left. auto. }
  rewrite bind_done. cbn [app].
  destruct (report_day_record target_date cell st1)
    as (ev & line & step' & -> & Hrecord & Hmessage).
  cbn [fst snd]. intros [= <- <-]. right. exists ev, line.
  split; [reflexivity|]. split; [exact Hrecord|]. now rewrite Hmessage, Hnav.
Qed.

Lemma process_dates_reported pages test_dates : forall round st tr st',
  process_dates month_offsets pages round test_dates st = (tr, Done st') ->
  exists reported,
    sublist (map fst reported) test_dates
    /\ Forall2 day_record tr reported
    /\ combined_message st' = combined_message st +:+ join_lines (map snd reported).
Proof.
  induction test_dates as [|d rest IH]; intros round st tr st'; cbn [process_dates].
  - intros [= <- <-]. exists []. cbn. rewrite append_nil_r.
    split; [constructor|]. split; [constructor|reflexivity].
  - destruct (process_date month_offsets (pages round) d st) as [tr1 [[st1|st1]|e|c]]
      eqn:Hround; try discriminate.
    + apply process_date_reported in Hround. cbn [state_of] in Hround.
      rewrite bind_done.
      destruct (process_dates month_offsets pages (S round) rest st1) as [tr2 o] eqn:Hrest.
      cbn [fst snd]. intros [= <- ->].
      destruct (IH _ _ _ _ Hrest) as (reported & Hsub & Hrecords & Hmsg).
      destruct Hround as [[-> Hsame]|(ev & line & -> & Hrecord & Hline)].
      * exists reported. cbn [app]. split; [now apply sublist_cons|].
        split; [exact Hrecords|]. now rewrite Hmsg, Hsame.
      * exists ((d, line) :: reported). cbn [app map fst snd join_lines].
        split; [now apply sublist_skip|]. split; [now constructor|].
        now rewrite Hmsg, Hline, !append_assoc.
    + apply process_date_reported in Hround. cbn [state_of] in Hround.
      rewrite bind_done. cbn [fst snd mret io_ret]. rewrite app_nil_r.
      intros [= <- <-].
      destruct Hround as [[-> Hsame]|(ev & line & -> & Hrecord & Hline)].
      * exists []. cbn. rewrite append_nil_r.
        split; [apply sublist_nil_l|]. split; [constructor|exact Hsame].
      * exists [(d, line)]. cbn [map fst snd join_lines].
        split; [apply sublist_skip, sublist_nil_l|].
        split; [constructor; [exact Hrecord|constructor]|].
        now rewrite Hline, append_nil_r.
Qed.

(** X5: when [process_roster] returns, the dates it reported are some
    of the dates it was given, in their order and each at most once; it
    wrote one log record for each of them, in that order, carrying the
    date and the weekday; and its message is the lines of these days, each
    followed by a line break, where the line of a day is one of the three
    texts of the script and is the [sms_content] of the day's record,
    unless that record is the one of an error of line 283. *)
Theorem message_has_one_piece_per_record pages test_dates label tr message flag label' :
  process_roster month_offsets pages test_dates label = (tr, Done (message, flag, label')) ->
  exists reported,
    sublist (map fst reported) test_dates
    /\ Forall2 day_record tr reported
    /\ message = join_lines (map snd reported).
Proof.
  unfold process_roster.
  destruct (process_dates month_offsets pages 0 test_dates _) as [tr1 [st'|e|c]] eqn:Hdates;
    try discriminate.
  rewrite bind_done. cbn [fst snd mret io_ret]. rewrite app_nil_r.
  intros [= <- <- _ _].
  destruct (process_dates_reported _ _ _ _ _ _ Hdates) as (reported & Hsub & Hrecords & Hmsg).
  exists reported. cbn in Hmsg. auto.
Qed.

End Reported.

Section Outcomes.

Variable month_offsets : gmap Z Z.
Variable RECIPIENTS : Recipients.
Variable MUM_SEND_DAYS : list string.
Variable max_retries retry_delay : nat.
Variable test_dates : list Py.date.

Local Abbreviation attempt_of b current_retry :=
  (attempt month_offsets RECIPIENTS MUM_SEND_DAYS max_retries retry_delay
     test_dates b current_retry).

(** An attempt that falls through has seen the browser part end: with
    the flag set when the loop goes on, with the flag clear when the loop
    is left. *)
Lemma attempt_done b current_retry tr step :
  attempt_of b current_retry = (tr, Done step) ->
  match step with
  | Next current_retry' =>
      current_retry' = S current_retry
      /\ (S current_retry < max_retries)%nat
      /\ not_finalised_attempt month_offsets test_dates b
  | Break current_retry' =>
      current_retry' = current_retry
      /\ exists message, finalised_attempt month_offsets test_dates b message
  end.
Proof.
  unfold attempt, not_finalised_attempt, finalised_attempt.
  destruct (setup_webdriver b) as [[]|e]; [|discriminate].
  destruct (scrape month_offsets test_dates b) as [tr0 [[[message flag] label]|e|c]]
    eqn:Hscrape.
  - run_io. destruct flag.
    + destruct (Nat.ltb_spec (S current_retry) max_retries) as [Hmore|Hlast].
      * run_io. intros [= _ <-]. split; [reflexivity|]. split; [exact Hmore|].
        split; [reflexivity|]. eauto.
      * destruct (@retry_limit_reached_cases RECIPIENTS max_retries (flow nat)
                    (S current_retry)) as [-> | ->]; discriminate.
    + rewrite send_roster_event_eq. run_io. intros [= _ <-].
      split; [reflexivity|]. exists message. split; [reflexivity|]. eauto.
  - run_io.
    destruct (@unexpected_error_cases RECIPIENTS (string * bool * WebElement)
                current_retry e) as [-> | ->]; discriminate.
  - discriminate.
Qed.

Variable world : nat -> Browser.

Local Abbreviation loop fuel current_retry :=
  (retry_loop month_offsets RECIPIENTS MUM_SEND_DAYS max_retries retry_delay
     fuel test_dates world current_retry).

Lemma retry_loop_done fuel : forall current_retry tr j,
  (current_retry < max_retries)%nat ->
  loop fuel current_retry = Some (tr, Done j) ->
  (current_retry <= j < max_retries)%nat
  /\ (forall k, (current_retry <= k < j)%nat ->
                not_finalised_attempt month_offsets test_dates (world k))
  /\ exists message, finalised_attempt month_offsets test_dates (world j) message.
Proof.
  induction fuel as [|fuel IH]; intros current_retry tr j Hlt.
  - cbn [retry_loop]. apply Nat.ltb_lt in Hlt. now rewrite Hlt.
  - rewrite retry_loop_round by exact Hlt.
    destruct (attempt _ _ _ _ _ _ (world current_retry) current_retry)
      as [tr1 [[next|stop]|e|c]] eqn:Hround; try discriminate.
    + apply attempt_done in Hround as (-> & Hmore & Hpending).
      destruct (loop fuel (S current_retry)) as [[tr' o']|] eqn:Hrest; [|discriminate].
      cbn [mbind option_bind]. intros [= <- ->].
      destruct (IH _ _ _ Hmore Hrest) as (Hj & Hbefore & Hlast).
      split; [lia|]. split; [|exact Hlast].
      intros k Hk. destruct (Nat.eq_dec k current_retry) as [->|Hother];
        [exact Hpending|apply Hbefore; lia].
    + apply attempt_done in Hround as [-> Hfinal]. intros [= <- <-].
      split; [lia|]. split; [intros k Hk; lia|exact Hfinal].
Qed.

End Outcomes.


(** ** Cells *)

Section Cells.

Variable month_offsets : gmap Z Z.

(** X1: a cell whose text is nothing but white space (blanks, tabs, line
    breaks, the no-break space U+00A0) is a day off: the text is stripped
    when it is read, so the round logs one SMS_SENT record with zeros,
    adds the line "Not rostered for ..." to the message, and the loop goes
    on to the next date. *)
Theorem blank_cell_is_not_rostered pg target_date st tr st1 text :
  navigate pg target_date st = (tr, Done (Some st1)) ->
  date_cell pg (cell_index month_offsets (Py.month target_date) (Py.day target_date))
  = Ok text ->
  all_chars Py.isspace text = true ->
  process_date month_offsets pg target_date st
  = (tr ++ [LogLine (day_entry Log.INFO Log.SMS_SENT
                       ("Not rostered for " +:+ date_label target_date +:+ ".")
                       target_date 0 0 0)],
     Done (Next (add_message ("Not rostered for " +:+ date_label target_date +:+ ".") st1))).
Proof.
  intros Hnav Hcell Hblank. unfold process_date, read_cell.
  rewrite Hnav, Hcell. run_io. rewrite (strip_all_space _ Hblank). run_io.
  unfold report. cbn [classify Py.is_empty orb].
  rewrite log_message_ok by apply day_entry_ok. reflexivity.
Qed.

End Cells.

Lemma blank_cell_is_not_rostered_witness :
  process_date sample_offsets (page_showing (String "160" " ")) (Py.Date 2024 1 6)
    {| combined_message := ""; not_finalised_found := false; calendar_label := 0%nat |}
  = ([LogLine (day_entry Log.INFO Log.SMS_SENT "Not rostered for (Saturday) 6/1/2024."
                 (Py.Date 2024 1 6) 0 0 0)],
     Done (Next {| combined_message := "Not rostered for (Saturday) 6/1/2024."
                                       +:+ String "010" EmptyString;
                   not_finalised_found := false; calendar_label := 0%nat |})).
Proof.
  exact (blank_cell_is_not_rostered sample_offsets (page_showing (String "160" " "))
           (Py.Date 2024 1 6)
           {| combined_message := ""; not_finalised_found := false; calendar_label := 0%nat |}
           []
           {| combined_message := ""; not_finalised_found := false; calendar_label := 0%nat |}
           (String "160" " ") eq_refl eq_refl eq_refl).
Defined.


(** X2: the words "not finalised" in any capitalisation, anywhere in a
    cell, make the cell NotFinalized whatever else the cell holds, shift
    lines included: reporting such a cell writes one SHIFT_NOT_FINALISED
    record and leaves the loop over the dates with the flag set. *)
Theorem not_finalised_in_any_case a v b target_date st :
  Py.lower v = "not finalised"%string ->
  classify (a +:+ v +:+ b) = NotFinalized
  /\ exists entry st',
       report target_date (a +:+ v +:+ b) st = ([LogLine entry], Done (Break st'))
       /\ Log.event_of entry = Log.SHIFT_NOT_FINALISED
       /\ not_finalised_found st' = true.
Proof.
  intros Hv. pose proof (any_case_not_finalised a v b Hv) as Hclass.
  split; [exact Hclass|].
  rewrite (report_not_finalised _ _ _ Hclass). eexists _, _. split; [reflexivity|].
  split; reflexivity.
Qed.

Lemma not_finalised_in_any_case_witness :
  classify ("D0600-1400 (8)<br/>" +:+ "NOT Finalised" +:+ " yet") = NotFinalized
  /\ exists entry st',
       report (Py.Date 2024 1 6) ("D0600-1400 (8)<br/>" +:+ "NOT Finalised" +:+ " yet")
         {| combined_message := ""; not_finalised_found := false; calendar_label := 0%nat |}
       = ([LogLine entry], Done (Break st'))
       /\ Log.event_of entry = Log.SHIFT_NOT_FINALISED
       /\ not_finalised_found st' = true.
Proof.
  exact (not_finalised_in_any_case "D0600-1400 (8)<br/>" "NOT Finalised" " yet"
           (Py.Date 2024 1 6)
           {| combined_message := ""; not_finalised_found := false; calendar_label := 0%nat |}
           eq_refl).
Defined.

(** X3: the markup [<br/>] separates the shifts of a cell exactly as a
    line break does, wherever it stands: the lines, the records and the
    hours of the cell are the same with either. *)
Theorem br_markup_is_a_line_break a b :
  cell_lines (a +:+ "<br/>" +:+ b) = cell_lines (a +:+ String "010" b)
  /\ parse_shifts (a +:+ "<br/>" +:+ b) = parse_shifts (a +:+ String "010" b).
Proof.
  pose proof (cell_lines_br a b) as Hlines. split; [exact Hlines|].
  unfold parse_shifts. now rewrite Hlines.
Qed.

Lemma last_of_all {A : Type} (P : A -> Prop) (l : list A) :
  Forall P l ->
  match List.last (map Some l) None with Some x => P x | None => True end.
Proof.
  induction 1 as [|x l Hx Hl IH]; [exact I|].
  destruct l as [|y l]; [exact Hx|exact IH].
Qed.

Lemma records_times_nonneg cell_content :
  Forall (fun shift => 0 <= shift_start shift /\ 0 <= shift_end shift)
    (records_of_cell cell_content).
Proof.
  apply Forall_forall. intros shift Hin. unfold records_of_cell in Hin.
  apply list_elem_of_omap in Hin as (line & _ & Hline).
  exact (parse_line_times_nonneg _ _ Hline).
Qed.

(** X6: the start and the end time of a shift that parsed are never
    negative (the hyphen is the separator of the two times, so none is
    left for a sign), and so no log record that reporting a cell writes
    has a negative [shift_start] or [shift_end]. *)
Theorem logged_times_never_negative target_date cell_content st :
  Forall (fun shift => 0 <= shift_start shift /\ 0 <= shift_end shift)
    (fst (parse_shifts cell_content))
  /\ Forall times_not_negative (fst (report target_date cell_content st)).
Proof.
  pose proof (records_times_nonneg cell_content) as Hrecords.
  split; [now rewrite parse_shifts_records|].
  unfold report. rewrite classify_refines. unfold classify_spec.
  destruct (_ || _).
  - rewrite log_message_ok by apply day_entry_ok. repeat constructor; cbn; lia.
  - destruct (Py.contains _ _).
    + rewrite log_message_ok by apply day_entry_ok. repeat constructor; cbn; lia.
    + pose proof (last_of_all _ _ Hrecords) as Hlast.
      match goal with |- context [log_message ?entry] =>
        destruct (json_dumps_ok entry) eqn:Hjson;
        [rewrite (log_message_ok _ Hjson) | rewrite (log_message_fails _ Hjson)]
      end.
      * run_io. cbn [fst app mret io_ret].
        constructor; [|constructor].
        cbn [times_not_negative day_entry Log.shift_start Log.shift_end].
        destruct (records_of_cell cell_content) as [|first rest]; [cbn; lia|].
        inversion Hrecords as [|? ? Hfirst _]; subst.
        split; [apply Hfirst|].
        destruct (List.last _ _); [apply Hlast|lia].
      * unfold try_except, shift_processing_error.
        rewrite log_message_ok by apply day_entry_ok.
        repeat constructor; cbn; lia.
Qed.

(** ** Dates that are skipped *)

Section Skips.

Variable month_offsets : gmap Z Z.

(** X4: a time-out of the month navigation, or of the lookup of the
    cell, skips the date and nothing else: no record is logged, the
    message and the flag stay as they were, and the loop goes on with the
    dates that are left. *)
Theorem timeouts_skip_the_date pages round target_date rest st :
  (forall text e,
     label_text (pages round) (calendar_label st) = Ok text ->
     Py.strip text <> Py.strftime_B_Y target_date ->
     next_month (pages round) (Py.strftime_B_Y target_date) = Raise e ->
     is_timeout e = true ->
     process_dates month_offsets pages round (target_date :: rest) st
     = process_dates month_offsets pages (S round) rest st)
  /\ (forall tr st1 e,
        navigate (pages round) target_date st = (tr, Done (Some st1)) ->
        date_cell (pages round)
          (cell_index month_offsets (Py.month target_date) (Py.day target_date))
        = Raise e ->
        is_timeout e = true ->
        combined_message st1 = combined_message st
        /\ not_finalised_found st1 = not_finalised_found st
        /\ process_dates month_offsets pages round (target_date :: rest) st
           = process_dates month_offsets pages (S round) rest st1).
Proof.
  split.
  - intros text e Hlabel Hmonth Hnext Htimeout. cbn [process_dates].
    rewrite (process_date_navigation_fails _ _ _ _ _ _ Hlabel Hmonth Hnext), Htimeout.
    rewrite bind_done. cbn [app]. now destruct (process_dates _ _ _ _ _).
  - intros tr st1 e Hnav Hcell Htimeout.
    split; [exact (navigate_message _ _ _ _ _ Hnav)|].
    split; [exact (navigate_flag _ _ _ _ _ Hnav)|].
    cbn [process_dates].
    rewrite (process_date_cell_fails _ _ _ _ _ _ _ Hnav Hcell), Htimeout.
    pose proof (navigate_silent (pages round) target_date st) as Hsilent.
    rewrite Hnav in Hsilent. cbn [fst] in Hsilent. subst tr.
    rewrite bind_done. cbn [app]. now destruct (process_dates _ _ _ _ _).
Qed.


End Skips.

Lemma timeouts_skip_the_date_witness :
  process_dates sample_offsets
    (fun round => match round with
                  | O => page_without_cells
                  | S _ => page_showing "D0600-1400 (8)"
                  end)
    0 [Py.Date 2024 1 6; Py.Date 2024 1 7]
    {| combined_message := ""; not_finalised_found := false; calendar_label := 0%nat |}
  = process_dates sample_offsets
      (fun round => match round with
                    | O => page_without_cells
                    | S _ => page_showing "D0600-1400 (8)"
                    end)
      1 [Py.Date 2024 1 7]
      {| combined_message := ""; not_finalised_found := false; calendar_label := 0%nat |}.
Proof.
  apply (proj2 (timeouts_skip_the_date sample_offsets
                  (fun round => match round with
                                | O => page_without_cells
                                | S _ => page_showing "D0600-1400 (8)"
                                end)
                  0 (Py.Date 2024 1 6) [Py.Date 2024 1 7]
                  {| combined_message := ""; not_finalised_found := false;
                     calendar_label := 0%nat |})
           [] _ (TimeoutException "Message: ") eq_refl eq_refl eq_refl).
Defined.

Lemma message_has_one_piece_per_record_witness :
  exists reported,
    sublist (map fst reported) [Py.Date 2024 1 6; Py.Date 2024 1 7]
    /\ Forall2 day_record
         [LogLine (day_entry Log.INFO Log.SMS_SENT
                     "Hours for (Saturday) 6/1/2024 are: D0600-1400 (8) (c) Bsecurity"
                     (Py.Date 2024 1 6) 600 1400 8)]
         reported
    /\ ("Hours for (Saturday) 6/1/2024 are: D0600-1400 (8) (c) Bsecurity"
        +:+ String "010" EmptyString)
       = join_lines (map snd reported).
Proof.
  exact (message_has_one_piece_per_record sample_offsets
           (fun round => match round with
                         | O => page_showing "D0600-1400 (8)"
                         | S _ => page_without_cells
                         end)
           [Py.Date 2024 1 6; Py.Date 2024 1 7] 0%nat _ _ false 0%nat eq_refl).
Defined.

(** ** The date argument *)

Lemma eqb_other_length s t :
  String.length s <> String.length t -> String.eqb s t = false.
Proof. intros Hlen. apply String.eqb_neq. congruence. Qed.

(** X7: an argument of the form YYYY-MM-DD (four digits, two digits,
    two digits) is read as the date its digits name when the calendar has
    that day, whatever today's date is; when the calendar does not have it
    the script prints the diagnostic and exits with status 1. *)
Theorem iso_date_argument y1 y2 y3 y4 m1 m2 d1 d2 today :
  forallb Py.isdigit [y1; y2; y3; y4; m1; m2; d1; d2] = true ->
  determine_base_date
    (String y1 (String y2 (String y3 (String y4 (String "-"
       (String m1 (String m2 (String "-" (String d1 (String d2 EmptyString))))))))))
    today
  = match Py.make_date
            (1000 * Py.digit_value y1 + 100 * Py.digit_value y2
             + 10 * Py.digit_value y3 + Py.digit_value y4)
            (10 * Py.digit_value m1 + Py.digit_value m2)
            (10 * Py.digit_value d1 + Py.digit_value d2)
    with
    | Some base_date => ([], Done base_date)
    | None => ([Print invalid_date_message], Exited 1)
    end.
Proof.
  intros Hdigits. unfold determine_base_date.
  rewrite (strptime_iso_form _ _ _ _ _ _ _ _ Hdigits).
  rewrite !eqb_other_length by (rewrite lower_length; cbn; lia).
  now destruct (Py.make_date _ _ _).
Qed.

Lemma iso_date_argument_witness :
  determine_base_date "2023-02-29" (Py.Date 2024 1 4)
  = ([Print invalid_date_message], Exited 1).
Proof.
  exact (iso_date_argument "2" "0" "2" "3" "0" "2" "2" "9" (Py.Date 2024 1 4) eq_refl).
Defined.

(** ** A whole run *)

(** X8: whatever the browser answers, a run ends and calls [send_sms] at
    most once; when the run fails (an exception or [sys.exit]) the text
    message, if there is one, goes to the primary and the secondary
    recipient only. *)
Theorem at_most_one_text_message month_offsets RECIPIENTS MUM_SEND_DAYS max_retries
    retry_delay date_arg today world :
  exists tr o,
    main month_offsets RECIPIENTS MUM_SEND_DAYS max_retries retry_delay date_arg today world
    = Some (tr, o)
    /\ (length (sms_sent tr) <= 1)%nat
    /\ match o with
       | Done _ => True
       | _ => sms_all_to [self RECIPIENTS; wife RECIPIENTS] tr
       end.
Proof.
  destruct (main_trace month_offsets RECIPIENTS MUM_SEND_DAYS max_retries retry_delay
              date_arg today world) as (tr & o & Hmain & _ & Hsms & _ & Hto).
  eauto.
Qed.

(** X9: whatever the browser answers, a run opens at most [max_retries]
    browser sessions, never opens one while another is open, and leaves
    none open when it ends. *)
Theorem sessions_bounded_and_closed month_offsets RECIPIENTS MUM_SEND_DAYS max_retries
    retry_delay date_arg today world :
  exists tr o,
    main month_offsets RECIPIENTS MUM_SEND_DAYS max_retries retry_delay date_arg today world
    = Some (tr, o)
    /\ (sessions_opened tr <= max_retries)%nat
    /\ session_after false tr = Some false.
Proof.
  destruct (main_trace month_offsets RECIPIENTS MUM_SEND_DAYS max_retries retry_delay
              date_arg today world) as (tr & o & Hmain & Hsessions & _ & Hclosed & _).
  eauto.
Qed.

(** X10: a run falls through to "Script completed successfully." only
    when its date argument was read and some attempt, after attempts that
    all found the roster not finalised, ended with the flag clear; the
    counter then tells how many attempts went before it. *)
Theorem success_means_finalised month_offsets RECIPIENTS MUM_SEND_DAYS max_retries
    retry_delay date_arg today world tr j :
  (0 < max_retries)%nat ->
  main month_offsets RECIPIENTS MUM_SEND_DAYS max_retries retry_delay date_arg today world
  = Some (tr, Done j) ->
  exists test_dates,
    planned date_arg today test_dates
    /\ (j < max_retries)%nat
    /\ (forall k, (k < j)%nat -> not_finalised_attempt month_offsets test_dates (world k))
    /\ exists message, finalised_attempt month_offsets test_dates (world j) message.
Proof.
  intros Hpos. unfold main, planned.
  destruct (determine_base_date_cases date_arg today) as [[base Hbase]|[[e ->]| ->]];
    try discriminate.
  rewrite Hbase. destruct (get_test_dates base) as [dates|e] eqn:Hdates; [|discriminate].
  destruct (retry_loop _ _ _ _ _ _ _ _ _) as [[tr' [j'|e|c]]|] eqn:Hloop; try discriminate.
  cbn. intros [= <- <-].
  destruct (retry_loop_done _ _ _ _ _ _ _ _ _ _ _ Hpos Hloop) as (Hj & Hbefore & Hlast).
  exists dates. split; [eauto|]. split; [lia|]. split; [|exact Hlast].
  intros k Hk. apply Hbefore. lia.
Qed.

Lemma success_means_finalised_witness :
  exists test_dates,
    planned "today" (Py.Date 2024 1 4) test_dates
    /\ (2 < 120)%nat
    /\ (forall k, (k < 2)%nat ->
                  not_finalised_attempt sample_offsets test_dates (world_finalised_third k))
    /\ exists message,
         finalised_attempt sample_offsets test_dates (world_finalised_third 2) message.
Proof.
  refine (success_means_finalised sample_offsets Config.RECIPIENTS Config.MUM_SEND_DAYS
            120 60 "today" (Py.Date 2024 1 4) world_finalised_third _ 2 _ _).
  - lia.
  - reflexivity.
Defined.

(** X11: [setup_webdriver] is called outside the [try] of the attempt:
    when it raises, the exception ends the run as it is, no failure notice
    is sent, and the sessions opened are those of the attempts before. *)
Theorem driver_failure_is_not_reported month_offsets RECIPIENTS MUM_SEND_DAYS max_retries
    retry_delay date_arg today test_dates world j e :
  planned date_arg today test_dates ->
  (j < max_retries)%nat ->
  (forall k, (k < j)%nat -> not_finalised_attempt month_offsets test_dates (world k)) ->
  setup_webdriver (world j) = Raise e ->
  exists tr,
    main month_offsets RECIPIENTS MUM_SEND_DAYS max_retries retry_delay date_arg today world
    = Some (tr, Raised e)
    /\ sms_sent tr = []
    /\ sessions_opened tr = j.
Proof.
  intros Hplan Hj Hbefore Hsetup.
  destruct (retry_rounds month_offsets RECIPIENTS MUM_SEND_DAYS max_retries retry_delay
              test_dates world j 0 ltac:(lia) ltac:(intros; apply Hbefore; lia))
    as (prefix & Hsms & _ & Hsessions & Hloop).
  exists prefix. rewrite (main_planned _ _ _ _ _ _ _ _ _ Hplan).
  specialize (Hloop (S (max_retries - S j))).
  replace (j + S (max_retries - S j))%nat with max_retries in Hloop by lia.
  rewrite Hloop, retry_loop_round by lia. cbn [Nat.add].
  rewrite (attempt_setup_fails _ _ _ _ _ _ _ _ _ Hsetup).
  cbn. rewrite app_nil_r. auto.
Qed.

Lemma driver_failure_is_not_reported_witness :
  exists tr,
    main sample_offsets Config.RECIPIENTS Config.MUM_SEND_DAYS 120 60
      "today" (Py.Date 2024 1 4) world_without_driver_third
    = Some (tr, Raised (OtherException "WebDriverException" "Message: chrome not found"))
    /\ sms_sent tr = []
    /\ sessions_opened tr = 2%nat.
Proof.
  apply (driver_failure_is_not_reported sample_offsets Config.RECIPIENTS
           Config.MUM_SEND_DAYS 120 60 "today" (Py.Date 2024 1 4) [Py.Date 2024 1 5]
           world_without_driver_third 2).
  - exists (Py.Date 2024 1 4). split; reflexivity.
  - lia.
  - intros k Hk. destruct k as [|[|k]]; [| |lia];
      (split; [reflexivity|]; eexists _, _, _; reflexivity).
  - reflexivity.
Defined.

(** ** When no cell shows *)

Section Skipped.

Variable month_offsets : gmap Z Z.

Lemma process_date_skipped pg target_date st :
  (forall label, exists text, label_text pg label = Ok text) ->
  (forall month e, next_month pg month = Raise e -> is_timeout e = true) ->
  (forall index, exists e, date_cell pg index = Raise e /\ is_timeout e = true) ->
  exists st',
    process_date month_offsets pg target_date st = ([], Done (Next st'))
    /\ combined_message st' = combined_message st
    /\ not_finalised_found st' = not_finalised_found st.
Proof.
  intros Hlabel Hnext Hcell. unfold process_date.
  pose proof (navigate_silent pg target_date st) as Hsilent.
  destruct (navigate pg target_date st) as [tr [[st1|]|e|c]] eqn:Hnav;
    cbn [fst] in Hsilent; subst tr.
  - rewrite bind_done. unfold read_cell.
    destruct (Hcell (cell_index month_offsets (Py.month target_date) (Py.day target_date)))
      as (e & -> & Htimeout).
    cbn. rewrite Htimeout. cbn. exists st1.
    split; [reflexivity|]. split.
    + exact (navigate_message _ _ _ _ _ Hnav).
    + exact (navigate_flag _ _ _ _ _ Hnav).
  - exists st. cbn. auto.
  - exfalso. revert Hnav. unfold navigate.
    destruct (Hlabel (calendar_label st)) as [text ->]. run_io.
    destruct (negb _); [|discriminate].
    destruct (next_month pg _) as [lbl|e'] eqn:Hmonth; cbn; [discriminate|].
    rewrite (Hnext _ _ Hmonth). discriminate.
  - exfalso. revert Hnav. unfold navigate.
    destruct (Hlabel (calendar_label st)) as [text ->]. run_io.
    destruct (negb _); [|discriminate].
    destruct (next_month pg _) as [lbl|e'] eqn:Hmonth; cbn; [discriminate|].
    rewrite (Hnext _ _ Hmonth). discriminate.
Qed.

Lemma process_dates_skipped pages test_dates : forall round st,
  (forall round label, exists text, label_text (pages round) label = Ok text) ->
  (forall round month e, next_month (pages round) month = Raise e -> is_timeout e = true) ->
  (forall round index, exists e, date_cell (pages round) index = Raise e
                                 /\ is_timeout e = true) ->
  exists st',
    process_dates month_offsets pages round test_dates st = ([], Done st')
    /\ combined_message st' = combined_message st
    /\ not_finalised_found st' = not_finalised_found st.
Proof.
  induction test_dates as [|d rest IH]; intros round st Hlabel Hnext Hcell.
  - exists st. cbn. auto.
  - cbn [process_dates].
    destruct (process_date_skipped (pages round) d st (Hlabel round) (Hnext round)
                (Hcell round)) as (st1 & -> & Hmsg1 & Hflag1).
    rewrite bind_done. cbn [app].
    destruct (IH (S round) st1 Hlabel Hnext Hcell) as (st' & -> & Hmsg & Hflag).
    exists st'. cbn. split; [reflexivity|]. split; congruence.
Qed.

End Skipped.

(** X12: when the login succeeds and the cell of no date shows in time,
    every date is skipped, the message stays empty, and the run ends with
    status 0 after "No messages to send.": one session, no log record, no
    text message. *)
Theorem all_dates_skipped_sends_nothing month_offsets RECIPIENTS MUM_SEND_DAYS max_retries
    retry_delay date_arg today test_dates world label :
  planned date_arg today test_dates ->
  (0 < max_retries)%nat ->
  setup_webdriver (world 0%nat) = Ok tt ->
  login (world 0%nat) = ([], Done label) ->
  (forall round label, exists text, label_text (page (world 0%nat) round) label = Ok text) ->
  (forall round month e,
     next_month (page (world 0%nat) round) month = Raise e -> is_timeout e = true) ->
  (forall round index,
     exists e, date_cell (page (world 0%nat) round) index = Raise e /\ is_timeout e = true) ->
  main month_offsets RECIPIENTS MUM_SEND_DAYS max_retries retry_delay date_arg today world
  = Some ([OpenSession; QuitSession; Print "No messages to send.";
           Print "Script completed successfully."],
          Done 0%nat).
Proof.
  intros Hplan Hpos Hsetup Hlogin Hlabel Hnext Hcell.
  destruct (process_dates_skipped month_offsets (page (world 0%nat)) test_dates 0
              {| combined_message := ""; not_finalised_found := false;
                 calendar_label := label |} Hlabel Hnext Hcell)
    as (st' & Hdates & Hmsg & Hflag).
  assert (Hscrape : scrape month_offsets test_dates (world 0%nat)
                    = ([QuitSession], Done (""%string, false, calendar_label st'))).
  { unfold scrape, process_roster. rewrite Hlogin, bind_done, Hdates. cbn.
    cbn in Hmsg, Hflag. now rewrite Hmsg, Hflag. }
  rewrite (main_planned _ _ _ _ _ _ _ _ _ Hplan).
  destruct max_retries as [|fuel]; [lia|].
  rewrite retry_loop_round by lia.
  rewrite (attempt_succeeds _ _ _ _ _ _ _ _ _ _ _ Hsetup Hscrape). reflexivity.
Qed.

Lemma all_dates_skipped_sends_nothing_witness :
  main sample_offsets Config.RECIPIENTS Config.MUM_SEND_DAYS 120 60
    "today" (Py.Date 2024 1 4) (fun _ => browser_without_cells)
  = Some ([OpenSession; QuitSession; Print "No messages to send.";
           Print "Script completed successfully."],
          Done 0%nat).
Proof.
  apply (all_dates_skipped_sends_nothing sample_offsets Config.RECIPIENTS
           Config.MUM_SEND_DAYS 120 60 "today" (Py.Date 2024 1 4) [Py.Date 2024 1 5]
           (fun _ => browser_without_cells) 0%nat).
  - exists (Py.Date 2024 1 4). split; reflexivity.
  - lia.
  - reflexivity.
  - reflexivity.
  - intros round label. exists "January 2024"%string. reflexivity.
  - intros round month e [= <-]. reflexivity.
  - intros round index. exists (TimeoutException "Message: "). split; reflexivity.
Defined.

(** ** The record of a roster that is not finalised *)

Lemma report_kind target_date cell_content st :
  exists entry step,
    report target_date cell_content st = ([LogLine entry], Done step)
    /\ is_pending_log (LogLine entry)
       = match step with Break _ => true | Next _ => false end.
Proof.
  unfold report. destruct (classify cell_content) as [| |shifts total].
  - rewrite log_message_ok by apply day_entry_ok. cbn. eauto.
  - rewrite log_message_ok by apply day_entry_ok. cbn. eauto.
  - match goal with |- context [log_message ?entry] =>
      destruct (json_dumps_ok entry) eqn:Hjson;
      [rewrite (log_message_ok _ Hjson) | rewrite (log_message_fails _ Hjson)]
    end.
    + cbn. eauto.
    + unfold try_except, shift_processing_error.
      rewrite log_message_ok by apply day_entry_ok. cbn. eauto.
Qed.

Section Pending.

Variable month_offsets : gmap Z Z.

Lemma process_date_kind pg target_date st tr step :
  process_date month_offsets pg target_date st = (tr, Done step) ->
  match step with
  | Next _ => List.filter is_pending_log tr = []
  | Break _ => exists entry, tr = [LogLine entry] /\ is_pending_log (LogLine entry) = true
  end.
Proof.
  unfold process_date.
  pose proof (navigate_silent pg target_date st) as Hsilent.
  destruct (navigate pg target_date st) as [tr1 [[st1|]|e|c]];
    cbn [fst] in Hsilent; subst tr1; try discriminate.
  2: { intros [= <- <-]. reflexivity. }
  rewrite bind_done. cbn [app].
  pose proof (read_cell_silent month_offsets pg target_date) as Hcell.
  destruct (read_cell month_offsets pg target_date) as [tr2 [[cell|]|e|c]];
    cbn [fst] in Hcell; subst tr2; try discriminate.
  2: { intros [= <- <-]. reflexivity. }
  rewrite bind_done. cbn [app].
  destruct (report_kind target_date cell st1) as (entry & step' & -> & Hkind).
  cbn [fst snd]. intros [= <- <-].
  destruct step'; [cbn [List.filter]; now rewrite Hkind|eauto].
Qed.

Lemma process_dates_kind pages test_dates : forall round st tr st',
  not_finalised_found st = false ->
  process_dates month_offsets pages round test_dates st = (tr, Done st') ->
  if not_finalised_found st'
  then exists before entry,
         tr = before ++ [LogLine entry]
         /\ List.filter is_pending_log before = []
         /\ is_pending_log (LogLine entry) = true
  else List.filter is_pending_log tr = [].
Proof.
  induction test_dates as [|d rest IH]; intros round st tr st' Hclear; cbn [process_dates].
  - intros [= <- <-]. now rewrite Hclear.
  - destruct (process_date month_offsets (pages round) d st) as [tr1 [[st1|st1]|e|c]]
      eqn:Hround; try discriminate.
    + pose proof (process_date_flag _ _ _ _ _ _ Hround) as Hflag. cbn in Hflag.
      pose proof (process_date_kind _ _ _ _ _ Hround) as Hkind. cbn in Hkind.
      rewrite bind_done.
      destruct (process_dates month_offsets pages (S round) rest st1) as [tr2 o] eqn:Hrest.
      cbn [fst snd]. intros [= <- ->].
      assert (Hclear1 : not_finalised_found st1 = false) by congruence.
      specialize (IH _ _ _ _ Hclear1 Hrest).
      destruct (not_finalised_found st').
      * destruct IH as (before & entry & -> & Hbefore & Hentry).
        exists (tr1 ++ before), entry. rewrite app_assoc, List.filter_app, Hkind, Hbefore.
        auto.
      * now rewrite List.filter_app, Hkind, IH.
    + pose proof (process_date_flag _ _ _ _ _ _ Hround) as Hflag. cbn in Hflag.
      destruct (process_date_kind _ _ _ _ _ Hround) as (entry & -> & Hentry).
      rewrite bind_done. cbn [fst snd mret io_ret app].
      intros [= <- <-]. rewrite Hflag. exists [], entry. auto.
Qed.

(** X13: [process_roster] returns with the flag set exactly when the
    last record it logged is a SHIFT_NOT_FINALISED one, and it never logs
    such a record anywhere else. *)
Theorem pending_record_marks_the_retry pages test_dates label tr message flag label' :
  process_roster month_offsets pages test_dates label = (tr, Done (message, flag, label')) ->
  if flag
  then exists before entry,
         tr = before ++ [LogLine entry]
         /\ List.filter is_pending_log before = []
         /\ Log.event_of entry = Log.SHIFT_NOT_FINALISED
  else List.filter is_pending_log tr = [].
Proof.
  unfold process_roster.
  destruct (process_dates month_offsets pages 0 test_dates _) as [tr1 [st'|e|c]] eqn:Hdates;
    try discriminate.
  rewrite bind_done. cbn [fst snd mret io_ret]. rewrite app_nil_r.
  intros [= <- _ <- _].
  pose proof (process_dates_kind pages test_dates 0
                {| combined_message := ""; not_finalised_found := false;
                   calendar_label := label |} tr1 st' eq_refl Hdates) as Hkind.
  destruct (not_finalised_found st'); [|exact Hkind].
  destruct Hkind as (before & entry & -> & Hbefore & Hentry).
  exists before, entry. split; [reflexivity|]. split; [exact Hbefore|].
  cbn in Hentry. now destruct (Log.event_of entry).
Qed.

End Pending.

Lemma pending_record_marks_the_retry_witness :
  exists before entry,
    [LogLine (day_entry Log.INFO Log.SMS_SENT
                "Hours for (Saturday) 6/1/2024 are: D0600-1400 (8) (c) Bsecurity"
                (Py.Date 2024 1 6) 600 1400 8);
     LogLine (day_entry Log.WARNING Log.SHIFT_NOT_FINALISED
                "Not finalised for (Sunday) 7/1/2024." (Py.Date 2024 1 7) 0 0 0)]
    = before ++ [LogLine entry]
    /\ List.filter is_pending_log before = []
    /\ Log.event_of entry = Log.SHIFT_NOT_FINALISED.
Proof.
  exact (pending_record_marks_the_retry sample_offsets
           (fun round => match round with
                         | O => page_showing "D0600-1400 (8)"
                         | S _ => page_showing "Roster not finalised"
                         end)
           [Py.Date 2024 1 6; Py.Date 2024 1 7] 0%nat _ _ true 0%nat eq_refl).
Defined.

(** ** The time spent waiting *)

Lemma bracket_slept body tail :
  slept (OpenSession :: body ++ QuitSession :: tail) = (slept body + slept tail)%nat.
Proof.
  change (OpenSession :: body ++ QuitSession :: tail)
    with ([OpenSession] ++ body ++ [QuitSession] ++ tail).
  rewrite !slept_app. reflexivity.
Qed.

Section Waiting.

Variable month_offsets : gmap Z Z.
Variable RECIPIENTS : Recipients.
Variable MUM_SEND_DAYS : list string.
Variable max_retries retry_delay : nat.
Variable test_dates : list Py.date.
Variable world : nat -> Browser.

Local Abbreviation loop fuel current_retry :=
  (retry_loop month_offsets RECIPIENTS MUM_SEND_DAYS max_retries retry_delay
     fuel test_dates world current_retry).

Lemma retry_loop_slept fuel : forall current_retry tr o,
  loop fuel current_retry = Some (tr, o) ->
  (slept tr <= (max_retries - 1 - current_retry) * retry_delay)%nat
  /\ match o with
     | Done j => (current_retry < max_retries)%nat ->
                 slept tr = ((j - current_retry) * retry_delay)%nat
     | _ => True
     end.
Proof.
  induction fuel as [|fuel IH]; intros current_retry tr o.
  - cbn [retry_loop]. destruct (Nat.ltb_spec current_retry max_retries); [discriminate|].
    intros [= <- <-]. split; [apply Nat.le_0_l|]. intros Hlt. lia.
  - destruct (Nat.ltb_spec current_retry max_retries) as [Hlt|Hge].
    2: { cbn [retry_loop]. apply Nat.ltb_ge in Hge. rewrite Hge.
         intros [= <- <-]. split; [apply Nat.le_0_l|]. apply Nat.ltb_ge in Hge. intros Hlt. lia. }
    rewrite retry_loop_round by exact Hlt.
    destruct (attempt_trace month_offsets RECIPIENTS MUM_SEND_DAYS max_retries retry_delay
                test_dates (world current_retry) current_retry)
      as [[e ->]|(body & tail & Htrace & _ & _ & _ & _ & Hbody & Htail & _)].
    { intros [= <- <-]. split; [apply Nat.le_0_l|exact I]. }
    destruct (attempt _ _ _ _ _ _ (world current_retry) current_retry)
      as [tr1 [[next|stop]|e|c]] eqn:Hround; cbn [fst snd] in Htrace, Htail; subst tr1.
    + apply attempt_done in Hround as (-> & Hmore & _).
      destruct (loop fuel (S current_retry)) as [[tr' o']|] eqn:Hrest; [|discriminate].
      cbn [mbind option_bind]. intros [= <- <-].
      destruct (IH _ _ _ Hrest) as [Hbound Hexact].
      change (OpenSession :: (body ++ QuitSession :: tail) ++ tr')
        with ((OpenSession :: body ++ QuitSession :: tail) ++ tr').
      rewrite slept_app, bracket_slept, Hbody, Htail. split; [nia|].
      destruct o' as [j| |]; [|exact I|exact I]. intros _.
      destruct (retry_loop_done _ _ _ _ _ _ _ _ _ _ _ Hmore Hrest) as (Hj & _).
      rewrite (Hexact Hmore). nia.
    + apply attempt_done in Hround as (-> & _). intros [= <- <-].
      rewrite bracket_slept, Hbody, Htail. split; [apply Nat.le_0_l|]. intros _.
      rewrite Nat.sub_diag. reflexivity.
    + intros [= <- <-]. rewrite bracket_slept, Hbody, Htail. split; [apply Nat.le_0_l|exact I].
    + intros [= <- <-]. rewrite bracket_slept, Hbody, Htail. split; [apply Nat.le_0_l|exact I].
Qed.

End Waiting.

(** X14: the script sleeps only between two attempts: a run waits
    [retry_delay] seconds at most [max_retries - 1] times, and a run that
    falls through with the counter [j] has waited exactly
    [j * retry_delay] seconds. *)
Theorem waiting_time_is_bounded month_offsets RECIPIENTS MUM_SEND_DAYS max_retries
    retry_delay date_arg today world :
  exists tr o,
    main month_offsets RECIPIENTS MUM_SEND_DAYS max_retries retry_delay date_arg today world
    = Some (tr, o)
    /\ (slept tr <= (max_retries - 1) * retry_delay)%nat
    /\ match o with
       | Done j => slept tr = (j * retry_delay)%nat
       | _ => True
       end.
Proof.
  unfold main.
  destruct (determine_base_date_cases date_arg today) as [[base ->]|[[e ->]| ->]].
  - destruct (get_test_dates base) as [dates|e].
    + destruct (retry_loop_total month_offsets RECIPIENTS MUM_SEND_DAYS max_retries
                  retry_delay dates world max_retries 0 ltac:(lia)) as [[tr o] Hloop].
      rewrite Hloop. cbn [mbind option_bind app].
      destruct (retry_loop_slept _ _ _ _ _ _ _ _ _ _ _ Hloop) as [Hbound Hexact].
      rewrite Nat.sub_0_r in Hbound.
      destruct o as [j|e|c].
      * exists (tr ++ [Print "Script completed successfully."]), (Done j).
        split; [reflexivity|]. rewrite slept_app. cbn [slept fold_right].
        rewrite Nat.add_0_r. split; [exact Hbound|].
        destruct max_retries as [|n].
        -- cbn [retry_loop Nat.ltb Nat.leb] in Hloop. now injection Hloop as <- <-.
        -- rewrite Hexact by lia. now rewrite Nat.sub_0_r.
      * eexists _, _. split; [reflexivity|]. auto.
      * eexists _, _. split; [reflexivity|]. auto.
    + eexists _, _. split; [reflexivity|]. split; [apply Nat.le_0_l|exact I].
  - eexists _, _. split; [reflexivity|]. split; [apply Nat.le_0_l|exact I].
  - eexists _, _. split; [reflexivity|]. split; [apply Nat.le_0_l|exact I].
Qed.

